(** * MoodSpot: quota limiter, advice ranker and mood classifier client

    A shallow embedding of the service layer of the MoodSpot web
    application:

    - [RateLimiter]           (services/RateLimiter.js)
    - [LocalStorageManager]   (services/LocalStorageManager.js)
    - [MoodAdviceService]     (src/services/MoodAdviceService.js)
    - [MoodAnalysisService]   (services/MoodAnalysisService.js, with the
                               helpers of config/environment.js it calls)

    [LocalStorageManagerStores] and [MoodAnalysisServiceHistory] continue
    the storage manager and the analysis service with their reading,
    logging, caching and cleaning methods.  [LocalStorageManagerOverlap]
    has the methods that branch on the result of the quota check as they
    run when other calls are served in between.

    Conventions of the embedding.

    - The services are singletons with mutable fields; every method is a
      function from the state before the call to a completion and the
      state after it.  An [await] is a sequencing point: the methods are
      modelled as running to completion, one call after the other.  The
      one exception is the gap between the check and the increment of
      the database quota, which [LocalStorageManagerOverlap] opens to
      other calls; statements about the methods of [LocalStorageManager]
      and [LocalStorageManagerStores] themselves are about calls that no
      other call overlaps.
    - A JavaScript exception is the [Throw] completion carrying the
      [message] of the error object.
    - What a method reads from its surroundings (the clock, the random
      source, the outcome of a network or storage request) is an explicit
      argument.
    - Counters are integers ([Z]).  Fractional numbers (confidence,
      intensity, relevance) are rationals ([Q]): a value stands for the
      number itself, and sums and products are exact.  The code computes
      them in binary floating point, so a score of the code can differ
      from the score of the model in its last bits (0.5 + 0.35 * 0.2 +
      0.1 is 0.6699999999999999 there and 0.67 here); statements about
      scores are statements about the exact values.
    - Strings are sequences of 8-bit characters; case conversion and
      trimming act on the ASCII range, so they agree with the code on
      ASCII text only. *)

From Stdlib Require Import ZArith QArith Qround Qminmax String Ascii List Lia Lqa.
From Stdlib Require Import Permutation Sorted.
From stdpp Require Import gmap strings list fin_maps pretty.

Open Scope string_scope.
Open Scope Z_scope.

Set Warnings "-register-all".

(** ** Completions *)

Inductive Completion (A : Type) : Type :=
| Return (a : A)
| Throw (message : string).
Arguments Return {A} a.
Arguments Throw {A} message.

(** A JavaScript number that is either an integer or [NaN]. *)
Inductive JsNumber : Type :=
| Num (z : Z)
| NaN.

(** ** String helpers of the JavaScript runtime *)

Module JS.

(** [haystack.startsWith(needle)] *)
Fixpoint startsWith (needle haystack : string) : bool :=
  match needle, haystack with
  | EmptyString, _ => true
  | String _ _, EmptyString => false
  | String a n', String b h' => if Ascii.eqb a b then startsWith n' h' else false
  end.

(** [haystack.includes(needle)] *)
Fixpoint includes (needle haystack : string) : bool :=
  match haystack with
  | EmptyString => startsWith needle EmptyString
  | String _ h' => startsWith needle haystack || includes needle h'
  end.

(** Names every ordinary object inherits from [Object.prototype]; a
    property read [o[name]] with one of these names finds a function (or,
    for [__proto__], the prototype object) even when [o] has no such own
    property. *)
Definition Object_prototype_keys : list string :=
  [ "constructor"; "__defineGetter__"; "__defineSetter__"; "hasOwnProperty";
    "__lookupGetter__"; "__lookupSetter__"; "isPrototypeOf";
    "propertyIsEnumerable"; "toString"; "valueOf"; "__proto__";
    "toLocaleString" ].

(** The double-quote character. *)
Definition dquote : string := String (ascii_of_nat 34) EmptyString.

(** [String.prototype.toLowerCase] on the ASCII range: the letters [A]
    to [Z]; every other character is kept. *)
Definition toLowerCase_char (c : ascii) : ascii :=
  let n := N_of_ascii c in
  if ((65 <=? n) && (n <=? 90))%N then ascii_of_N (n + 32) else c.

Fixpoint toLowerCase (s : string) : string :=
  match s with
  | EmptyString => EmptyString
  | String c s' => String (toLowerCase_char c) (toLowerCase s')
  end.

(** [s.replace(/[^...]/g, '')]: keep the characters of the class. *)
Fixpoint keep (allowed : ascii -> bool) (s : string) : string :=
  match s with
  | EmptyString => EmptyString
  | String c s' => if allowed c then String c (keep allowed s') else keep allowed s'
  end.

(** The class [a-zA-Z0-9:,-]. *)
Definition cacheId_char (c : ascii) : bool :=
  let n := N_of_ascii c in
  (((97 <=? n) && (n <=? 122)) || ((65 <=? n) && (n <=? 90))
   || ((48 <=? n) && (n <=? 57))
   || (n =? 58) || (n =? 44) || (n =? 45))%N.

(** [Array.prototype.join] *)
Fixpoint join (sep : string) (l : list string) : string :=
  match l with
  | [] => EmptyString
  | [x] => x
  | x :: rest => x +:+ sep +:+ join sep rest
  end.

(** [a < b] on numbers. *)
Definition lt (a b : Q) : bool := negb (Qle_bool b a).

(** [Number.prototype.toFixed(1)] on the exact value of its argument: the
    nearest tenth, the larger one on a tie, below 10^21 in magnitude.
    The argument is the number the code holds, not the decimal literal it
    was written as: the literal [0.35] of a JavaScript source is the
    double just below 35/100 and prints as [0.3], while the rational
    35/100 is a tie and gives [0.4]. *)
Definition toFixed1_abs (x : Q) : string :=
  let n := Qfloor (x * 10 + 0.5)%Q in
  pretty (n / 10) +:+ "." +:+ pretty (n mod 10).

Definition toFixed1 (x : Q) : string :=
  if lt x 0 then "-" +:+ toFixed1_abs (- x)%Q else toFixed1_abs x.

(** [l[i]] for an integer index: [None] is [undefined]. *)
Definition index {A : Type} (l : list A) (i : Z) : option A :=
  if i <? 0 then None else nth_error l (Z.to_nat i).

(** [Array.prototype.sort(compareFn)], which is stable.  [le0 a b] says
    that [compareFn(a, b) <= 0]: [a] may stay in front of [b]. *)
Fixpoint sort_insert {A : Type} (le0 : A -> A -> bool) (x : A) (l : list A)
  : list A :=
  match l with
  | [] => [x]
  | y :: l' => if le0 x y then x :: y :: l' else y :: sort_insert le0 x l'
  end.

Fixpoint sort {A : Type} (le0 : A -> A -> bool) (l : list A) : list A :=
  match l with
  | [] => []
  | x :: l' => sort_insert le0 x (sort le0 l')
  end.


(** [Map.prototype.get] on a map with entries in insertion order. *)
Fixpoint Map_get {V : Type} (m : list (string * V)) (key : string) : option V :=
  match m with
  | [] => None
  | (k, v) :: rest => if String.eqb k key then Some v else Map_get rest key
  end.

(** [Map.prototype.set], and [o[key] = v] on an object: an existing key
    keeps its place, a new key is appended. *)
Fixpoint Map_set {V : Type} (m : list (string * V)) (key : string) (v : V)
  : list (string * V) :=
  match m with
  | [] => [(key, v)]
  | (k, w) :: rest =>
      if String.eqb k key then (k, v) :: rest
      else (k, w) :: Map_set rest key v
  end.

(** Values produced by [JSON.parse]. *)
Inductive Json : Type :=
| JNull
| JBool (b : bool)
| JNumber (q : Q)
| JString (s : string)
| JArray (items : list Json)
| JObject (fields : list (string * Json)).

(** Truthiness of a parsed value. *)
Definition truthy (v : Json) : bool :=
  match v with
  | JNull => false
  | JBool b => b
  | JNumber q => negb (Qeq_bool q 0)
  | JString s => negb (String.eqb s "")
  | JArray _ => true
  | JObject _ => true
  end.

(** [v.key] for one of the property names the services read (none of them
    is inherited): the last binding of a parsed object, [None] for
    [undefined]. *)
Definition field (v : Json) (key : string) : option Json :=
  match v with
  | JObject fields => Map_get (rev fields) key
  | _ => None
  end.

(** White space removed by [trim], in the ASCII range: tab, line feed,
    vertical tab, form feed, carriage return and space.  The no-break
    space and the other white space beyond ASCII, which
    [String.prototype.trim] removes too, are kept. *)
Definition is_space (c : ascii) : bool :=
  let n := N_of_ascii c in
  (((9 <=? n) && (n <=? 13)) || (n =? 32))%N.

Fixpoint trimStart (s : string) : string :=
  match s with
  | EmptyString => EmptyString
  | String c s' => if is_space c then trimStart s' else s
  end.

Fixpoint trimEnd (s : string) : string :=
  match s with
  | EmptyString => EmptyString
  | String c s' =>
      match trimEnd s' with
      | EmptyString => if is_space c then EmptyString else String c EmptyString
      | t => String c t
      end
  end.

Definition trim (s : string) : string := trimEnd (trimStart s).

(** [s.indexOf(c)] and [s.lastIndexOf(c)] for a one-character [c]. *)
Fixpoint indexOf_from (c : ascii) (s : string) (i : Z) : Z :=
  match s with
  | EmptyString => -1
  | String d s' => if Ascii.eqb c d then i else indexOf_from c s' (i + 1)
  end.

Definition indexOf (c : ascii) (s : string) : Z := indexOf_from c s 0.

Fixpoint lastIndexOf_from (c : ascii) (s : string) (i : Z) (found : Z) : Z :=
  match s with
  | EmptyString => found
  | String d s' =>
      lastIndexOf_from c s' (i + 1) (if Ascii.eqb c d then i else found)
  end.

Definition lastIndexOf (c : ascii) (s : string) : Z := lastIndexOf_from c s 0 (-1).

(** [s.substring(a, b)] for [0 <= a <= b]. *)
Definition substring (a b : Z) (s : string) : string :=
  String.substring (Z.to_nat a) (Z.to_nat (b - a)) s.

(** [ToInt32]: the value a bitwise operator sees. *)
Definition toInt32 (z : Z) : Z := (z + 2 ^ 31) mod 2 ^ 32 - 2 ^ 31.

(** The characters at positions 0, [step], 2 [step], ... *)
Fixpoint every_nth (step : nat) (skip : nat) (s : string) : list ascii :=
  match s with
  | EmptyString => []
  | String c s' =>
      match skip with
      | O => c :: every_nth step (Nat.pred step) s'
      | S k => every_nth step k s'
      end
  end.

End JS.

(** ** RateLimiter *)

Module RateLimiter.

(** [const RATE_LIMITS = { openai: 50, googlePlaces: 250, database: 1000 }] *)
Definition RATE_LIMITS_openai : Z := 50.
Definition RATE_LIMITS_googlePlaces : Z := 250.
Definition RATE_LIMITS_database : Z := 1000.

Record ServiceQuota : Type := { used : Z; limit : Z }.

(** The object held in [this.quotas]. *)
Record Quotas : Type := {
  date : string;
  services : gmap string ServiceQuota;
  resetTime : string
}.

(** What [new Date()] yields during one call: [getTodayString()] is the
    UTC calendar day, [getNextMidnight()] the ISO rendering of the next
    local midnight. *)
Record Clock : Type := {
  getTodayString : string;
  getNextMidnight : string
}.

(** The value kept under [STORAGE_KEY] in [localStorage]: nothing, or a
    text the limiter itself has written, or one that [JSON.parse]
    rejects.  [loadQuotas] takes whatever [JSON.parse] returns, so the
    code can also meet a text that parses to something else (an object
    with today's [date] and no [services], say, on which every operation
    raises a [TypeError]); such texts, which the limiter never writes,
    are not represented. *)
Inductive StoredItem : Type :=
| ItemAbsent                  (* [getItem] returns [null] (or the empty string) *)
| ItemCorrupt                 (* text on which [JSON.parse] throws *)
| ItemNull                    (* the text [null] *)
| ItemRecord (q : Quotas).    (* the JSON rendering of a quota record *)

Record LocalStorage : Type := {
  readable : bool;            (* [false]: [getItem] throws *)
  writable : bool;            (* [false]: [setItem] throws *)
  item : StoredItem
}.

(** The singleton: its two fields and the storage behind it. *)
Record State : Type := {
  quotas : option Quotas;
  initialized : bool;
  storage : LocalStorage
}.

(** [constructor()] *)
Definition constructor (ls : LocalStorage) : State :=
  {| quotas := None; initialized := false; storage := ls |}.

Definition default_services : gmap string ServiceQuota :=
  <["openai" := {| used := 0; limit := RATE_LIMITS_openai |}]>
  (<["googlePlaces" := {| used := 0; limit := RATE_LIMITS_googlePlaces |}]>
  (<["database" := {| used := 0; limit := RATE_LIMITS_database |}]> ∅)).

Definition createDefaultQuotas (clk : Clock) : Quotas :=
  {| date := getTodayString clk;
     services := default_services;
     resetTime := getNextMidnight clk |}.

(** [loadQuotas]: any exception of [getItem] or [JSON.parse] is caught and
    replaced by the default record. *)
Definition loadQuotas (clk : Clock) (st : State) : State :=
  let ls := storage st in
  let q :=
    if readable ls then
      match item ls with
      | ItemAbsent => Some (createDefaultQuotas clk)
      | ItemCorrupt => Some (createDefaultQuotas clk)
      | ItemNull => None
      | ItemRecord q => Some q
      end
    else Some (createDefaultQuotas clk) in
  {| quotas := q; initialized := initialized st; storage := ls |}.

(** [saveQuotas]: a failing [setItem] is logged and ignored. *)
Definition saveQuotas (st : State) : State :=
  let ls := storage st in
  if writable ls then
    {| quotas := quotas st; initialized := initialized st;
       storage := {| readable := readable ls; writable := writable ls;
                     item := match quotas st with
                             | Some q => ItemRecord q
                             | None => ItemNull
                             end |} |}
  else st.

Definition resetDailyCounters (clk : Clock) (st : State) : State :=
  saveQuotas
    {| quotas := Some {| date := getTodayString clk;
                         services := default_services;
                         resetTime := getNextMidnight clk |};
       initialized := initialized st; storage := storage st |}.

Definition checkAndResetDaily (clk : Clock) (st : State) : State :=
  match quotas st with
  | None => resetDailyCounters clk st
  | Some q =>
      if bool_decide (date q = getTodayString clk) then st
      else resetDailyCounters clk st
  end.

Definition initialize (clk : Clock) (st : State) : State :=
  if initialized st then st
  else
    let st1 := checkAndResetDaily clk (loadQuotas clk st) in
    {| quotas := quotas st1; initialized := true; storage := storage st1 |}.

(** The read [this.quotas.services[service]]. *)
Inductive Property : Type :=
| Own (sq : ServiceQuota)     (* an own property of [services] *)
| Inherited                   (* found on the prototype chain: no [used], no [limit] *)
| Undefined.

Definition getService (q : Quotas) (service : string) : Property :=
  match services q !! service with
  | Some sq => Own sq
  | None =>
      if bool_decide (service ∈ JS.Object_prototype_keys) then Inherited
      else Undefined
  end.

Definition TypeError_services : string :=
  "Cannot read properties of null (reading 'services')".

Definition checkQuota (clk : Clock) (service : string) (st : State)
  : Completion bool * State :=
  let st := initialize clk st in
  match quotas st with
  | None => (Throw TypeError_services, st)
  | Some q =>
      match getService q service with
      | Undefined => (Return false, st)
      | Inherited => (Return false, st)          (* undefined < undefined *)
      | Own sq => (Return (used sq <? limit sq), st)
      end
  end.

Definition incrementUsage (clk : Clock) (service : string) (st : State)
  : Completion bool * State :=
  let st := initialize clk st in
  match quotas st with
  | None => (Throw TypeError_services, st)
  | Some q =>
      match getService q service with
      | Undefined => (Return false, st)
      | Inherited =>
          (* undefined >= undefined is false; the increment lands on the
             inherited object, not on the quota record *)
          (Return true, saveQuotas st)
      | Own sq =>
          if limit sq <=? used sq then (Return false, st)
          else
            let q' := {| date := date q;
                         services := <[service := {| used := used sq + 1;
                                                     limit := limit sq |}]> (services q);
                         resetTime := resetTime q |} in
            (Return true,
             saveQuotas {| quotas := Some q'; initialized := initialized st;
                           storage := storage st |})
      end
  end.

Definition getRemainingQuota (clk : Clock) (service : string) (st : State)
  : Completion JsNumber * State :=
  let st := initialize clk st in
  match quotas st with
  | None => (Throw TypeError_services, st)
  | Some q =>
      match getService q service with
      | Undefined => (Return (Num 0), st)
      | Inherited => (Return NaN, st)            (* Math.max(0, NaN) *)
      | Own sq => (Return (Num (Z.max 0 (limit sq - used sq))), st)
      end
  end.

(** One entry of the object built by [getAllQuotas].  The [percentage]
    entry, a floating-point display value no modelled caller reads, is
    left out. *)
Record QuotaStatus : Type := {
  qs_used : Z;
  qs_limit : Z;
  qs_remaining : Z
}.

Record AllQuotas : Type := {
  aq_services : gmap string QuotaStatus;
  aq_resetTime : string;
  aq_date : string
}.

Definition getAllQuotas (clk : Clock) (st : State)
  : Completion AllQuotas * State :=
  let st := initialize clk st in
  match quotas st with
  | None => (Throw TypeError_services, st)
  | Some q =>
      (Return {| aq_services :=
                   (fun sq => {| qs_used := used sq; qs_limit := limit sq;
                                 qs_remaining := limit sq - used sq |})
                     <$> services q;
                 aq_resetTime := resetTime q;
                 aq_date := date q |}, st)
  end.

Definition forceReset (clk : Clock) (st : State) : State :=
  resetDailyCounters clk st.

(** A run of [incrementUsage] calls, each with its own clock reading;
    the results are collected in call order. *)
Fixpoint incrementMany (calls : list (Clock * string)) (st : State)
  : list (Completion bool) * State :=
  match calls with
  | [] => ([], st)
  | (clk, service) :: rest =>
      let '(r, st1) := incrementUsage clk service st in
      let '(rs, st2) := incrementMany rest st1 in
      (r :: rs, st2)
  end.

(** The services the limiter is configured for. *)
Definition known_services : list string := ["openai"; "googlePlaces"; "database"].

(** [used(s)] and [limit(s)] of a state, when the record has the service. *)
Definition counter (st : State) (service : string) : option ServiceQuota :=
  q ← quotas st; services q !! service.

End RateLimiter.

(** ** LocalStorageManager *)

Module LocalStorageManager.

(** The argument of [saveSession]: an optional [sessionId] and the other
    properties, which the manager only copies. *)
Record SessionData : Type := {
  sessionId : option string;
  session_fields : string
}.

Record StoredSession : Type := {
  stored_sessionId : string;
  stored_session_fields : string;
  session_timestamp : string;
  lastUpdated : string
}.

(** The argument of [saveMoodEntry], with the copied properties of type [A]. *)
Record MoodData (A : Type) : Type := {
  id : option string;
  timestamp : option string;
  mood_fields : A
}.
Arguments id {A} _.
Arguments timestamp {A} _.
Arguments mood_fields {A} _.

Record StoredMood (A : Type) : Type := {
  stored_id : string;
  stored_timestamp : string;
  stored_mood_fields : A
}.
Arguments stored_id {A} _.
Arguments stored_timestamp {A} _.
Arguments stored_mood_fields {A} _.

(** The two object stores written by the modelled methods, keyed by their
    key paths [sessionId] and [id]. *)
Record IndexedDB (A : Type) : Type := {
  sessions : gmap string StoredSession;
  moodHistory : gmap string (StoredMood A)
}.
Arguments sessions {A} _.
Arguments moodHistory {A} _.

(** What one call reads from its surroundings. *)
Record Ambient : Type := {
  clock : RateLimiter.Clock;
  open_error : option string;  (* [indexedDB.open] fails with this error *)
  put_error : option string;   (* [store.put] fails with this error *)
  now_iso : string;            (* [new Date().toISOString()] *)
  Date_now : Z;                (* [Date.now()] *)
  random36 : string            (* [Math.random().toString(36).substr(2, 9)] *)
}.

(** The manager singleton, the rate limiter it imports, the database, and
    the two [localStorage] entries used as a fallback for reads. *)
Record World (A : Type) : Type := {
  limiter : RateLimiter.State;
  db : bool;                   (* [this.db] holds a connection *)
  initialized : bool;
  idb : IndexedDB A;
  session_cache : option StoredSession;       (* [moodspot_session_cache] *)
  mood_cache : option (list (StoredMood A))   (* [moodspot_mood_cache] *)
}.
Arguments limiter {A} _.
Arguments db {A} _.
Arguments initialized {A} _.
Arguments idb {A} _.
Arguments session_cache {A} _.
Arguments mood_cache {A} _.

Section Manager.
Context {A : Type}.

Definition with_limiter (l : RateLimiter.State) (w : World A) : World A :=
  {| limiter := l; db := db w; initialized := initialized w; idb := idb w;
     session_cache := session_cache w; mood_cache := mood_cache w |}.

Definition with_idb (d : IndexedDB A) (w : World A) : World A :=
  {| limiter := limiter w; db := db w; initialized := initialized w; idb := d;
     session_cache := session_cache w; mood_cache := mood_cache w |}.

(** [initialize]: the promise rejects with [request.error] when the
    database cannot be opened. *)
Definition initialize (env : Ambient) (w : World A) : Completion unit * World A :=
  if initialized w && db w then (Return tt, w)
  else
    match open_error env with
    | Some e => (Throw e, w)
    | None =>
        (Return tt,
         {| limiter := limiter w; db := true; initialized := true;
            idb := idb w; session_cache := session_cache w;
            mood_cache := mood_cache w |})
    end.

(** [checkDatabaseQuota] as it runs when no other call is served between
    its check and its increment; [LocalStorageManagerOverlap] has the
    call with that gap open. *)
Definition checkDatabaseQuota (env : Ambient) (w : World A)
  : Completion bool * World A :=
  let '(hasQuota, l1) := RateLimiter.checkQuota (clock env) "database" (limiter w) in
  let w1 := with_limiter l1 w in
  match hasQuota with
  | Throw e => (Throw e, w1)
  | Return false => (Throw "Daily database operation limit exceeded", w1)
  | Return true =>
      let '(r, l2) := RateLimiter.incrementUsage (clock env) "database" l1 in
      (r, with_limiter l2 w1)
  end.

Definition generateSessionId (env : Ambient) : string :=
  "session_" +:+ pretty (Date_now env) +:+ "_" +:+ random36 env.

Definition generateId (env : Ambient) : string :=
  pretty (Date_now env) +:+ "_" +:+ random36 env.

(** [x || fallback] for an optional string: missing and empty are falsy. *)
Definition or_else (x : option string) (fallback : string) : string :=
  match x with
  | Some s => if String.eqb s "" then fallback else s
  | None => fallback
  end.

Definition saveSession (env : Ambient) (sessionData : SessionData) (w : World A)
  : Completion StoredSession * World A :=
  let '(r0, w0) := initialize env w in
  match r0 with
  | Throw e => (Throw e, w0)
  | Return _ =>
      let '(r1, w1) := checkDatabaseQuota env w0 in
      match r1 with
      | Throw e => (Throw e, w1)
      | Return false => (Throw "Database quota exceeded", w1)
      | Return true =>
          let sessionWithTimestamp :=
            {| stored_sessionId :=
                 or_else (sessionId sessionData) (generateSessionId env);
               stored_session_fields := session_fields sessionData;
               session_timestamp := now_iso env;
               lastUpdated := now_iso env |} in
          match put_error env with
          | Some e => (Throw e, w1)
          | None =>
              (Return sessionWithTimestamp,
               with_idb
                 {| sessions := <[stored_sessionId sessionWithTimestamp
                                   := sessionWithTimestamp]> (sessions (idb w1));
                    moodHistory := moodHistory (idb w1) |} w1)
          end
      end
  end.

Definition saveMoodEntry (env : Ambient) (moodData : MoodData A) (w : World A)
  : Completion (StoredMood A) * World A :=
  let '(r0, w0) := initialize env w in
  match r0 with
  | Throw e => (Throw e, w0)
  | Return _ =>
      let '(r1, w1) := checkDatabaseQuota env w0 in
      match r1 with
      | Throw e => (Throw e, w1)
      | Return false => (Throw "Database quota exceeded", w1)
      | Return true =>
          let moodWithId :=
            {| stored_id := or_else (id moodData) (generateId env);
               stored_timestamp := or_else (timestamp moodData) (now_iso env);
               stored_mood_fields := mood_fields moodData |} in
          match put_error env with
          | Some e => (Throw e, w1)
          | None =>
              (Return moodWithId,
               with_idb
                 {| sessions := sessions (idb w1);
                    moodHistory := <[stored_id moodWithId := moodWithId]>
                                     (moodHistory (idb w1)) |} w1)
          end
      end
  end.

Definition saveMoodAnalysis := saveMoodEntry.

(** [cacheImportantData]: the only writer of the two fallback entries. *)
Definition cacheImportantData (sessionData : option StoredSession)
    (moodHistory : option (list (StoredMood A))) (w : World A) : World A :=
  {| limiter := limiter w; db := db w; initialized := initialized w;
     idb := idb w;
     session_cache := match sessionData with
                      | Some s => Some s
                      | None => session_cache w
                      end;
     mood_cache := match moodHistory with
                   | Some l => Some (firstn 5 l)
                   | None => mood_cache w
                   end |}.

Definition getCachedSession (w : World A) : option StoredSession :=
  session_cache w.

Definition getCachedMoodHistory (w : World A) : list (StoredMood A) :=
  match mood_cache w with
  | Some l => l
  | None => []
  end.

End Manager.

End LocalStorageManager.

(** ** MoodAdviceService *)

Module MoodAdviceService.

Open Scope Q_scope.

Record Emotion : Type := { name : string; intensity : Q }.

(** The fields of a mood analysis the advice service reads. *)
Record MoodResult : Type := {
  primaryMood : string;
  confidence : Q;
  emotions : list Emotion
}.

(** An advice object.  [relevanceScore] is the optional property added by
    [personalizeAdvice]; [None] means the object has no such property. *)
Record AdviceItem : Type := {
  category : string;
  title : string;
  description : string;
  actionSteps : list string;
  techniques : list string;
  duration : string;
  difficulty : string;
  relevanceScore : option Q
}.

(** An entry of [userHistory]; only its optional [advice] array is read. *)
Record Session : Type := { session_advice : option (list AdviceItem) }.

(** The object returned by [getAdviceForMood].  [rec_personalizedMessage]
    is [None] when the message expression evaluates to [undefined]. *)
Record Recommendation : Type := {
  rec_mood : string;
  rec_intensity : Q;
  rec_emotions : list Emotion;
  rec_advice : list AdviceItem;
  rec_personalizedMessage : option string;
  rec_timestamp : string;
  rec_cacheId : string
}.

(** [{ ...recommendation, cachedAt: Date.now() }] *)
Record CachedRecommendation : Type := {
  cached : Recommendation;
  cachedAt : Z
}.

(** The value kept under [this.cacheKey] in [localStorage]: an object whose
    entries are listed in insertion order. *)
Inductive StoredCache : Type :=
| CacheAbsent
| CacheCorrupt
| CacheNull
| CacheObject (entries : list (string * CachedRecommendation)).

Record CacheStorage : Type := {
  cache_readable : bool;
  cache_writable : bool;
  cache_item : StoredCache
}.

(** What one call reads from its surroundings. *)
Record Ambient : Type := {
  Math_random : Q;            (* a draw of [Math.random()], in [0, 1) *)
  new_Date : string;          (* [new Date()], as JSON renders it *)
  Date_now : Z                (* [Date.now()] *)
}.

Definition advice_anxiety : list AdviceItem :=
  [ {| category := "anxiety";
       title := "Deep Breathing Exercise";
       description := "Calm your nervous system with controlled breathing techniques";
       actionSteps :=
         [ "Find a quiet, comfortable space";
           "Sit or lie down with your back straight";
           "Breathe in slowly through your nose for 4 counts";
           "Hold your breath for 4 counts";
           "Exhale slowly through your mouth for 6 counts";
           "Repeat for 5-10 cycles" ];
       techniques :=
         [ "4-7-8 breathing";
           "Box breathing";
           "Belly breathing";
           "Counted breathing" ];
       duration := "5-10 minutes";
       difficulty := "easy";
       relevanceScore := None |};
    {| category := "anxiety";
       title := "Grounding Technique (5-4-3-2-1)";
       description := "Use your senses to anchor yourself in the present moment";
       actionSteps :=
         [ "Name 5 things you can see around you";
           "Name 4 things you can touch";
           "Name 3 things you can hear";
           "Name 2 things you can smell";
           "Name 1 thing you can taste" ];
       techniques :=
         [ "Sensory grounding";
           "Mindful observation";
           "Present moment awareness" ];
       duration := "3-5 minutes";
       difficulty := "easy";
       relevanceScore := None |};
    {| category := "anxiety";
       title := "Progressive Muscle Relaxation";
       description := "Release physical tension to reduce mental anxiety";
       actionSteps :=
         [ "Lie down in a comfortable position";
           "Start with your toes - tense for 5 seconds, then relax";
           "Move up through each muscle group";
           "Focus on the contrast between tension and relaxation";
           "End with your face and scalp muscles" ];
       techniques :=
         [ "Body scan";
           "Tension release";
           "Mindful relaxation" ];
       duration := "15-20 minutes";
       difficulty := "medium";
       relevanceScore := None |};
    {| category := "anxiety";
       title := "Calming Visualization";
       description := "Create a mental safe space to reduce anxiety";
       actionSteps :=
         [ "Close your eyes and take three deep breaths";
           "Imagine a place where you feel completely safe and calm";
           "Engage all your senses in this visualization";
           "Stay in this space for several minutes";
           "Return to this place whenever you feel anxious" ];
       techniques :=
         [ "Guided imagery";
           "Safe place visualization";
           "Sensory imagination" ];
       duration := "10-15 minutes";
       difficulty := "medium";
       relevanceScore := None |} ].

Definition advice_sadness : list AdviceItem :=
  [ {| category := "sadness";
       title := "Gentle Movement";
       description := "Light physical activity to naturally boost mood";
       actionSteps :=
         [ "Step outside for fresh air";
           "Take a slow 10-15 minute walk";
           "Focus on your surroundings and nature";
           "Notice three beautiful things during your walk";
           "Practice gratitude for your body's ability to move" ];
       techniques :=
         [ "Walking meditation";
           "Nature therapy";
           "Gratitude practice";
           "Mindful movement" ];
       duration := "10-20 minutes";
       difficulty := "easy";
       relevanceScore := None |};
    {| category := "sadness";
       title := "Creative Expression";
       description := "Channel emotions through artistic activities";
       actionSteps :=
         [ "Choose a creative medium (drawing, writing, music)";
           "Set aside 15-30 minutes without distractions";
           "Express your feelings without judgment";
           "Focus on the process, not the outcome";
           "Reflect on what you created" ];
       techniques :=
         [ "Art therapy";
           "Journaling";
           "Music therapy";
           "Creative flow" ];
       duration := "15-30 minutes";
       difficulty := "easy";
       relevanceScore := None |};
    {| category := "sadness";
       title := "Connection and Support";
       description := "Reach out to others for emotional support";
       actionSteps :=
         [ "Identify someone you trust and feel comfortable with";
           "Reach out via call, text, or in person";
           "Share how you're feeling honestly";
           "Ask for a listening ear or gentle company";
           "Accept offers of support gracefully" ];
       techniques :=
         [ "Social support";
           "Vulnerability practice";
           "Communication skills" ];
       duration := "20-60 minutes";
       difficulty := "medium";
       relevanceScore := None |};
    {| category := "sadness";
       title := "Self-Compassion Practice";
       description := "Treat yourself with kindness during difficult times";
       actionSteps :=
         [ "Place your hand on your heart";
           "Acknowledge that you're suffering right now";
           "Remind yourself that suffering is part of human experience";
           "Offer yourself the same kindness you'd give a good friend";
           "Speak to yourself with gentle, caring words" ];
       techniques :=
         [ "Self-compassion meditation";
           "Loving-kindness practice";
           "Inner dialogue work" ];
       duration := "10-15 minutes";
       difficulty := "medium";
       relevanceScore := None |} ].

Definition advice_stress : list AdviceItem :=
  [ {| category := "stress";
       title := "Quick Stress Reset";
       description := "Immediate techniques to reduce stress in the moment";
       actionSteps :=
         [ "Stop what you're doing and take a pause";
           "Take 5 deep, slow breaths";
           "Drop your shoulders and relax your jaw";
           "Shake out your hands and arms";
           ("Remind yourself: " +:+ JS.dquote +:+ "This feeling will pass" +:+ JS.dquote +:+ "") ];
       techniques :=
         [ "Pause technique";
           "Body awareness";
           "Stress interruption" ];
       duration := "2-5 minutes";
       difficulty := "easy";
       relevanceScore := None |};
    {| category := "stress";
       title := "Time Management Technique";
       description := "Organize tasks to reduce overwhelming feelings";
       actionSteps :=
         [ "Write down everything on your mind";
           "Categorize tasks as urgent, important, or neither";
           "Choose only 3 priority items for today";
           "Break large tasks into smaller, manageable steps";
           "Schedule specific times for each priority task" ];
       techniques :=
         [ "Priority matrix";
           "Task breakdown";
           "Time blocking" ];
       duration := "15-20 minutes";
       difficulty := "medium";
       relevanceScore := None |};
    {| category := "stress";
       title := "Mindful Stress Release";
       description := "Use mindfulness to observe and release stress";
       actionSteps :=
         [ "Sit comfortably and close your eyes";
           "Notice where you feel stress in your body";
           "Breathe into those areas without trying to change them";
           "Observe the stress with curiosity, not judgment";
           "Imagine breathing out the tension with each exhale" ];
       techniques :=
         [ "Body scan meditation";
           "Mindful breathing";
           "Tension awareness" ];
       duration := "10-15 minutes";
       difficulty := "medium";
       relevanceScore := None |};
    {| category := "stress";
       title := "Physical Stress Release";
       description := "Use movement to discharge stress energy";
       actionSteps :=
         [ "Do 10 jumping jacks or run in place for 30 seconds";
           "Stretch your arms overhead and to each side";
           "Roll your shoulders backward 10 times";
           "Gently massage your temples and neck";
           "Take 5 deep breaths to settle" ];
       techniques :=
         [ "Exercise therapy";
           "Stretching";
           "Self-massage";
           "Energy discharge" ];
       duration := "5-10 minutes";
       difficulty := "easy";
       relevanceScore := None |} ].

Definition advice_happiness : list AdviceItem :=
  [ {| category := "happiness";
       title := "Gratitude Amplification";
       description := "Deepen and extend your positive feelings";
       actionSteps :=
         [ "Write down 3 specific things you're grateful for right now";
           "For each item, write why it matters to you";
           "Share your gratitude with someone else";
           "Take a moment to really feel the appreciation";
           "Set a reminder to practice gratitude daily" ];
       techniques :=
         [ "Gratitude journaling";
           "Appreciation practice";
           "Positive sharing" ];
       duration := "10-15 minutes";
       difficulty := "easy";
       relevanceScore := None |};
    {| category := "happiness";
       title := "Joy Sharing";
       description := "Spread your positive energy to others";
       actionSteps :=
         [ "Think of someone who would appreciate hearing from you";
           "Send them a message sharing something positive";
           "Compliment a stranger or do a small act of kindness";
           "Share your good mood through a smile or laugh";
           "Plan something fun to do with others" ];
       techniques :=
         [ "Social connection";
           "Kindness practice";
           "Positive communication" ];
       duration := "15-30 minutes";
       difficulty := "easy";
       relevanceScore := None |};
    {| category := "happiness";
       title := "Savoring Practice";
       description := "Fully experience and extend positive moments";
       actionSteps :=
         [ "Pause and notice what's making you happy right now";
           "Engage all your senses in the experience";
           "Take a mental photograph of this moment";
           "Share the experience with someone you care about";
           "Write about it to remember later" ];
       techniques :=
         [ "Mindful savoring";
           "Present moment awareness";
           "Memory creation" ];
       duration := "5-10 minutes";
       difficulty := "easy";
       relevanceScore := None |};
    {| category := "happiness";
       title := "Energy Investment";
       description := "Use your positive energy for meaningful activities";
       actionSteps :=
         [ "Choose an activity that aligns with your values";
           "Set a small, achievable goal for today";
           "Take action while your energy is high";
           "Notice how good it feels to make progress";
           "Celebrate your accomplishment" ];
       techniques :=
         [ "Goal setting";
           "Value-based action";
           "Achievement recognition" ];
       duration := "30-60 minutes";
       difficulty := "medium";
       relevanceScore := None |} ].

Definition advice_mixed : list AdviceItem :=
  [ {| category := "mixed";
       title := "Emotional Check-In";
       description := "Understand and validate complex emotions";
       actionSteps :=
         [ "Take a few deep breaths and center yourself";
           "Name each emotion you're experiencing";
           "Rate the intensity of each emotion (1-10)";
           "Ask yourself what each emotion might be telling you";
           "Practice accepting all emotions without judgment" ];
       techniques :=
         [ "Emotional awareness";
           "Mindful observation";
           "Self-validation" ];
       duration := "10-15 minutes";
       difficulty := "medium";
       relevanceScore := None |};
    {| category := "mixed";
       title := "Balanced Response";
       description := "Address multiple emotions with balanced techniques";
       actionSteps :=
         [ "Choose one calming technique for difficult emotions";
           "Choose one energizing technique for positive emotions";
           "Alternate between both approaches";
           "Notice how your emotional state shifts";
           "Adjust your approach based on what feels most needed" ];
       techniques :=
         [ "Emotional regulation";
           "Adaptive coping";
           "Flexible response" ];
       duration := "15-20 minutes";
       difficulty := "medium";
       relevanceScore := None |} ].

Definition advice_anger : list AdviceItem :=
  [ {| category := "anger";
       title := "Cooling Down Technique";
       description := "Safely discharge anger energy";
       actionSteps :=
         [ "Remove yourself from the triggering situation if possible";
           "Count slowly from 1 to 10, breathing deeply";
           "Do vigorous exercise for 5-10 minutes";
           "Write about your feelings without censoring";
           "Wait before responding or making decisions" ];
       techniques :=
         [ "Anger management";
           "Physical release";
           "Emotional processing" ];
       duration := "10-20 minutes";
       difficulty := "easy";
       relevanceScore := None |} ].

Definition advice_fear : list AdviceItem :=
  [ {| category := "fear";
       title := "Courage Building";
       description := "Face fears with gradual, supported steps";
       actionSteps :=
         [ "Identify what specifically you're afraid of";
           "Break the fear into smaller, manageable parts";
           "Take one small step toward facing the fear";
           "Use breathing techniques to stay calm";
           "Celebrate your courage in taking any step forward" ];
       techniques :=
         [ "Gradual exposure";
           "Fear analysis";
           "Courage practice" ];
       duration := "15-30 minutes";
       difficulty := "medium";
       relevanceScore := None |} ].

Definition initializeAdviceDatabase : list (string * list AdviceItem) :=
  [ ("anxiety", advice_anxiety);
    ("sadness", advice_sadness);
    ("stress", advice_stress);
    ("happiness", advice_happiness);
    ("mixed", advice_mixed);
    ("anger", advice_anger);
    ("fear", advice_fear) ].

(** The service object: [this.adviceDatabase] is a [Map] in insertion
    order, [this.cacheExpiry] is 24 hours in milliseconds. *)
Record Service : Type := {
  adviceDatabase : list (string * list AdviceItem);
  cacheExpiry : Z
}.

Definition constructor : Service :=
  {| adviceDatabase := initializeAdviceDatabase;
     cacheExpiry := (24 * 60 * 60 * 1000)%Z |}.

Definition getAdviceByCategory (this : Service) (category : string)
  : list AdviceItem :=
  let normalizedCategory := JS.toLowerCase category in
  match JS.Map_get (adviceDatabase this) normalizedCategory with
  | Some l => l
  | None => []
  end.

(** [calculateRelevanceScore], over the exact values of the numbers.
    [Math.min(score, 1.0)] is the only bound the code puts on the sum. *)
Definition calculateRelevanceScore
    (adviceItem : AdviceItem) (moodResult : MoodResult)
    (userHistory : list Session) : Q :=
  let score := 0.5 in
  let score :=
    if String.eqb (category adviceItem) (JS.toLowerCase (primaryMood moodResult))
    then score + 0.3 else score in
  let score :=
    fold_left
      (fun score emotion =>
         if String.eqb (category adviceItem) (JS.toLowerCase (name emotion))
         then score + intensity emotion * 0.2 else score)
      (emotions moodResult) score in
  let score :=
    if JS.lt 0.7 (confidence moodResult)
       && String.eqb (difficulty adviceItem) "easy"
    then score + 0.1
    else if JS.lt (confidence moodResult) 0.5
            && String.eqb (difficulty adviceItem) "medium"
    then score + 0.1
    else score in
  let score :=
    if (0 <? length userHistory)%nat then
      let hasUsedSimilar :=
        existsb
          (fun session =>
             match session_advice session with
             | Some l =>
                 existsb (fun used => String.eqb (category used)
                                                 (category adviceItem)) l
             | None => false
             end)
          userHistory in
      if hasUsedSimilar then score + 0.15 else score
    else score in
  Qmin score 1.0.

(** [{ ...item, relevanceScore: s }] *)
Definition with_relevanceScore (item : AdviceItem) (s : Q) : AdviceItem :=
  {| category := category item; title := title item;
     description := description item; actionSteps := actionSteps item;
     techniques := techniques item; duration := duration item;
     difficulty := difficulty item; relevanceScore := Some s |}.

(** [const { relevanceScore, ...adviceItem } = item] *)
Definition without_relevanceScore (item : AdviceItem) : AdviceItem :=
  {| category := category item; title := title item;
     description := description item; actionSteps := actionSteps item;
     techniques := techniques item; duration := duration item;
     difficulty := difficulty item; relevanceScore := None |}.

(** The comparator [(a, b) => b.relevanceScore - a.relevanceScore] has a
    result [<= 0] exactly when this holds; a missing score gives [NaN],
    which [sort] treats as 0. *)
Definition byRelevance_le0 (a b : AdviceItem) : bool :=
  match relevanceScore a, relevanceScore b with
  | Some sa, Some sb => Qle_bool (sb - sa) 0
  | _, _ => true
  end.

Definition personalizeAdvice
    (advice : list AdviceItem) (moodResult : MoodResult)
    (userHistory : list Session) : list AdviceItem :=
  let personalizedAdvice :=
    map (fun item =>
           with_relevanceScore item
             (calculateRelevanceScore item moodResult userHistory))
        advice in
  let personalizedAdvice := JS.sort byRelevance_le0 personalizedAdvice in
  let personalizedAdvice :=
    if JS.lt 0.8 (confidence moodResult) then
      List.filter (fun item => String.eqb (difficulty item) "easy"
                               || String.eqb (category item) "immediate_relief")
                  personalizedAdvice
    else personalizedAdvice in
  map without_relevanceScore (firstn 6 personalizedAdvice).

(** The [messages] object literal of [generatePersonalizedMessage]. *)
Definition messages : list (string * list string) :=
  [ ("anxiety",
     [ "I can see you're feeling anxious right now. These techniques can help calm your nervous system.";
       "Anxiety is challenging, but you have the strength to work through it. Let's start with some grounding exercises.";
       "Your feelings are valid. Here are some proven methods to help ease your anxiety." ]);
    ("sadness",
     [ "I notice you're going through a difficult time. These gentle activities can help lift your spirits.";
       "It's okay to feel sad. These suggestions focus on small, manageable steps toward feeling better.";
       "Your emotions matter. Let's explore some nurturing ways to support yourself right now." ]);
    ("stress",
     [ "You seem to be under a lot of pressure. These stress-relief techniques can help you find some calm.";
       "Stress can be overwhelming, but these methods can help you regain your sense of balance.";
       "Let's work on releasing some of that tension with these proven stress-reduction techniques." ]);
    ("happiness",
     [ "It's wonderful that you're feeling positive! Here are ways to maintain and share this good energy.";
       "Your happiness is beautiful. These suggestions can help you sustain and spread these positive feelings.";
       "Great to see you in a good mood! Let's explore ways to keep this positivity flowing." ]) ].

Definition generic_messages : list string :=
  [ "I'm here to support you through whatever you're feeling right now.";
    "Every emotion has value. Let's find some helpful techniques for your current state.";
    "You're taking a positive step by seeking support. Here are some personalized suggestions." ].

Definition TypeError_toLowerCase : string :=
  "Cannot read properties of undefined (reading 'toLowerCase')".

(** [messages[moodName] || [...]]: an own entry, else (for a name that
    [Object.prototype] provides) an inherited object that is truthy but has
    no elements, else the generic list. *)
Definition generatePersonalizedMessage
    (moodResult : MoodResult) (userHistory : list Session) (random : Q)
  : Completion (option string) :=
  let moodName := JS.toLowerCase (primaryMood moodResult) in
  let moodMessages : option (list string) :=
    match JS.Map_get messages moodName with
    | Some l => Some l
    | None =>
        if bool_decide (moodName ∈ JS.Object_prototype_keys) then None
        else Some generic_messages
    end in
  if (2 <? length userHistory)%nat then
    match moodMessages with
    | Some (m0 :: _) =>
        Return (Some ("Welcome back! Based on your recent sessions, "
                      +:+ JS.toLowerCase m0))
    | _ => Throw TypeError_toLowerCase
    end
  else
    match moodMessages with
    | Some l =>
        Return (JS.index l (Qfloor (random * inject_Z (Z.of_nat (length l)))))
    | None => Return None
    end.

Fixpoint removeDuplicateAdvice_from (seen : gset string)
    (advice : list AdviceItem) : list AdviceItem :=
  match advice with
  | [] => []
  | item :: rest =>
      let key := category item +:+ "-" +:+ title item in
      if bool_decide (key ∈ seen) then removeDuplicateAdvice_from seen rest
      else item :: removeDuplicateAdvice_from ({[key]} ∪ seen) rest
  end.

Definition removeDuplicateAdvice (advice : list AdviceItem) : list AdviceItem :=
  removeDuplicateAdvice_from ∅ advice.

(** [getCachedAdvice]: [None] is the value [null]. *)
Definition getCachedAdvice (ls : CacheStorage)
  : option (list (string * CachedRecommendation)) :=
  if cache_readable ls then
    match cache_item ls with
    | CacheAbsent => Some []
    | CacheCorrupt => Some []
    | CacheNull => None
    | CacheObject entries => Some entries
    end
  else Some [].

(** [(a, b) => b[1].cachedAt - a[1].cachedAt] is [<= 0]. *)
Definition byCachedAt_le0 (a b : string * CachedRecommendation) : bool :=
  (cachedAt (snd b) - cachedAt (snd a) <=? 0)%Z.

Definition cacheAdvice (recommendation : Recommendation) (now : Z)
    (ls : CacheStorage) : CacheStorage :=
  match getCachedAdvice ls with
  | None => ls                       (* TypeError, caught and logged *)
  | Some cache =>
      let cache := JS.Map_set cache (rec_cacheId recommendation)
                     {| cached := recommendation; cachedAt := now |} in
      let entries := cache in
      let to_store :=
        if (50 <? length entries)%nat
        then firstn 50 (JS.sort byCachedAt_le0 entries)
        else cache in
      if cache_writable ls then
        {| cache_readable := cache_readable ls;
           cache_writable := cache_writable ls;
           cache_item := CacheObject to_store |}
      else ls                        (* [setItem] throws, caught and logged *)
  end.

(** [getCachedAdviceById]: the read [cache[cacheId]] is outside any [try],
    so a stored text [null] makes it raise a [TypeError]; [Return None] is
    the value [null]. *)
Definition getCachedAdviceById (this : Service) (cacheId : string) (now : Z)
    (ls : CacheStorage) : Completion (option CachedRecommendation) :=
  match getCachedAdvice ls with
  | None =>
      Throw ("Cannot read properties of null (reading '" +:+ cacheId +:+ "')")
  | Some cache =>
      match JS.Map_get cache cacheId with
      | Some c =>
          if (now - cachedAt c <? cacheExpiry this)%Z
          then Return (Some c) else Return None
      | None => Return None
      end
  end.

Definition generateCacheId (moodResult : MoodResult) : string :=
  let emotionString :=
    JS.join ","
      (map (fun e => name e +:+ ":" +:+ JS.toFixed1 (intensity e))
           (emotions moodResult)) in
  JS.keep JS.cacheId_char (primaryMood moodResult +:+ "-" +:+ emotionString).

Definition getAdviceForMood (this : Service) (env : Ambient)
    (moodResult : MoodResult) (userHistory : list Session)
    (ls : CacheStorage) : Completion Recommendation * CacheStorage :=
  let relevantAdvice :=
    getAdviceByCategory this (JS.toLowerCase (primaryMood moodResult)) in
  let relevantAdvice :=
    fold_left
      (fun relevantAdvice emotion =>
         if JS.lt 0.3 (intensity emotion)
            && negb (String.eqb (name emotion) (primaryMood moodResult))
         then (relevantAdvice
                 ++ getAdviceByCategory this (JS.toLowerCase (name emotion)))%list
         else relevantAdvice)
      (emotions moodResult) relevantAdvice in
  let uniqueAdvice := removeDuplicateAdvice relevantAdvice in
  let personalizedAdvice :=
    personalizeAdvice uniqueAdvice moodResult userHistory in
  match generatePersonalizedMessage moodResult userHistory (Math_random env) with
  | Throw e => (Throw e, ls)
  | Return message =>
      let recommendation :=
        {| rec_mood := primaryMood moodResult;
           rec_intensity := confidence moodResult;
           rec_emotions := emotions moodResult;
           rec_advice := personalizedAdvice;
           rec_personalizedMessage := message;
           rec_timestamp := new_Date env;
           rec_cacheId := generateCacheId moodResult |} in
      (Return recommendation, cacheAdvice recommendation (Date_now env) ls)
  end.

Definition getAvailableCategories (this : Service) : list string :=
  map fst (adviceDatabase this).

Definition searchAdvice (this : Service) (query : string) : list AdviceItem :=
  let searchTerm := JS.toLowerCase query in
  flat_map
    (fun entry =>
       List.filter
         (fun advice =>
            JS.includes searchTerm (JS.toLowerCase (title advice))
            || JS.includes searchTerm (JS.toLowerCase (description advice))
            || existsb (fun technique =>
                          JS.includes searchTerm (JS.toLowerCase technique))
                       (techniques advice))
         (snd entry))
    (adviceDatabase this).

Definition clearCache (ls : CacheStorage) : CacheStorage :=
  if cache_writable ls then
    {| cache_readable := cache_readable ls;
       cache_writable := cache_writable ls;
       cache_item := CacheAbsent |}
  else ls.

End MoodAdviceService.

(** ** MoodAnalysisService *)

Module MoodAnalysisService.

Open Scope Q_scope.

(** The value of a [primaryMood] property: a string, an object inherited
    from [Object.prototype] (what [moodMappings[mood]] yields for a name
    such as [constructor]), or [undefined]. *)
Inductive MoodValue : Type :=
| MoodString (s : string)
| MoodObject
| MoodUndefined.

Record Recommendation : Type := {
  rec_title : string;
  rec_description : string;
  rec_icon : JS.Json
}.

(** [getBusinessCategoriesForMood] returns an array of category names, or
    the inherited object that [MOOD_BUSINESS_MAPPING[name]] finds for a
    name [Object.prototype] provides. *)
Inductive Categories : Type :=
| CategoryList (l : list string)
| CategoryInherited.

Record Metadata : Type := {
  md_timestamp : string;
  imageSize : option Q;
  md_compressionRatio : option Q;
  md_processingTime : option Z;
  error : option string;
  isFallback : bool
}.

(** The four properties that come from the classifier, the mock table or
    the fallback. *)
Record MoodData : Type := {
  primaryMood : MoodValue;
  confidence : Q;
  description : string;
  recommendations : list Recommendation
}.

(** An analysis result.  [moodData = None] is an object without the four
    properties above; [isMockData] and [isFallback] are [false] when the
    property is missing.  Properties of a parsed classifier answer that no
    code reads are not represented. *)
Record AnalysisResult : Type := {
  moodData : option MoodData;
  processingTime : option Q;
  isMockData : bool;
  timestamp : option string;
  businessCategories : option Categories;
  metadata : option Metadata
}.

(** The export of the drawing canvas. *)
Record ExportData : Type := {
  dataUrl : option string;
  compressedSize : option Q;
  ed_compressionRatio : option Q;
  width : option Z;
  height : option Z
}.

(** What [storeAnalysisResult] hands to [saveMoodEntry] besides [id] and
    [timestamp]. *)
Record MoodEntry : Type := {
  imageData : string;
  imageDimensions : option Z * option Z;
  analysis : AnalysisResult;
  sessionId : string
}.

(** The answer of the classifier endpoint. *)
Inductive ResponseBody : Type :=
| NoMessage                         (* no [choices[0].message] *)
| MessageWithoutContent             (* [message.content] is [null] *)
| MessageContent (content : string).

Inductive FetchOutcome : Type :=
| FetchRejected (message : string)                   (* [fetch] rejects *)
| ResponseNotOk (status : Z) (error_message : option string)
| ResponseBodyInvalid (message : string)   (* [response.json()] rejects *)
| ResponseOk (body : ResponseBody).

(** The value kept under [moodspot_analysis_cache] in [localStorage]. *)
Inductive StoredAnalysisCache : Type :=
| AnalysisCacheAbsent
| AnalysisCacheCorrupt
| AnalysisCacheNull
| AnalysisCacheObject (entries : list (string * AnalysisResult)).

(** The fields of the service singleton. *)
Record State : Type := {
  apiKey : option string;
  isInitialized : bool;
  analysisCache : list (string * AnalysisResult)
}.

(** The service, the singletons it imports, the [localStorage] entries it
    touches, and the moods handed to the remote database client. *)
Record World : Type := {
  service : State;
  storage : LocalStorageManager.World MoodEntry;
  analysis_cache_item : StoredAnalysisCache;
  session_id_item : option string;
  localStorage_readable : bool;
  localStorage_writable : bool;
  tidb_requests : list (MoodValue * Q)
}.

(** What one call reads from its surroundings.  [random k] is the k-th
    draw of [Math.random()] during the call. *)
Record Ambient : Type := {
  storage_env : LocalStorageManager.Ambient;
  getApiKey_openai : Completion (option string);   (* [getApiKey('openai')] *)
  isDevelopment : Completion bool;                 (* [isDevelopment()] *)
  random : nat -> Q;
  fetch : FetchOutcome;
  api_processingTime : Z;          (* [Date.now() - startTime] *)
  metadata_processingTime : Z;     (* [Date.now() - Date.now()] *)
  session_random36 : string
}.

Definition validMoods : list string :=
  [ "happy"; "sad"; "anxious"; "calm"; "creative"; "energetic"; "tired";
    "angry"; "excited"; "peaceful"; "confident"; "overwhelmed"; "lonely";
    "frustrated"; "inspired" ].

Definition moodMappings : list (string * string) :=
  [ ("joyful", "happy");
    ("cheerful", "happy");
    ("elated", "excited");
    ("depressed", "sad");
    ("melancholy", "sad");
    ("worried", "anxious");
    ("nervous", "anxious");
    ("stressed", "overwhelmed");
    ("relaxed", "calm");
    ("serene", "peaceful");
    ("tranquil", "peaceful");
    ("artistic", "creative");
    ("imaginative", "creative");
    ("lively", "energetic");
    ("vigorous", "energetic");
    ("exhausted", "tired");
    ("weary", "tired");
    ("mad", "angry");
    ("furious", "angry");
    ("thrilled", "excited");
    ("enthusiastic", "excited");
    ("sure", "confident");
    ("self-assured", "confident");
    ("swamped", "overwhelmed");
    ("isolated", "lonely");
    ("alone", "lonely");
    ("annoyed", "frustrated");
    ("irritated", "frustrated");
    ("motivated", "inspired");
    ("uplifted", "inspired") ].

Definition MOOD_BUSINESS_MAPPING : list (string * list string) :=
  [ ("happy", ["restaurant"; "amusement_park"; "shopping_mall"; "movie_theater"; "park"]);
    ("excited", ["amusement_park"; "night_club"; "bowling_alley"; "movie_theater"; "shopping_mall"]);
    ("calm", ["spa"; "park"; "library"; "cafe"; "museum"]);
    ("peaceful", ["park"; "spa"; "library"; "church"; "museum"]);
    ("anxious", ["spa"; "park"; "cafe"; "gym"; "library"]);
    ("stressed", ["spa"; "gym"; "park"; "cafe"; "massage"]);
    ("sad", ["cafe"; "library"; "park"; "movie_theater"; "restaurant"]);
    ("angry", ["gym"; "park"; "spa"; "bowling_alley"; "massage"]);
    ("tired", ["cafe"; "spa"; "park"; "restaurant"; "massage"]);
    ("energetic", ["gym"; "amusement_park"; "shopping_mall"; "bowling_alley"; "park"]);
    ("creative", ["art_gallery"; "museum"; "library"; "cafe"; "bookstore"]);
    ("social", ["restaurant"; "bar"; "movie_theater"; "shopping_mall"; "cafe"]);
    ("contemplative", ["library"; "museum"; "park"; "cafe"; "church"]);
    ("playful", ["amusement_park"; "bowling_alley"; "arcade"; "park"; "movie_theater"]) ].

Definition DEFAULT_BUSINESS_CATEGORIES : list string :=
  [ "restaurant"; "cafe"; "park"; "shopping_mall"; "movie_theater" ].

(** One entry of the [moodDatabase] literal of [generateMockAnalysis]; its
    confidence is [confidence_base + Math.random() * confidence_spread]. *)
Record MoodTemplate : Type := {
  template_key : string;
  template_primaryMood : string;
  confidence_base : Q;
  confidence_spread : Q;
  template_description : string;
  template_recommendations : list Recommendation
}.

Definition mood_templates : list MoodTemplate :=
  [ {| template_key := "happy";
       template_primaryMood := "happy";
       confidence_base := 0.85;
       confidence_spread := 0.1;
       template_description :=
         "Your drawing radiates joy with bright colors and uplifting strokes.";
       template_recommendations :=
         [ {| rec_title := "Share Your Joy";
              rec_description :=
                "Call a friend and share this positive energy with someone you care about.";
              rec_icon := JS.JString "📞" |};
           {| rec_title := "Celebrate This Moment";
              rec_description :=
                "Take a photo or write in a gratitude journal to capture this happiness.";
              rec_icon := JS.JString "📸" |};
           {| rec_title := "Spread Positivity";
              rec_description :=
                "Do something kind for someone else to multiply your joy.";
              rec_icon := JS.JString "🌟" |} ] |};
    {| template_key := "sad";
       template_primaryMood := "sad";
       confidence_base := 0.75;
       confidence_spread := 0.15;
       template_description :=
         "Your drawing shows gentle, melancholic tones suggesting you need comfort.";
       template_recommendations :=
         [ {| rec_title := "Gentle Self-Care";
              rec_description :=
                "Make yourself a warm drink and wrap up in something cozy.";
              rec_icon := JS.JString "☕" |};
           {| rec_title := "Connect with Support";
              rec_description :=
                "Reach out to a trusted friend or family member for a caring conversation.";
              rec_icon := JS.JString "🤗" |};
           {| rec_title := "Honor Your Feelings";
              rec_description :=
                "Allow yourself to feel sad - it's okay and this emotion will pass.";
              rec_icon := JS.JString "💙" |} ] |};
    {| template_key := "anxious";
       template_primaryMood := "anxious";
       confidence_base := 0.78;
       confidence_spread := 0.12;
       template_description :=
         "Your drawing shows tension and worried energy in the lines and composition.";
       template_recommendations :=
         [ {| rec_title := "Deep Breathing";
              rec_description :=
                "Try 4-7-8 breathing: inhale for 4, hold for 7, exhale for 8 counts.";
              rec_icon := JS.JString "🫁" |};
           {| rec_title := "Grounding Exercise";
              rec_description :=
                "Name 5 things you see, 4 you can touch, 3 you hear, 2 you smell, 1 you taste.";
              rec_icon := JS.JString "🌱" |};
           {| rec_title := "Gentle Movement";
              rec_description :=
                "Take a slow walk or do gentle stretches to release physical tension.";
              rec_icon := JS.JString "🚶" |} ] |};
    {| template_key := "calm";
       template_primaryMood := "calm";
       confidence_base := 0.82;
       confidence_spread := 0.08;
       template_description :=
         "Your drawing displays peaceful, flowing lines suggesting inner tranquility.";
       template_recommendations :=
         [ {| rec_title := "Mindful Moment";
              rec_description :=
                "Sit quietly and focus on your breath for 5 minutes to deepen this calm.";
              rec_icon := JS.JString "🧘" |};
           {| rec_title := "Nature Connection";
              rec_description :=
                "Step outside or look out a window to connect with natural beauty.";
              rec_icon := JS.JString "🌿" |};
           {| rec_title := "Peaceful Activity";
              rec_description :=
                "Read something inspiring or listen to gentle music.";
              rec_icon := JS.JString "📚" |} ] |};
    {| template_key := "creative";
       template_primaryMood := "creative";
       confidence_base := 0.87;
       confidence_spread := 0.08;
       template_description :=
         "Your drawing shows artistic flair and imaginative expression.";
       template_recommendations :=
         [ {| rec_title := "Capture Ideas";
              rec_description :=
                "Write down or sketch any creative inspirations while they're fresh.";
              rec_icon := JS.JString "💡" |};
           {| rec_title := "Explore Art";
              rec_description :=
                "Try a new artistic medium or visit a gallery for inspiration.";
              rec_icon := JS.JString "🎨" |};
           {| rec_title := "Creative Project";
              rec_description :=
                "Start or continue a creative project that excites you.";
              rec_icon := JS.JString "✨" |} ] |};
    {| template_key := "energetic";
       template_primaryMood := "energetic";
       confidence_base := 0.89;
       confidence_spread := 0.06;
       template_description :=
         "Your drawing pulses with dynamic energy and vibrant movement.";
       template_recommendations :=
         [ {| rec_title := "Physical Activity";
              rec_description :=
                "Channel this energy into exercise, dancing, or active movement.";
              rec_icon := JS.JString "💃" |};
           {| rec_title := "Productive Tasks";
              rec_description :=
                "Tackle that project or task you've been putting off.";
              rec_icon := JS.JString "⚡" |};
           {| rec_title := "Social Energy";
              rec_description :=
                "Connect with friends for an energizing activity or conversation.";
              rec_icon := JS.JString "👥" |} ] |};
    {| template_key := "tired";
       template_primaryMood := "tired";
       confidence_base := 0.73;
       confidence_spread := 0.12;
       template_description :=
         "Your drawing shows fatigue with heavy, weary strokes.";
       template_recommendations :=
         [ {| rec_title := "Rest Permission";
              rec_description :=
                "Give yourself permission to rest without guilt - you deserve it.";
              rec_icon := JS.JString "😴" |};
           {| rec_title := "Gentle Restoration";
              rec_description :=
                "Take a warm bath or shower to refresh your body and mind.";
              rec_icon := JS.JString "🛁" |};
           {| rec_title := "Energy Foods";
              rec_description :=
                "Eat something nourishing and drink plenty of water.";
              rec_icon := JS.JString "🍎" |} ] |};
    {| template_key := "angry";
       template_primaryMood := "angry";
       confidence_base := 0.84;
       confidence_spread := 0.11;
       template_description :=
         "Your drawing shows sharp, aggressive strokes indicating intense anger.";
       template_recommendations :=
         [ {| rec_title := "Safe Physical Release";
              rec_description :=
                "Punch a pillow, do jumping jacks, or go for a vigorous run.";
              rec_icon := JS.JString "🥊" |};
           {| rec_title := "Cool Down Time";
              rec_description :=
                "Take 10 deep breaths and count to 20 before responding.";
              rec_icon := JS.JString "❄️" |};
           {| rec_title := "Express Safely";
              rec_description :=
                "Write about your anger or talk to someone you trust.";
              rec_icon := JS.JString "✍️" |} ] |};
    {| template_key := "excited";
       template_primaryMood := "excited";
       confidence_base := 0.91;
       confidence_spread := 0.07;
       template_description :=
         "Your drawing bursts with enthusiasm and anticipatory energy.";
       template_recommendations :=
         [ {| rec_title := "Channel Excitement";
              rec_description :=
                "Use this energy to work on something you're passionate about.";
              rec_icon := JS.JString "🚀" |};
           {| rec_title := "Share the Buzz";
              rec_description :=
                "Tell someone about what's got you so excited!";
              rec_icon := JS.JString "📢" |};
           {| rec_title := "Plan Action";
              rec_description :=
                "Make concrete plans to act on whatever is exciting you.";
              rec_icon := JS.JString "📋" |} ] |};
    {| template_key := "peaceful";
       template_primaryMood := "peaceful";
       confidence_base := 0.86;
       confidence_spread := 0.09;
       template_description :=
         "Your drawing emanates serenity with soft, harmonious lines.";
       template_recommendations :=
         [ {| rec_title := "Savor the Peace";
              rec_description :=
                "Sit quietly and fully experience this beautiful sense of calm.";
              rec_icon := JS.JString "🕊️" |};
           {| rec_title := "Meditation Time";
              rec_description :=
                "Spend 10-15 minutes in peaceful meditation or prayer.";
              rec_icon := JS.JString "🧘‍♀️" |};
           {| rec_title := "Share Serenity";
              rec_description :=
                "Be a calming presence for someone who might need it.";
              rec_icon := JS.JString "☮️" |} ] |};
    {| template_key := "confident";
       template_primaryMood := "confident";
       confidence_base := 0.88;
       confidence_spread := 0.08;
       template_description :=
         "Your drawing shows bold, decisive strokes reflecting strong self-assurance.";
       template_recommendations :=
         [ {| rec_title := "Take Bold Action";
              rec_description :=
                "Use this confidence to tackle something challenging.";
              rec_icon := JS.JString "💪" |};
           {| rec_title := "Lead Others";
              rec_description :=
                "Step up and offer leadership or guidance to someone.";
              rec_icon := JS.JString "👑" |};
           {| rec_title := "Set Big Goals";
              rec_description :=
                "This is the perfect time to aim high and dream big.";
              rec_icon := JS.JString "🎯" |} ] |};
    {| template_key := "overwhelmed";
       template_primaryMood := "overwhelmed";
       confidence_base := 0.81;
       confidence_spread := 0.14;
       template_description :=
         "Your drawing shows chaotic, overlapping lines suggesting you feel swamped.";
       template_recommendations :=
         [ {| rec_title := "Priority List";
              rec_description :=
                "Write down everything, then pick just the top 3 most important items.";
              rec_icon := JS.JString "📝" |};
           {| rec_title := "Take a Break";
              rec_description :=
                "Step away for 15 minutes - even overwhelm needs a pause.";
              rec_icon := JS.JString "⏸️" |};
           {| rec_title := "Ask for Help";
              rec_description :=
                "Reach out to someone who can assist or just listen.";
              rec_icon := JS.JString "🆘" |} ] |};
    {| template_key := "lonely";
       template_primaryMood := "lonely";
       confidence_base := 0.77;
       confidence_spread := 0.13;
       template_description :=
         "Your drawing has isolated elements suggesting you're feeling disconnected.";
       template_recommendations :=
         [ {| rec_title := "Reach Out";
              rec_description :=
                "Send a text or make a call to someone you care about.";
              rec_icon := JS.JString "📱" |};
           {| rec_title := "Join Something";
              rec_description :=
                "Look for a group, class, or community activity to join.";
              rec_icon := JS.JString "👥" |};
           {| rec_title := "Self-Compassion";
              rec_description :=
                "Be gentle with yourself - loneliness is temporary and normal.";
              rec_icon := JS.JString "💝" |} ] |};
    {| template_key := "frustrated";
       template_primaryMood := "frustrated";
       confidence_base := 0.85;
       confidence_spread := 0.10;
       template_description :=
         "Your drawing shows blocked, jagged energy indicating frustration.";
       template_recommendations :=
         [ {| rec_title := "Step Away";
              rec_description :=
                "Take a break from whatever is frustrating you right now.";
              rec_icon := JS.JString "🚪" |};
           {| rec_title := "Physical Release";
              rec_description :=
                "Do some vigorous exercise to discharge the frustrated energy.";
              rec_icon := JS.JString "🏃" |};
           {| rec_title := "New Approach";
              rec_description :=
                "Try tackling the problem from a completely different angle.";
              rec_icon := JS.JString "🔄" |} ] |};
    {| template_key := "inspired";
       template_primaryMood := "inspired";
       confidence_base := 0.93;
       confidence_spread := 0.05;
       template_description :=
         "Your drawing flows with creative inspiration and visionary energy.";
       template_recommendations :=
         [ {| rec_title := "Capture the Vision";
              rec_description :=
                "Write down or sketch your inspired ideas immediately.";
              rec_icon := JS.JString "💡" |};
           {| rec_title := "Take Action";
              rec_description :=
                "Start working on whatever is inspiring you - strike while the iron is hot!";
              rec_icon := JS.JString "⚡" |};
           {| rec_title := "Share Inspiration";
              rec_description :=
                "Tell others about your vision - inspiration is contagious.";
              rec_icon := JS.JString "✨" |} ] |} ].

(** [getBusinessCategoriesForMood] of config/environment.js. *)
Definition getBusinessCategoriesForMood (mood : MoodValue) : Completion Categories :=
  match mood with
  | MoodObject => Throw "mood.toLowerCase is not a function"
  | MoodUndefined =>
      Throw "Cannot read properties of undefined (reading 'toLowerCase')"
  | MoodString s =>
      let normalizedMood := JS.trim (JS.toLowerCase s) in
      match JS.Map_get MOOD_BUSINESS_MAPPING normalizedMood with
      | Some categories => Return (CategoryList categories)
      | None =>
          if bool_decide (normalizedMood ∈ JS.Object_prototype_keys)
          then Return CategoryInherited
          else
            match List.find
                    (fun entry => JS.includes (fst entry) normalizedMood
                                  || JS.includes normalizedMood (fst entry))
                    MOOD_BUSINESS_MAPPING with
            | Some entry => Return (CategoryList (snd entry))
            | None => Return (CategoryList DEFAULT_BUSINESS_CATEGORIES)
            end
      end
  end.

(** The [moodDatabase] literal: the k-th entry consumes the k-th draw. *)
Definition moodDatabase (random : nat -> Q) : list (string * MoodData) :=
  imap (fun k t =>
          (template_key t,
           {| primaryMood := MoodString (template_primaryMood t);
              confidence := confidence_base t + random k * confidence_spread t;
              description := template_description t;
              recommendations := template_recommendations t |}))
       mood_templates.

Definition generateMockAnalysis (random : nat -> Q) (now_iso : string)
  : AnalysisResult :=
  let moodDatabase := moodDatabase random in
  let moodKeys := map fst moodDatabase in
  let randomIndex :=
    Qfloor (random (length mood_templates)
            * inject_Z (Z.of_nat (length moodKeys))) in
  let selectedMood := JS.index moodKeys randomIndex in
  let moodData :=
    match selectedMood with
    | Some key => JS.Map_get moodDatabase key
    | None => None
    end in
  {| moodData := moodData;
     processingTime := Some (800 + random (S (length mood_templates)) * 400);
     isMockData := true;
     timestamp := Some now_iso;
     businessCategories := None;
     metadata := None |}.

Definition fallback_recommendations : list Recommendation :=
  [ {| rec_title := "Take a Deep Breath";
       rec_description :=
         "Focus on slow, calming breaths to center yourself in this moment.";
       rec_icon := JS.JString "🫁" |};
    {| rec_title := "Continue Creating";
       rec_description :=
         "Keep expressing yourself through art - it's a healthy way to process emotions.";
       rec_icon := JS.JString "🎨" |};
    {| rec_title := "Try Again Later";
       rec_description :=
         "Technical issues happen. Feel free to draw again when you're ready.";
       rec_icon := JS.JString "🔄" |} ].

Definition generateFallbackAnalysis (errorMessage : string) (now_iso : string)
  : Completion AnalysisResult :=
  match getBusinessCategoriesForMood (MoodString "calm") with
  | Throw e => Throw e
  | Return categories =>
      Return
        {| moodData :=
             Some {| primaryMood := MoodString "calm";
                     confidence := 0.5;
                     description :=
                       "We encountered an issue analyzing your drawing, but your creative expression is still valuable. Sometimes the act of drawing itself can be therapeutic.";
                     recommendations := fallback_recommendations |};
           processingTime := None;
           isMockData := false;
           timestamp := None;
           businessCategories := Some categories;
           metadata :=
             Some {| md_timestamp := now_iso;
                     imageSize := None;
                     md_compressionRatio := None;
                     md_processingTime := None;
                     error := Some errorMessage;
                     isFallback := true |} |}
  end.

(** [generateCacheKey]: a 32-bit hash over at most about a thousand
    sampled characters, mixed with the length. *)
Definition generateCacheKey (imageData : string) : string :=
  let length := Z.of_nat (String.length imageData) in
  let sampleSize := Z.min 1000 length in
  let step := (length / sampleSize)%Z in
  let hash :=
    fold_left
      (fun hash c =>
         let char := Z.of_N (N_of_ascii c) in
         JS.toInt32 (JS.toInt32 (hash * 32) - hash + char)%Z)
      (JS.every_nth (Z.to_nat step) 0 imageData) 0%Z in
  let hash := JS.toInt32 (Z.lxor hash (JS.toInt32 length)) in
  "mood_" +:+ pretty (Z.abs hash).

Definition optimizeImageForAPI (dataUrl : string) : string := dataUrl.

Definition findClosestMood (mood : string) (validMoods : list string)
  : option MoodValue :=
  if String.eqb mood "" || (length validMoods =? 0)%nat then None
  else if existsb (String.eqb mood) validMoods then Some (MoodString mood)
  else
    match List.find (fun validMood => JS.includes validMood mood
                                      || JS.includes mood validMood)
                    validMoods with
    | Some validMood => Some (MoodString validMood)
    | None =>
        match JS.Map_get moodMappings mood with
        | Some m => Some (MoodString m)
        | None =>
            if bool_decide (mood ∈ JS.Object_prototype_keys) then Some MoodObject
            else None
        end
    end.

Section Runtime.

(** [JSON.parse] and the [String(...)] conversion of the runtime. *)
Variable JSON_parse : string -> Completion JS.Json.
Variable ToString : JS.Json -> string.

(** A usable entry of the [recommendations] array of the answer. *)
Definition usable_recommendation (rec : JS.Json) : bool :=
  match rec with
  | JS.JObject _ =>
      match JS.field rec "title", JS.field rec "description" with
      | Some t, Some d => JS.truthy t && JS.truthy d
      | _, _ => false
      end
  | _ => false
  end.

Definition clean_recommendation (rec : JS.Json) : Recommendation :=
  {| rec_title :=
       JS.trim (ToString (default JS.JNull (JS.field rec "title")));
     rec_description :=
       JS.trim (ToString (default JS.JNull (JS.field rec "description")));
     rec_icon :=
       match JS.field rec "icon" with
       | Some i => if JS.truthy i then i else JS.JString "💡"
       | None => JS.JString "💡"
       end |}.

(** The [try] block of [callOpenAIAPI]: extract, parse, validate and
    normalise the answer.  The code patches the parsed object in place, so
    whatever else the classifier put into it stays: [isMockData] is the
    truthiness of the answer's own property and [timestamp] its own string.
    [businessCategories] and [metadata], which [analyzeMood] overwrites
    before anything reads them, and properties no modelled code reads are
    not represented. *)
Definition parseAnalysis (env : Ambient) (content : string)
  : Completion AnalysisResult :=
  let jsonStart := JS.indexOf "{"%char content in
  let jsonEnd := JS.lastIndexOf "}"%char content in
  let jsonContent :=
    if negb (jsonStart =? -1)%Z && negb (jsonEnd =? -1)%Z
       && (jsonStart <? jsonEnd)%Z
    then JS.substring jsonStart (jsonEnd + 1) content
    else content in
  match JSON_parse jsonContent with
  | Throw e => Throw e
  | Return JS.JNull =>
      Throw "Cannot read properties of null (reading 'primaryMood')"
  | Return analysisResult =>
      match JS.field analysisResult "primaryMood" with
      | Some (JS.JString mood) =>
          if String.eqb mood "" then Throw "Missing or invalid primaryMood field"
          else
            match JS.field analysisResult "description" with
            | Some (JS.JString text) =>
                if String.eqb text ""
                then Throw "Missing or invalid description field"
                else
                  let normalizedMood := JS.trim (JS.toLowerCase mood) in
                  let primaryMood :=
                    if existsb (String.eqb normalizedMood) validMoods
                    then MoodString normalizedMood
                    else default (MoodString "creative")
                           (findClosestMood normalizedMood validMoods) in
                  let recommendations :=
                    match JS.field analysisResult "recommendations" with
                    | Some (JS.JArray items) => items
                    | _ => []
                    end in
                  let recommendations :=
                    map clean_recommendation
                        (firstn 4 (List.filter usable_recommendation
                                               recommendations)) in
                  let confidence :=
                    match JS.field analysisResult "confidence" with
                    | Some (JS.JNumber c) =>
                        if JS.lt c 0 || JS.lt 1 c then 0.75 else c
                    | _ => 0.75
                    end in
                  Return
                    {| moodData :=
                         Some {| primaryMood := primaryMood;
                                 confidence := confidence;
                                 description := text;
                                 recommendations := recommendations |};
                       processingTime :=
                         Some (inject_Z (api_processingTime env));
                       isMockData :=
                         match JS.field analysisResult "isMockData" with
                         | Some v => JS.truthy v
                         | None => false
                         end;
                       timestamp :=
                         match JS.field analysisResult "timestamp" with
                         | Some (JS.JString t) => Some t
                         | _ => None
                         end;
                       businessCategories := None;
                       metadata := None |}
            | _ => Throw "Missing or invalid description field"
            end
      | _ => Throw "Missing or invalid primaryMood field"
      end
  end.

Definition callOpenAIAPI (env : Ambient) (imageData : string)
  : Completion AnalysisResult :=
  match fetch env with
  | FetchRejected e => Throw e
  | ResponseNotOk status error_message =>
      Throw ("OpenAI API error: " +:+ pretty status +:+ " - "
             +:+ LocalStorageManager.or_else error_message "Unknown error")
  | ResponseBodyInvalid e => Throw e
  | ResponseOk NoMessage => Throw "Invalid response format from OpenAI API"
  | ResponseOk MessageWithoutContent =>
      Throw "Cannot read properties of null (reading 'trim')"
  | ResponseOk (MessageContent content) =>
      match parseAnalysis env (JS.trim content) with
      | Throw e => Throw ("Failed to parse mood analysis response: " +:+ e)
      | Return analysisResult => Return analysisResult
      end
  end.

Definition with_service (s : State) (w : World) : World :=
  {| service := s; storage := storage w;
     analysis_cache_item := analysis_cache_item w;
     session_id_item := session_id_item w;
     localStorage_readable := localStorage_readable w;
     localStorage_writable := localStorage_writable w;
     tidb_requests := tidb_requests w |}.

Definition with_storage (s : LocalStorageManager.World MoodEntry) (w : World)
  : World :=
  {| service := service w; storage := s;
     analysis_cache_item := analysis_cache_item w;
     session_id_item := session_id_item w;
     localStorage_readable := localStorage_readable w;
     localStorage_writable := localStorage_writable w;
     tidb_requests := tidb_requests w |}.

Definition with_limiter (l : RateLimiter.State) (w : World) : World :=
  with_storage (LocalStorageManager.with_limiter l (storage w)) w.

(** [loadAnalysisCache]: the stored object replaces the map unless the
    stored text is [null]; read errors give the empty object. *)
Definition loadAnalysisCache (w : World) : World :=
  let cached :=
    if localStorage_readable w then
      match analysis_cache_item w with
      | AnalysisCacheAbsent => Some []
      | AnalysisCacheCorrupt => Some []
      | AnalysisCacheNull => None
      | AnalysisCacheObject entries => Some entries
      end
    else Some [] in
  match cached with
  | Some entries =>
      with_service {| apiKey := apiKey (service w);
                      isInitialized := isInitialized (service w);
                      analysisCache := entries |} w
  | None => w
  end.

Definition saveAnalysisCache (w : World) : World :=
  if localStorage_writable w then
    {| service := service w; storage := storage w;
       analysis_cache_item := AnalysisCacheObject (analysisCache (service w));
       session_id_item := session_id_item w;
       localStorage_readable := localStorage_readable w;
       localStorage_writable := localStorage_writable w;
       tidb_requests := tidb_requests w |}
  else w.

(** [initialize]: an exception of [getApiKey] is logged and thrown again. *)
Definition initialize (env : Ambient) (w : World) : Completion unit * World :=
  match getApiKey_openai env with
  | Throw e => (Throw e, w)
  | Return key =>
      let w := with_service {| apiKey := key;
                               isInitialized := isInitialized (service w);
                               analysisCache := analysisCache (service w) |} w in
      let w := loadAnalysisCache w in
      (Return tt,
       with_service {| apiKey := apiKey (service w);
                       isInitialized := true;
                       analysisCache := analysisCache (service w) |} w)
  end.

(** The message of the exception a blocked [localStorage] raises; it is
    caught where it can occur. *)
Definition localStorage_error : string := "The operation is insecure.".

Definition generateId (env : Ambient) : string :=
  "mood_" +:+ pretty (LocalStorageManager.Date_now (storage_env env))
  +:+ "_" +:+ LocalStorageManager.random36 (storage_env env).

Definition getSessionId (env : Ambient) (w : World) : Completion string * World :=
  if negb (localStorage_readable w) then (Throw localStorage_error, w)
  else
    let stored :=
      match session_id_item w with
      | Some s => if String.eqb s "" then None else Some s
      | None => None
      end in
    match stored with
    | Some s => (Return s, w)
    | None =>
        let sessionId :=
          "session_" +:+ pretty (LocalStorageManager.Date_now (storage_env env))
          +:+ "_" +:+ session_random36 env in
        if localStorage_writable w then
          (Return sessionId,
           {| service := service w; storage := storage w;
              analysis_cache_item := analysis_cache_item w;
              session_id_item := Some sessionId;
              localStorage_readable := localStorage_readable w;
              localStorage_writable := localStorage_writable w;
              tidb_requests := tidb_requests w |})
        else (Throw localStorage_error, w)
    end.

(** [storeAnalysisResult]: every failure is logged and swallowed. *)
Definition storeAnalysisResult (env : Ambient) (analysisResult : AnalysisResult)
    (exportData : ExportData) (w : World) : World :=
  let '(sid, w) := getSessionId env w in
  match sid with
  | Throw _ => w
  | Return sessionId =>
      let moodEntry :=
        {| LocalStorageManager.id := Some (generateId env);
           LocalStorageManager.timestamp :=
             Some (LocalStorageManager.now_iso (storage_env env));
           LocalStorageManager.mood_fields :=
             {| imageData := default "" (dataUrl exportData);
                imageDimensions := (width exportData, height exportData);
                analysis := analysisResult;
                sessionId := sessionId |} |} in
      let '(_, s) :=
        LocalStorageManager.saveMoodEntry (storage_env env) moodEntry (storage w) in
      with_storage s w
  end.

(** [saveMoodToTiDB] is started and not awaited; its failures are
    swallowed.  The request is recorded. *)
Definition saveMoodToTiDB (mood : MoodValue) (confidence : Q) (w : World) : World :=
  {| service := service w; storage := storage w;
     analysis_cache_item := analysis_cache_item w;
     session_id_item := session_id_item w;
     localStorage_readable := localStorage_readable w;
     localStorage_writable := localStorage_writable w;
     tidb_requests := (tidb_requests w ++ [(mood, confidence)])%list |}.

Definition is_truthy (s : option string) : bool :=
  match s with
  | Some t => negb (String.eqb t "")
  | None => false
  end.

(** The analysis proper: [callOpenAIAPI] followed by the usage increment,
    or the mock generator. *)
Definition produceAnalysis (env : Ambient) (optimizedImage : string) (w : World)
  : Completion AnalysisResult * World :=
  let useApi :=
    if is_truthy (apiKey (service w)) then
      match isDevelopment env with
      | Throw e => Throw e
      | Return dev => Return (negb dev)
      end
    else Return false in
  match useApi with
  | Throw e => (Throw e, w)
  | Return true =>
      match callOpenAIAPI env optimizedImage with
      | Throw e => (Throw e, w)
      | Return analysisResult =>
          let '(r, l) :=
            RateLimiter.incrementUsage
              (LocalStorageManager.clock (storage_env env)) "openai"
              (LocalStorageManager.limiter (storage w)) in
          match r with
          | Throw e => (Throw e, with_limiter l w)
          | Return _ => (Return analysisResult, with_limiter l w)
          end
      end
  | Return false =>
      (Return (generateMockAnalysis (random env)
                 (LocalStorageManager.now_iso (storage_env env))), w)
  end.

(** What follows the analysis inside the [try] block: metadata, business
    categories, the cache, the local database and the remote one. *)
Definition finishAnalysis (env : Ambient) (exportData : ExportData)
    (cacheKey : string) (analysisResult : AnalysisResult) (w : World)
  : Completion AnalysisResult * World :=
  let metadata :=
    {| md_timestamp := LocalStorageManager.now_iso (storage_env env);
       imageSize := compressedSize exportData;
       md_compressionRatio := ed_compressionRatio exportData;
       md_processingTime := Some (metadata_processingTime env);
       error := None;
       isFallback := false |} in
  let mood :=
    match moodData analysisResult with
    | Some d => primaryMood d
    | None => MoodUndefined
    end in
  match getBusinessCategoriesForMood mood with
  | Throw e => (Throw e, w)
  | Return categories =>
      let analysisResult :=
        {| moodData := moodData analysisResult;
           processingTime := processingTime analysisResult;
           isMockData := isMockData analysisResult;
           timestamp := timestamp analysisResult;
           businessCategories := Some categories;
           metadata := Some metadata |} in
      let w :=
        with_service
          {| apiKey := apiKey (service w);
             isInitialized := isInitialized (service w);
             analysisCache :=
               JS.Map_set (analysisCache (service w)) cacheKey analysisResult |}
          w in
      let w := saveAnalysisCache w in
      let w := storeAnalysisResult env analysisResult exportData w in
      let w :=
        match moodData analysisResult with
        | Some d => saveMoodToTiDB (primaryMood d) (confidence d) w
        | None => w
        end in
      (Return analysisResult, w)
  end.

(** The [try] block of [analyzeMood]. *)
Definition analyzeMood_try (env : Ambient) (exportData : option ExportData)
    (w : World) : Completion AnalysisResult * World :=
  let clk := LocalStorageManager.clock (storage_env env) in
  let '(canMakeRequest, l) :=
    RateLimiter.checkQuota clk "openai" (LocalStorageManager.limiter (storage w)) in
  let w := with_limiter l w in
  match canMakeRequest with
  | Throw e => (Throw e, w)
  | Return canMakeRequest =>
      let '(quotaInfo, l) :=
        RateLimiter.getAllQuotas clk (LocalStorageManager.limiter (storage w)) in
      let w := with_limiter l w in
      match quotaInfo with
      | Throw e => (Throw e, w)
      | Return quotaInfo =>
          match RateLimiter.aq_services quotaInfo !! "openai" with
          | None =>
              (Throw "Cannot read properties of undefined (reading 'remaining')", w)
          | Some openai =>
              if negb canMakeRequest then
                (Throw ("Daily OpenAI quota exceeded ("
                        +:+ pretty (RateLimiter.qs_used openai) +:+ "/"
                        +:+ pretty (RateLimiter.qs_limit openai)
                        +:+ "). Please try again tomorrow."), w)
              else
                match exportData with
                | None => (Throw "Invalid drawing data provided", w)
                | Some data =>
                    if negb (is_truthy (dataUrl data))
                    then (Throw "Invalid drawing data provided", w)
                    else
                      let url := default "" (dataUrl data) in
                      let cacheKey := generateCacheKey url in
                      match JS.Map_get (analysisCache (service w)) cacheKey with
                      | Some cached => (Return cached, w)
                      | None =>
                          let optimizedImage := optimizeImageForAPI url in
                          let '(r, w) := produceAnalysis env optimizedImage w in
                          match r with
                          | Throw e => (Throw e, w)
                          | Return analysisResult =>
                              finishAnalysis env data cacheKey analysisResult w
                          end
                      end
                end
          end
      end
  end.

(** The [catch] clause: quota errors are thrown again, every other error
    becomes the fallback analysis. *)
Definition analyzeMood_catch (env : Ambient) (message : string)
  : Completion AnalysisResult :=
  if JS.includes "quota exceeded" message then Throw message
  else generateFallbackAnalysis message
         (LocalStorageManager.now_iso (storage_env env)).

(** [if (!this.isInitialized) await this.initialize()] *)
Definition ensure_initialized (env : Ambient) (w : World)
  : Completion unit * World :=
  if isInitialized (service w) then (Return tt, w) else initialize env w.

Definition analyzeMood (env : Ambient) (exportData : option ExportData)
    (w : World) : Completion AnalysisResult * World :=
  let '(r0, w) := ensure_initialized env w in
  match r0 with
  | Throw e => (Throw e, w)
  | Return _ =>
      let '(r, w) := analyzeMood_try env exportData w in
      match r with
      | Return analysisResult => (Return analysisResult, w)
      | Throw message => (analyzeMood_catch env message, w)
      end
  end.

End Runtime.

End MoodAnalysisService.

(** * The remaining methods of the storage manager and the analysis service *)

(** ** LocalStorageManager: reads, usage log, recommendation cache, cleanup *)

Module LocalStorageManagerStores.
Import LocalStorageManager.

(** The order of two string keys of IndexedDB: by character code, a
    proper prefix first. *)
Fixpoint key_ltb (a b : string) : bool :=
  match a, b with
  | _, EmptyString => false
  | EmptyString, String _ _ => true
  | String c a', String d b' =>
      if (N_of_ascii c <? N_of_ascii d)%N then true
      else if (N_of_ascii d <? N_of_ascii c)%N then false
      else key_ltb a' b'
  end.

(** The records of a store as a cursor over an index visits them in
    direction [prev]: larger index key first and, among equal index keys,
    larger primary key first. *)
Definition visited_before {V : Type} (index_key primary_key : V → string)
    (a b : V) : bool :=
  key_ltb (index_key b) (index_key a)
  || (String.eqb (index_key a) (index_key b)
      && key_ltb (primary_key b) (primary_key a)).

Definition cursor_prev {V : Type} (index_key primary_key : V → string)
    (store : gmap string V) : list V :=
  JS.sort (λ a b, negb (visited_before index_key primary_key b a))
          (map snd (map_to_list store)).

(** [text.split('T')[0]] *)
Fixpoint split_T_0 (text : string) : string :=
  match text with
  | EmptyString => EmptyString
  | String c rest =>
      if Ascii.eqb c "T"%char then EmptyString else String c (split_T_0 rest)
  end.

(** One entry of [details] in a usage record. *)
Record UsageDetail : Type := {
  detail_service : string;
  detail_endpoint : option string;
  detail_timestamp : string
}.

(** A record of the [apiUsage] store (key path [date]). *)
Record ApiUsage : Type := {
  usage_date : string;
  openaiCalls : Z;
  googlePlacesCalls : Z;
  databaseOperations : Z;
  details : list UsageDetail
}.

(** A record of the [recommendations] store (key path [cacheKey]), with
    recommendations of type [R]. *)
Record RecData (R : Type) : Type := {
  cacheKey : string;
  rec_recommendations : list R;
  rec_timestamp : string
}.
Arguments cacheKey {R} _.
Arguments rec_recommendations {R} _.
Arguments rec_timestamp {R} _.

(** The text kept under [moodspot_rec_<cacheKey>] in [localStorage]. *)
Inductive LocalRec (R : Type) : Type :=
| LocalRecCorrupt                    (* not the JSON text of a cache record *)
| LocalRecData (data : RecData R).
Arguments LocalRecCorrupt {R}.
Arguments LocalRecData {R} data.

(** What a call reads from its surroundings besides the readings of
    [Ambient]. *)
Record Requests : Type := {
  env : Ambient;
  get_error : option string;   (* a [get] or cursor request fails with this error *)
  getTime : string → option Z; (* [new Date(text).getTime()]; [None] is [NaN] *)
  days_before_now : Z → string (* [d = new Date(); d.setDate(d.getDate() - n);
                                   d.toISOString()] *)
}.

(** The manager with the two further object stores the modelled methods
    use, and the [localStorage] entries of the recommendation fallback,
    keyed by cache key. *)
Record Database (A R : Type) : Type := {
  manager : World A;
  apiUsage : gmap string ApiUsage;
  recommendations : gmap string (RecData R);
  local_recommendations : gmap string (LocalRec R);
  local_readable : bool;       (* [false]: [getItem] throws *)
  local_writable : bool        (* [false]: [setItem] throws *)
}.
Arguments manager {A R} _.
Arguments apiUsage {A R} _.
Arguments recommendations {A R} _.
Arguments local_recommendations {A R} _.
Arguments local_readable {A R} _.
Arguments local_writable {A R} _.

(** The error [IDBObjectStore.index] raises for a name the store has no
    index of (a [NotFoundError]; the wording is the browser's). *)
Definition NotFoundError : string := "The specified index was not found.".

(** [clearOldRecords] on one store.  [index_key] is the key path of the
    index named by the caller, [None] when the store has no such index;
    the range is [IDBKeyRange.upperBound(cutoffValue, true)]. *)
Definition clearOldRecords {V : Type} (rq : Requests)
    (index_key : option (V → string)) (cutoffValue : string)
    (store : gmap string V) : Completion Z * gmap string V :=
  match index_key with
  | None => (Throw NotFoundError, store)
  | Some key =>
      match get_error rq with
      | Some e => (Throw e, store)
      | None =>
          let old := filter (λ kv, Is_true (key_ltb (key kv.2) cutoffValue)) store in
          (Return (Z.of_nat (size old)),
           filter (λ kv, ¬ Is_true (key_ltb (key kv.2) cutoffValue)) store)
      end
  end.

Section Stores.
Context {A R : Type}.

Definition with_manager (w : World A) (d : Database A R) : Database A R :=
  {| manager := w; apiUsage := apiUsage d; recommendations := recommendations d;
     local_recommendations := local_recommendations d;
     local_readable := local_readable d; local_writable := local_writable d |}.

Definition loadSession (rq : Requests) (sessionId : option string) (w : World A)
  : Completion (option StoredSession) * World A :=
  let '(r0, w0) := initialize (env rq) w in
  match r0 with
  | Throw e => (Throw e, w0)
  | Return _ =>
      let '(r1, w1) := checkDatabaseQuota (env rq) w0 in
      match r1 with
      | Throw e => (Throw e, w1)
      | Return false => (Return (getCachedSession w1), w1)
      | Return true =>
          match get_error rq with
          | Some e => (Throw e, w1)
          | None =>
              match sessionId with
              | Some id =>
                  if String.eqb id ""
                  then (Return (head (cursor_prev session_timestamp stored_sessionId
                                        (sessions (idb w1)))), w1)
                  else (Return (sessions (idb w1) !! id), w1)
              | None =>
                  (Return (head (cursor_prev session_timestamp stored_sessionId
                                   (sessions (idb w1)))), w1)
              end
          end
      end
  end.

Definition getMoodHistory (rq : Requests) (limit : Z) (w : World A)
  : Completion (list (StoredMood A)) * World A :=
  let '(r0, w0) := initialize (env rq) w in
  match r0 with
  | Throw e => (Throw e, w0)
  | Return _ =>
      let '(r1, w1) := checkDatabaseQuota (env rq) w0 in
      match r1 with
      | Throw e => (Throw e, w1)
      | Return false => (Return (getCachedMoodHistory w1), w1)
      | Return true =>
          match get_error rq with
          | Some e => (Throw e, w1)
          | None =>
              (Return (firstn (Z.to_nat limit)
                         (cursor_prev stored_timestamp stored_id
                            (moodHistory (idb w1)))), w1)
          end
      end
  end.

(** The record [logApiUsage] and [getApiUsage] use for a day without one. *)
Definition no_usage (date : string) : ApiUsage :=
  {| usage_date := date; openaiCalls := 0; googlePlacesCalls := 0;
     databaseOperations := 0; details := [] |}.

(** [logApiUsage]: not charged to the database quota. *)
Definition logApiUsage (rq : Requests) (service : string)
    (endpoint : option string) (d : Database A R)
  : Completion ApiUsage * Database A R :=
  let '(r0, w0) := initialize (env rq) (manager d) in
  let d := with_manager w0 d in
  match r0 with
  | Throw e => (Throw e, d)
  | Return _ =>
      let today := split_T_0 (now_iso (env rq)) in
      match get_error rq with
      | Some e => (Throw e, d)
      | None =>
          let existing := default (no_usage today) (apiUsage d !! today) in
          let details :=
            (details existing
             ++ [ {| detail_service := service; detail_endpoint := endpoint;
                     detail_timestamp := now_iso (env rq) |} ])%list in
          let details :=
            if (100 <? length details)%nat
            then skipn (length details - 100) details
            else details in
          let existing :=
            {| usage_date := usage_date existing;
               openaiCalls :=
                 if String.eqb service "openai"
                 then openaiCalls existing + 1 else openaiCalls existing;
               googlePlacesCalls :=
                 if String.eqb service "googlePlaces"
                 then googlePlacesCalls existing + 1
                 else googlePlacesCalls existing;
               databaseOperations :=
                 if String.eqb service "database"
                 then databaseOperations existing + 1
                 else databaseOperations existing;
               details := details |} in
          match put_error (env rq) with
          | Some e => (Throw e, d)
          | None =>
              (Return existing,
               {| manager := manager d;
                  apiUsage := <[usage_date existing := existing]> (apiUsage d);
                  recommendations := recommendations d;
                  local_recommendations := local_recommendations d;
                  local_readable := local_readable d;
                  local_writable := local_writable d |})
          end
      end
  end.

Definition getApiUsage (rq : Requests) (date : option string) (d : Database A R)
  : Completion ApiUsage * Database A R :=
  let '(r0, w0) := initialize (env rq) (manager d) in
  let d := with_manager w0 d in
  match r0 with
  | Throw e => (Throw e, d)
  | Return _ =>
      let targetDate := or_else date (split_T_0 (now_iso (env rq))) in
      match get_error rq with
      | Some e => (Throw e, d)
      | None =>
          (Return (default (no_usage targetDate) (apiUsage d !! targetDate)), d)
      end
  end.

(** [saveRecommendations]: [None] is the [undefined] of the fallback
    branch. *)
Definition saveRecommendations (rq : Requests) (cacheKey : string)
    (recommendations : list R) (d : Database A R)
  : Completion (option (RecData R)) * Database A R :=
  let '(r0, w0) := initialize (env rq) (manager d) in
  let d := with_manager w0 d in
  match r0 with
  | Throw e => (Throw e, d)
  | Return _ =>
      let '(r1, w1) := checkDatabaseQuota (env rq) (manager d) in
      let d := with_manager w1 d in
      let recData :=
        {| cacheKey := cacheKey; rec_recommendations := recommendations;
           rec_timestamp := now_iso (env rq) |} in
      match r1 with
      | Throw e => (Throw e, d)
      | Return false =>
          (Return None,
           if local_writable d then
             {| manager := manager d; apiUsage := apiUsage d;
                recommendations := LocalStorageManagerStores.recommendations d;
                local_recommendations :=
                  <[cacheKey := LocalRecData recData]> (local_recommendations d);
                local_readable := local_readable d;
                local_writable := local_writable d |}
           else d)
      | Return true =>
          match put_error (env rq) with
          | Some e => (Throw e, d)
          | None =>
              (Return (Some recData),
               {| manager := manager d; apiUsage := apiUsage d;
                  recommendations :=
                    <[cacheKey := recData]>
                      (LocalStorageManagerStores.recommendations d);
                  local_recommendations := local_recommendations d;
                  local_readable := local_readable d;
                  local_writable := local_writable d |})
          end
      end
  end.

(** [Date.now() - new Date(timestamp).getTime() < 60 * 60 * 1000]; a
    comparison with [NaN] is false. *)
Definition still_valid (rq : Requests) (timestamp : string) : bool :=
  match getTime rq timestamp with
  | Some t => Date_now (env rq) - t <? 60 * 60 * 1000
  | None => false
  end.

Definition getRecommendations (rq : Requests) (cacheKey : string)
    (d : Database A R) : Completion (list R) * Database A R :=
  let '(r0, w0) := initialize (env rq) (manager d) in
  let d := with_manager w0 d in
  match r0 with
  | Throw e => (Throw e, d)
  | Return _ =>
      let '(r1, w1) := checkDatabaseQuota (env rq) (manager d) in
      let d := with_manager w1 d in
      match r1 with
      | Throw e => (Throw e, d)
      | Return false =>
          (Return
             (if local_readable d then
                match local_recommendations d !! cacheKey with
                | Some (LocalRecData data) =>
                    if still_valid rq (rec_timestamp data)
                    then rec_recommendations data else []
                | _ => []
                end
              else []), d)
      | Return true =>
          match get_error rq with
          | Some e => (Throw e, d)
          | None =>
              (Return
                 (match recommendations d !! cacheKey with
                  | Some result =>
                      if still_valid rq (rec_timestamp result)
                      then rec_recommendations result else []
                  | None => []
                  end), d)
          end
      end
  end.

(** [clearOldData].  The stores [sessions], [moodHistory] and
    [recommendations] have an index [timestamp]; the store [apiUsage] is
    created without any index, so the index [date] the third step names
    does not exist. *)
Definition clearOldData (rq : Requests) (daysToKeep : Z) (d : Database A R)
  : Completion unit * Database A R :=
  let '(r0, w0) := initialize (env rq) (manager d) in
  let d := with_manager w0 d in
  match r0 with
  | Throw e => (Throw e, d)
  | Return _ =>
      let '(r1, w1) := checkDatabaseQuota (env rq) (manager d) in
      let d := with_manager w1 d in
      match r1 with
      | Throw e => (Throw e, d)
      | Return false => (Return tt, d)
      | Return true =>
          let cutoffString := days_before_now rq daysToKeep in
          let '(c1, sessions1) :=
            clearOldRecords rq (Some session_timestamp) cutoffString
              (sessions (idb (manager d))) in
          let d :=
            with_manager
              (with_idb {| sessions := sessions1;
                           moodHistory := moodHistory (idb (manager d)) |}
                        (manager d)) d in
          match c1 with
          | Throw e => (Throw e, d)
          | Return _ =>
              let moodCutoff := days_before_now rq (daysToKeep * 3) in
              let '(c2, moods2) :=
                clearOldRecords rq (Some stored_timestamp) moodCutoff
                  (moodHistory (idb (manager d))) in
              let d :=
                with_manager
                  (with_idb {| sessions := sessions (idb (manager d));
                               moodHistory := moods2 |}
                            (manager d)) d in
              match c2 with
              | Throw e => (Throw e, d)
              | Return _ =>
                  let '(c3, usage3) :=
                    clearOldRecords rq None (split_T_0 cutoffString)
                      (apiUsage d) in
                  let d :=
                    {| manager := manager d; apiUsage := usage3;
                       recommendations := recommendations d;
                       local_recommendations := local_recommendations d;
                       local_readable := local_readable d;
                       local_writable := local_writable d |} in
                  match c3 with
                  | Throw e => (Throw e, d)
                  | Return _ =>
                      let recCutoff := days_before_now rq 7 in
                      let '(c4, recs4) :=
                        clearOldRecords rq (Some rec_timestamp) recCutoff
                          (recommendations d) in
                      let d :=
                        {| manager := manager d; apiUsage := apiUsage d;
                           recommendations := recs4;
                           local_recommendations := local_recommendations d;
                           local_readable := local_readable d;
                           local_writable := local_writable d |} in
                      match c4 with
                      | Throw e => (Throw e, d)
                      | Return _ => (Return tt, d)
                      end
                  end
              end
          end
      end
  end.

End Stores.

End LocalStorageManagerStores.

(** ** MoodAnalysisService: the history reader *)

Module MoodAnalysisServiceHistory.
Import MoodAnalysisService.

(** [getMoodHistory]: a failure of the storage manager is logged and
    answered with the empty list. *)
Definition getMoodHistory (rq : LocalStorageManagerStores.Requests) (limit : Z)
    (w : World) : list (LocalStorageManager.StoredMood MoodEntry) * World :=
  let '(r, s) := LocalStorageManagerStores.getMoodHistory rq limit (storage w) in
  (match r with
   | Return history => history
   | Throw _ => []
   end, with_storage s w).

End MoodAnalysisServiceHistory.

(** ** LocalStorageManager: a call that other calls overlap *)

(** [checkDatabaseQuota] awaits [checkQuota] before it calls
    [incrementUsage], and both await the limiter's [initialize].  Calls
    that were started without waiting for one another take turns at
    these points, so between the check and the increment of one call the
    limiter may have served others.  Here the methods that branch on the
    result of [checkDatabaseQuota] are written with that gap open:
    [meanwhile] is what the other calls have done to the limiter when the
    increment runs.  (The guard and the addition inside [incrementUsage]
    are one synchronous step, and the limiter is initialised by the
    check, so one gap stands for all suspension points between the two.)
    The stores are the call's own: what overlapping calls write there is
    not modelled.  With the identity for [meanwhile] these are the
    methods of [LocalStorageManager] and [LocalStorageManagerStores]. *)

Module LocalStorageManagerOverlap.
Import LocalStorageManager LocalStorageManagerStores.

Section Overlap.
Context {A R : Type}.
Variable meanwhile : RateLimiter.State → RateLimiter.State.

Definition checkDatabaseQuota (env : Ambient) (w : World A)
  : Completion bool * World A :=
  let '(hasQuota, l1) := RateLimiter.checkQuota (clock env) "database" (limiter w) in
  let w1 := with_limiter l1 w in
  match hasQuota with
  | Throw e => (Throw e, w1)
  | Return false => (Throw "Daily database operation limit exceeded", w1)
  | Return true =>
      let '(r, l2) :=
        RateLimiter.incrementUsage (clock env) "database" (meanwhile l1) in
      (r, with_limiter l2 w1)
  end.

Definition loadSession (rq : Requests) (sessionId : option string) (w : World A)
  : Completion (option StoredSession) * World A :=
  let '(r0, w0) := initialize (env rq) w in
  match r0 with
  | Throw e => (Throw e, w0)
  | Return _ =>
      let '(r1, w1) := checkDatabaseQuota (env rq) w0 in
      match r1 with
      | Throw e => (Throw e, w1)
      | Return false => (Return (getCachedSession w1), w1)
      | Return true =>
          match get_error rq with
          | Some e => (Throw e, w1)
          | None =>
              match sessionId with
              | Some id =>
                  if String.eqb id ""
                  then (Return (head (cursor_prev session_timestamp stored_sessionId
                                        (sessions (idb w1)))), w1)
                  else (Return (sessions (idb w1) !! id), w1)
              | None =>
                  (Return (head (cursor_prev session_timestamp stored_sessionId
                                   (sessions (idb w1)))), w1)
              end
          end
      end
  end.

Definition getMoodHistory (rq : Requests) (limit : Z) (w : World A)
  : Completion (list (StoredMood A)) * World A :=
  let '(r0, w0) := initialize (env rq) w in
  match r0 with
  | Throw e => (Throw e, w0)
  | Return _ =>
      let '(r1, w1) := checkDatabaseQuota (env rq) w0 in
      match r1 with
      | Throw e => (Throw e, w1)
      | Return false => (Return (getCachedMoodHistory w1), w1)
      | Return true =>
          match get_error rq with
          | Some e => (Throw e, w1)
          | None =>
              (Return (firstn (Z.to_nat limit)
                         (cursor_prev stored_timestamp stored_id
                            (moodHistory (idb w1)))), w1)
          end
      end
  end.

(** [saveRecommendations]: [None] is the [undefined] of the fallback
    branch. *)
Definition saveRecommendations (rq : Requests) (cacheKey : string)
    (recommendations : list R) (d : Database A R)
  : Completion (option (RecData R)) * Database A R :=
  let '(r0, w0) := initialize (env rq) (manager d) in
  let d := with_manager w0 d in
  match r0 with
  | Throw e => (Throw e, d)
  | Return _ =>
      let '(r1, w1) := checkDatabaseQuota (env rq) (manager d) in
      let d := with_manager w1 d in
      let recData :=
        {| cacheKey := cacheKey; rec_recommendations := recommendations;
           rec_timestamp := now_iso (env rq) |} in
      match r1 with
      | Throw e => (Throw e, d)
      | Return false =>
          (Return None,
           if local_writable d then
             {| manager := manager d; apiUsage := apiUsage d;
                recommendations := LocalStorageManagerStores.recommendations d;
                local_recommendations :=
                  <[cacheKey := LocalRecData recData]> (local_recommendations d);
                local_readable := local_readable d;
                local_writable := local_writable d |}
           else d)
      | Return true =>
          match put_error (env rq) with
          | Some e => (Throw e, d)
          | None =>
              (Return (Some recData),
               {| manager := manager d; apiUsage := apiUsage d;
                  recommendations :=
                    <[cacheKey := recData]>
                      (LocalStorageManagerStores.recommendations d);
                  local_recommendations := local_recommendations d;
                  local_readable := local_readable d;
                  local_writable := local_writable d |})
          end
      end
  end.

Definition getRecommendations (rq : Requests) (cacheKey : string)
    (d : Database A R) : Completion (list R) * Database A R :=
  let '(r0, w0) := initialize (env rq) (manager d) in
  let d := with_manager w0 d in
  match r0 with
  | Throw e => (Throw e, d)
  | Return _ =>
      let '(r1, w1) := checkDatabaseQuota (env rq) (manager d) in
      let d := with_manager w1 d in
      match r1 with
      | Throw e => (Throw e, d)
      | Return false =>
          (Return
             (if local_readable d then
                match local_recommendations d !! cacheKey with
                | Some (LocalRecData data) =>
                    if still_valid rq (rec_timestamp data)
                    then rec_recommendations data else []
                | _ => []
                end
              else []), d)
      | Return true =>
          match get_error rq with
          | Some e => (Throw e, d)
          | None =>
              (Return
                 (match recommendations d !! cacheKey with
                  | Some result =>
                      if still_valid rq (rec_timestamp result)
                      then rec_recommendations result else []
                  | None => []
                  end), d)
          end
      end
  end.

(** [clearOldData].  The stores [sessions], [moodHistory] and
    [recommendations] have an index [timestamp]; the store [apiUsage] is
    created without any index, so the index [date] the third step names
    does not exist. *)
Definition clearOldData (rq : Requests) (daysToKeep : Z) (d : Database A R)
  : Completion unit * Database A R :=
  let '(r0, w0) := initialize (env rq) (manager d) in
  let d := with_manager w0 d in
  match r0 with
  | Throw e => (Throw e, d)
  | Return _ =>
      let '(r1, w1) := checkDatabaseQuota (env rq) (manager d) in
      let d := with_manager w1 d in
      match r1 with
      | Throw e => (Throw e, d)
      | Return false => (Return tt, d)
      | Return true =>
          let cutoffString := days_before_now rq daysToKeep in
          let '(c1, sessions1) :=
            clearOldRecords rq (Some session_timestamp) cutoffString
              (sessions (idb (manager d))) in
          let d :=
            with_manager
              (with_idb {| sessions := sessions1;
                           moodHistory := moodHistory (idb (manager d)) |}
                        (manager d)) d in
          match c1 with
          | Throw e => (Throw e, d)
          | Return _ =>
              let moodCutoff := days_before_now rq (daysToKeep * 3) in
              let '(c2, moods2) :=
                clearOldRecords rq (Some stored_timestamp) moodCutoff
                  (moodHistory (idb (manager d))) in
              let d :=
                with_manager
                  (with_idb {| sessions := sessions (idb (manager d));
                               moodHistory := moods2 |}
                            (manager d)) d in
              match c2 with
              | Throw e => (Throw e, d)
              | Return _ =>
                  let '(c3, usage3) :=
                    clearOldRecords rq None (split_T_0 cutoffString)
                      (apiUsage d) in
                  let d :=
                    {| manager := manager d; apiUsage := usage3;
                       recommendations := recommendations d;
                       local_recommendations := local_recommendations d;
                       local_readable := local_readable d;
                       local_writable := local_writable d |} in
                  match c3 with
                  | Throw e => (Throw e, d)
                  | Return _ =>
                      let recCutoff := days_before_now rq 7 in
                      let '(c4, recs4) :=
                        clearOldRecords rq (Some rec_timestamp) recCutoff
                          (recommendations d) in
                      let d :=
                        {| manager := manager d; apiUsage := apiUsage d;
                           recommendations := recs4;
                           local_recommendations := local_recommendations d;
                           local_readable := local_readable d;
                           local_writable := local_writable d |} in
                      match c4 with
                      | Throw e => (Throw e, d)
                      | Return _ => (Return tt, d)
                      end
                  end
              end
          end
      end
  end.

End Overlap.

End LocalStorageManagerOverlap.


(** * Vocabulary of the statements

    Predicates, the specification's own wording of the relevance score,
    and the concrete inputs used in the examples. *)

Module RateLimiterSpec.
Import RateLimiter.

(** Every configured service has a counter between 0 and its limit, and
    the singleton has been initialised. *)
Definition within_limits (st : State) : Prop :=
  initialized st = true ∧
  ∃ q, quotas st = Some q ∧
       ∀ s, s ∈ known_services →
            ∃ sq, services q !! s = Some sq ∧ 0 ≤ used sq ≤ limit sq.

End RateLimiterSpec.

Module LocalStorageManagerSpec.
Import LocalStorageManager.

(** The message of the error [checkDatabaseQuota] throws. *)
Definition quota_message : string := "Daily database operation limit exceeded".

(** A manager whose limiter has used 1000 of 1000 database operations. *)
Definition exhausted_world : World string :=
  {| limiter :=
       {| RateLimiter.quotas :=
            Some {| RateLimiter.date := "2024-01-15";
                    RateLimiter.services :=
                      <["database" := {| RateLimiter.used := 1000;
                                         RateLimiter.limit := 1000 |}]>
                        RateLimiter.default_services;
                    RateLimiter.resetTime := "2024-01-16T00:00:00.000Z" |};
          RateLimiter.initialized := true;
          RateLimiter.storage :=
            {| RateLimiter.readable := true; RateLimiter.writable := true;
               RateLimiter.item := RateLimiter.ItemAbsent |} |};
     db := true; initialized := true;
     idb := {| sessions := ∅; moodHistory := ∅ |};
     session_cache := None; mood_cache := None |}.

(** A call at 10:00 UTC on 2024-01-15 with a working database. *)
Definition manager_env : Ambient :=
  {| clock := {| RateLimiter.getTodayString := "2024-01-15";
                 RateLimiter.getNextMidnight := "2024-01-16T00:00:00.000Z" |};
     open_error := None; put_error := None;
     now_iso := "2024-01-15T10:00:00.000Z";
     Date_now := 1705312800000; random36 := "k3j9x0q2a" |}.

End LocalStorageManagerSpec.

Module MoodAdviceServiceSpec.
Import MoodAdviceService.

Open Scope Q_scope.

(** The (category, title) pair of an advice object and the key
    [removeDuplicateAdvice] builds from it. *)
Definition category_title (item : AdviceItem) : string * string :=
  (category item, title item).

Definition dedup_key (item : AdviceItem) : string :=
  category item +:+ "-" +:+ title item.

(** Surroundings of the example calls. *)
Definition advice_env : Ambient :=
  {| Math_random := 0.4; new_Date := "2024-01-15T10:00:00.000Z";
     Date_now := 1705312800000 |}.

Definition example_storage : CacheStorage :=
  {| cache_readable := true; cache_writable := true; cache_item := CacheAbsent |}.

(** What the regular expression of [generateCacheId] leaves of a string. *)
Definition sanitize : string → string := JS.keep JS.cacheId_char.

(** The relevance score as the specification words it: a base of 0.5 and
    four bonuses, added up and clamped to the unit interval. *)
Definition clamp01 (x : Q) : Q := Qmax 0 (Qmin x 1).

Definition primary_mood_bonus (item : AdviceItem) (m : MoodResult) : Q :=
  if String.eqb (category item) (JS.toLowerCase (primaryMood m)) then 0.3 else 0.

Fixpoint emotion_bonus (item : AdviceItem) (es : list Emotion) : Q :=
  match es with
  | [] => 0
  | e :: es' =>
      (if String.eqb (category item) (JS.toLowerCase (name e))
       then intensity e * 0.2 else 0)
      + emotion_bonus item es'
  end.

Definition difficulty_bonus (item : AdviceItem) (m : MoodResult) : Q :=
  if (String.eqb (difficulty item) "easy" && JS.lt 0.7 (confidence m))
     || (String.eqb (difficulty item) "medium" && JS.lt (confidence m) 0.5)
  then 0.1 else 0.

Definition used_before (item : AdviceItem) (h : list Session) : bool :=
  existsb (λ session,
             match session_advice session with
             | Some l => existsb (λ used, String.eqb (category used) (category item)) l
             | None => false
             end) h.

Definition history_bonus (item : AdviceItem) (h : list Session) : Q :=
  if used_before item h then 0.15 else 0.

Definition relevance_formula (item : AdviceItem) (m : MoodResult)
    (h : list Session) : Q :=
  clamp01 (0.5 + primary_mood_bonus item m + emotion_bonus item (emotions m)
           + difficulty_bonus item m + history_bonus item h).

End MoodAdviceServiceSpec.

Module MoodAnalysisServiceSpec.
Import MoodAnalysisService.

Open Scope Q_scope.

(** Absent or malformed drawing data: no object, or one without a usable
    [dataUrl]. *)
Definition invalid_input (exportData : option ExportData) : Prop :=
  match exportData with
  | None => True
  | Some data => is_truthy (dataUrl data) = false
  end.

(** A production setting: an API key, a limiter with the day's default
    record, an empty cache. *)
Definition example_world : World :=
  {| service := {| apiKey := Some "sk-test"; isInitialized := true;
                   analysisCache := [] |};
     storage :=
       {| LocalStorageManager.limiter :=
            {| RateLimiter.quotas :=
                 Some (RateLimiter.createDefaultQuotas
                         (LocalStorageManager.clock
                            LocalStorageManagerSpec.manager_env));
               RateLimiter.initialized := true;
               RateLimiter.storage :=
                 {| RateLimiter.readable := true; RateLimiter.writable := true;
                    RateLimiter.item := RateLimiter.ItemAbsent |} |};
          LocalStorageManager.db := true;
          LocalStorageManager.initialized := true;
          LocalStorageManager.idb :=
            {| LocalStorageManager.sessions := ∅;
               LocalStorageManager.moodHistory := ∅ |};
          LocalStorageManager.session_cache := None;
          LocalStorageManager.mood_cache := None |};
     analysis_cache_item := AnalysisCacheAbsent;
     session_id_item := None;
     localStorage_readable := true;
     localStorage_writable := true;
     tidb_requests := [] |}.

(** The classifier answers with prose instead of JSON. *)
Definition analysis_env : Ambient :=
  {| storage_env := LocalStorageManagerSpec.manager_env;
     getApiKey_openai := Return (Some "sk-test");
     isDevelopment := Return false;
     random := λ _, 0.5%Q;
     fetch := ResponseOk (MessageContent "Sorry, I cannot analyze this image.");
     api_processingTime := 1200%Z;
     metadata_processingTime := 0%Z;
     session_random36 := "p0o9i8u7y" |}.

Definition example_export : ExportData :=
  {| dataUrl := Some "data:image/jpeg;base64,/9j/4AAQSkZJRgABAQAAAQABAAD";
     compressedSize := Some 51200%Q;
     ed_compressionRatio := Some 0.6%Q;
     width := Some 800%Z; height := Some 600%Z |}.

(** A [JSON.parse] that rejects every text, as it does the prose above. *)
Definition rejecting_parse (text : string) : Completion JS.Json :=
  Throw "Unexpected token 'S', is not valid JSON".

Definition plain_ToString (v : JS.Json) : string :=
  match v with
  | JS.JString s => s
  | _ => ""
  end.

(** A [JSON.parse] that yields a typical classifier answer: a mood outside
    the canonical list, a confidence out of range, and a recommendation
    list with one usable entry. *)
Definition canned_parse (text : string) : Completion JS.Json :=
  Return
    (JS.JObject
       [ ("primaryMood", JS.JString " Joyful ");
         ("confidence", JS.JNumber 1.5);
         ("description", JS.JString "Bright colours and round shapes.");
         ("recommendations",
          JS.JArray
            [ JS.JObject [ ("title", JS.JString " Take a walk ");
                           ("description", JS.JString "Go outside for a while.") ];
              JS.JNumber 3;
              JS.JObject [ ("title", JS.JString "No description") ] ]) ]).

(** A [JSON.parse] that yields an answer carrying marks of its own. *)
Definition marked_parse (text : string) : Completion JS.Json :=
  Return
    (JS.JObject
       [ ("primaryMood", JS.JString "happy");
         ("description", JS.JString "Bright colours and round shapes.");
         ("isMockData", JS.JBool true);
         ("timestamp", JS.JString "2020-02-02T02:02:02.000Z") ]).



(** The classifier's server refuses the request and names a quota of its
    own. *)
Definition server_quota_env : Ambient :=
  {| storage_env := storage_env analysis_env;
     getApiKey_openai := getApiKey_openai analysis_env;
     isDevelopment := isDevelopment analysis_env;
     random := random analysis_env;
     fetch := ResponseNotOk 429 (Some "Project quota exceeded");
     api_processingTime := api_processingTime analysis_env;
     metadata_processingTime := metadata_processingTime analysis_env;
     session_random36 := session_random36 analysis_env |}.

(** [getApiKey] throws, so [initialize] does. *)
Definition keyless_env : Ambient :=
  {| storage_env := storage_env analysis_env;
     getApiKey_openai := Throw "Cannot read the environment";
     isDevelopment := isDevelopment analysis_env;
     random := random analysis_env;
     fetch := fetch analysis_env;
     api_processingTime := api_processingTime analysis_env;
     metadata_processingTime := metadata_processingTime analysis_env;
     session_random36 := session_random36 analysis_env |}.

End MoodAnalysisServiceSpec.

Module RateLimiterInvariant.
Import RateLimiter.

(** A limiter that has been initialised holds a quota record. *)
Definition has_record (st : State) : Prop :=
  initialized st = true → ∃ q, quotas st = Some q.

End RateLimiterInvariant.

Module MoodAdviceServiceOrder.
Import MoodAdviceService.

Open Scope Q_scope.

(** [a] may stand in front of [b]: its relevance is not the smaller one. *)
Definition not_less_relevant (m : MoodResult) (h : list Session)
    (a b : AdviceItem) : Prop :=
  calculateRelevanceScore b m h <= calculateRelevanceScore a m h.

End MoodAdviceServiceOrder.

Module LocalStorageManagerStoresSpec.
Import LocalStorageManager LocalStorageManagerStores LocalStorageManagerSpec.

(** A store holds every record under the value of its key path. *)
Definition keyed_by {V : Type} (key : V → string) (store : gmap string V) : Prop :=
  ∀ k v, store !! k = Some v → key v = k.

(** A manager with an open database, empty stores and the default quota
    record of 2024-01-15. *)
Definition fresh_world : World string :=
  {| limiter :=
       {| RateLimiter.quotas :=
            Some (RateLimiter.createDefaultQuotas (clock manager_env));
          RateLimiter.initialized := true;
          RateLimiter.storage :=
            {| RateLimiter.readable := true; RateLimiter.writable := true;
               RateLimiter.item := RateLimiter.ItemAbsent |} |};
     db := true; initialized := true;
     idb := {| sessions := ∅; moodHistory := ∅ |};
     session_cache := None; mood_cache := None |}.

Definition fresh_database : Database string string :=
  {| manager := fresh_world; apiUsage := ∅; recommendations := ∅;
     local_recommendations := ∅;
     local_readable := true; local_writable := true |}.

Definition exhausted_database : Database string string :=
  {| manager := exhausted_world; apiUsage := ∅; recommendations := ∅;
     local_recommendations := ∅;
     local_readable := true; local_writable := true |}.

(** Requests at 10:00 UTC on 2024-01-15 that all succeed. *)
Definition example_requests : Requests :=
  {| env := manager_env;
     get_error := None;
     getTime := λ text, if String.eqb text "2024-01-15T10:00:00.000Z"
                        then Some 1705312800000 else None;
     days_before_now := λ n, if n =? 30 then "2023-12-16T10:00:00.000Z"
                             else if n =? 90 then "2023-10-17T10:00:00.000Z"
                             else if n =? 7 then "2024-01-08T10:00:00.000Z"
                             else "2024-01-15T10:00:00.000Z" |}.

(** The same surroundings 59 minutes and 61 minutes later. *)
Definition requests_after (minutes : Z) : Requests :=
  {| env := {| clock := clock manager_env; open_error := None; put_error := None;
               now_iso := "2024-01-15T11:00:00.000Z";
               Date_now := 1705312800000 + minutes * 60000;
               random36 := "zzzzzzzzz" |};
     get_error := None;
     getTime := getTime example_requests;
     days_before_now := days_before_now example_requests |}.

End LocalStorageManagerStoresSpec.

Module MoodAnalysisServiceSampling.
Import MoodAnalysisService.

(** The positions [generateCacheKey] reads in a text of the given length:
    the multiples of [step = floor(length / min(1000, length))]. *)
Definition sampled_positions (length : nat) : list nat :=
  let step := Z.to_nat (Z.of_nat length / Z.min 1000 (Z.of_nat length)) in
  List.filter (λ i, (i mod step =? 0)%nat) (seq 0 length).

(** Two texts have the same character at a position. *)
Definition same_at (s1 s2 : string) (i : nat) : bool :=
  match String.get i s1, String.get i s2 with
  | Some a, Some b => Ascii.eqb a b
  | None, None => true
  | _, _ => false
  end.

(** [n] copies of a text, one after the other. *)
Fixpoint repeat_text (n : nat) (text : string) : string :=
  match n with
  | O => EmptyString
  | S n' => text +:+ repeat_text n' text
  end.

(** A service that has analysed the example drawing before. *)
Definition cached_result : AnalysisResult :=
  {| moodData := Some {| primaryMood := MoodString "happy"; confidence := 0.9%Q;
                         description := "Bright colours."; recommendations := [] |};
     processingTime := Some 1200%Q; isMockData := false; timestamp := None;
     businessCategories := Some (CategoryList DEFAULT_BUSINESS_CATEGORIES);
     metadata := None |}.

Definition world_with_cache : World :=
  with_service
    {| apiKey := Some "sk-test"; isInitialized := true;
       analysisCache :=
         [ (generateCacheKey "data:image/jpeg;base64,/9j/4AAQSkZJRgABAQAAAQABAAD",
            cached_result) ] |}
    MoodAnalysisServiceSpec.example_world.

(** A manager whose database quota is used up and whose fallback entry
    holds one mood. *)
Definition world_without_database_quota : World :=
  with_storage
    {| LocalStorageManager.limiter :=
         LocalStorageManager.limiter LocalStorageManagerSpec.exhausted_world;
       LocalStorageManager.db := true;
       LocalStorageManager.initialized := true;
       LocalStorageManager.idb :=
         {| LocalStorageManager.sessions := ∅;
            LocalStorageManager.moodHistory := ∅ |};
       LocalStorageManager.session_cache := None;
       LocalStorageManager.mood_cache :=
         Some [ {| LocalStorageManager.stored_id := "mood_1";
                   LocalStorageManager.stored_timestamp := "2024-01-14T09:00:00.000Z";
                   LocalStorageManager.stored_mood_fields :=
                     {| imageData := "data:,"; imageDimensions := (None, None);
                        analysis := cached_result; sessionId := "s1" |} |} ] |}
    MoodAnalysisServiceSpec.example_world.

End MoodAnalysisServiceSampling.

Module LocalStorageManagerOverlapSpec.
Import LocalStorageManager LocalStorageManagerSpec.
Import LocalStorageManagerStores LocalStorageManagerStoresSpec.

(** The record of the limiter has room for one more database operation. *)
Definition room (l : RateLimiter.State) : bool :=
  match RateLimiter.counter l "database" with
  | Some sq => RateLimiter.used sq <? RateLimiter.limit sq
  | None => false
  end.

(** The limiter as the check of a call leaves it, and as the increment of
    the same call finds it. *)
Definition at_check (clk : RateLimiter.Clock) (l : RateLimiter.State)
  : RateLimiter.State :=
  RateLimiter.initialize clk l.

Definition at_increment (meanwhile : RateLimiter.State → RateLimiter.State)
    (clk : RateLimiter.Clock) (l : RateLimiter.State) : RateLimiter.State :=
  RateLimiter.initialize clk (meanwhile (at_check clk l)).

(** The call is served: there is room at its check and still room at its
    increment. *)
Definition granted (meanwhile : RateLimiter.State → RateLimiter.State)
    (clk : RateLimiter.Clock) (l : RateLimiter.State) : bool :=
  room (at_check clk l) && room (at_increment meanwhile clk l).

(** The call is overtaken: there is room at its check, and at its
    increment the record is there but the room is gone. *)
Definition overtaken (meanwhile : RateLimiter.State → RateLimiter.State)
    (clk : RateLimiter.Clock) (l : RateLimiter.State) : bool :=
  room (at_check clk l)
  && negb (room (at_increment meanwhile clk l))
  && match RateLimiter.quotas (at_increment meanwhile clk l) with
     | Some _ => true
     | None => false
     end.

(** One other call of [checkDatabaseQuota] that runs to its end in the
    gap. *)
Definition one_other_call (clk : RateLimiter.Clock)
  : RateLimiter.State → RateLimiter.State :=
  λ l, (RateLimiter.incrementUsage clk "database" l).2.

(** No other call. *)
Definition no_other_call : RateLimiter.State → RateLimiter.State := λ l, l.

(** A limiter that has served 999 of the day's 1000 database
    operations. *)
Definition nearly_exhausted_limiter : RateLimiter.State :=
  {| RateLimiter.quotas :=
       Some {| RateLimiter.date := RateLimiter.getTodayString (clock manager_env);
               RateLimiter.services :=
                 <["database" := {| RateLimiter.used := 999;
                                    RateLimiter.limit := 1000 |}]>
                   RateLimiter.default_services;
               RateLimiter.resetTime :=
                 RateLimiter.getNextMidnight (clock manager_env) |};
     RateLimiter.initialized := true;
     RateLimiter.storage :=
       {| RateLimiter.readable := true; RateLimiter.writable := true;
          RateLimiter.item := RateLimiter.ItemAbsent |} |}.

(** A manager on that limiter: one mood entry in the database, another
    one, which the database does not hold, in the [localStorage] copy. *)
Definition stored_entry : StoredMood string :=
  {| stored_id := "m2"; stored_timestamp := "2024-01-15T09:00:00.000Z";
     stored_mood_fields := "happy" |}.

Definition copied_entry : StoredMood string :=
  {| stored_id := "m1"; stored_timestamp := "2024-01-10T09:00:00.000Z";
     stored_mood_fields := "sad" |}.

Definition old_session : StoredSession :=
  {| stored_sessionId := "s0"; stored_session_fields := "{}";
     session_timestamp := "2023-11-01T08:00:00.000Z";
     lastUpdated := "2023-11-01T08:00:00.000Z" |}.

Definition nearly_exhausted_world : World string :=
  {| limiter := nearly_exhausted_limiter;
     db := true; initialized := true;
     idb := {| sessions := {["s0" := old_session]};
               moodHistory := {["m2" := stored_entry]} |};
     session_cache := None;
     mood_cache := Some [copied_entry; copied_entry] |}.

Definition nearly_exhausted_database : Database string string :=
  {| manager := nearly_exhausted_world; apiUsage := ∅; recommendations := ∅;
     local_recommendations := ∅;
     local_readable := true; local_writable := true |}.

End LocalStorageManagerOverlapSpec.


(** * Verified properties *)

(** ** RateLimiter *)

Module RateLimiterFacts.
Import RateLimiter RateLimiterSpec.

Lemma initialize_initialized clk st :
  initialized st = true → initialize clk st = st.
Proof. intros H. unfold initialize. by rewrite H. Qed.

Lemma initialize_idempotent clk clk' st :
  initialize clk' (initialize clk st) = initialize clk st.
Proof.
  apply initialize_initialized. unfold initialize.
  by destruct (initialized st) eqn:E.
Qed.

Lemma saveQuotas_quotas st : quotas (saveQuotas st) = quotas st.
Proof. unfold saveQuotas. by destruct (writable (storage st)). Qed.

Lemma saveQuotas_initialized st : initialized (saveQuotas st) = initialized st.
Proof. unfold saveQuotas. by destruct (writable (storage st)). Qed.

Lemma known_service_own q s sq :
  services q !! s = Some sq → getService q s = Own sq.
Proof. intros H. unfold getService. by rewrite H. Qed.

Lemma default_state_within_limits clk ls :
  within_limits {| quotas := Some (createDefaultQuotas clk);
                   initialized := true; storage := ls |}.
Proof.
  split; [done|]. eexists; split; [done|].
  intros s Hs. unfold known_services in Hs.
  repeat (apply elem_of_cons in Hs as [->|Hs]);
    [ exists {| used := 0; limit := RATE_LIMITS_openai |}
    | exists {| used := 0; limit := RATE_LIMITS_googlePlaces |}
    | exists {| used := 0; limit := RATE_LIMITS_database |}
    | by apply elem_of_nil in Hs ];
    (split; [reflexivity | by cbn]).
Qed.

Lemma incrementUsage_within_limits clk service st :
  within_limits st → within_limits (incrementUsage clk service st).2.
Proof.
  intros (Hi & q & Hq & Hk). unfold incrementUsage.
  rewrite (initialize_initialized _ _ Hi), Hq.
  assert (within_limits st) as Hst by (split; [done | by exists q]).
  destruct (getService q service) as [sq| |] eqn:Hg; cbn; [ | | done ].
  - destruct (limit sq <=? used sq) eqn:Hle; cbn; [done|].
    apply Z.leb_gt in Hle.
    split; [by rewrite saveQuotas_initialized|].
    eexists; split; [by rewrite saveQuotas_quotas|]. cbn.
    intros s Hs. destruct (decide (service = s)) as [->|Hne].
    + rewrite lookup_insert_eq. eexists; split; [done|]. cbn.
      destruct (Hk s Hs) as (sq' & Hsq' & Hb).
      unfold getService in Hg. rewrite Hsq' in Hg. injection Hg as ->. lia.
    + rewrite lookup_insert_ne by done. by apply Hk.
  - split; [by rewrite saveQuotas_initialized|].
    exists q; split; [by rewrite saveQuotas_quotas | done].
Qed.

Lemma incrementMany_within_limits calls st :
  within_limits st → within_limits (incrementMany calls st).2.
Proof.
  revert st. induction calls as [|[clk service] rest IH]; intros st Hst; [done|].
  cbn [incrementMany].
  pose proof (incrementUsage_within_limits clk service st Hst) as H1.
  destruct (incrementUsage clk service st) as [r st1]. cbn in H1.
  specialize (IH st1 H1).
  destruct (incrementMany rest st1) as [rs st2]. done.
Qed.

(** C1.  Start from the default quota record of a day and perform any
    finite sequence of [incrementUsage] calls, on any service names and at
    any clock readings.  Afterwards every configured service [s] still has
    its counter, [getRemainingQuota(s) + used(s) = limit(s)], and
    [used(s) <= limit(s)].  The sequence is arbitrary, so the bound holds
    after every prefix as well. *)
Theorem quota_invariant_after_increments
    (clk0 clk : Clock) (ls : LocalStorage) (calls : list (Clock * string))
    (s : string) :
  s ∈ known_services →
  let st := (incrementMany calls
               {| quotas := Some (createDefaultQuotas clk0);
                  initialized := true; storage := ls |}).2 in
  ∃ sq r, counter st s = Some sq ∧
          (getRemainingQuota clk s st).1 = Return (Num r) ∧
          r + used sq = limit sq ∧
          used sq ≤ limit sq.
Proof.
  intros Hs st.
  destruct (incrementMany_within_limits calls _
              (default_state_within_limits clk0 ls)) as (Hi & q & Hq & Hk).
  fold st in Hi, Hq. destruct (Hk s Hs) as (sq & Hsq & Hb).
  exists sq, (limit sq - used sq). repeat split.
  - unfold counter. rewrite Hq. done.
  - unfold getRemainingQuota. rewrite (initialize_initialized _ _ Hi), Hq.
    rewrite (known_service_own _ _ _ Hsq). cbn. do 2 f_equal. lia.
  - lia.
  - lia.
Qed.

Lemma quota_invariant_after_increments_witness :
  let clk := {| getTodayString := "2024-01-15";
                getNextMidnight := "2024-01-16T00:00:00.000Z" |} in
  let ls := {| readable := true; writable := true; item := ItemAbsent |} in
  let st := (incrementMany [(clk, "openai"); (clk, "toString"); (clk, "nope");
                            (clk, "openai"); (clk, "database")]
               {| quotas := Some (createDefaultQuotas clk);
                  initialized := true; storage := ls |}).2 in
  "openai" ∈ known_services ∧
  ∃ sq r, counter st "openai" = Some sq ∧
          (getRemainingQuota clk "openai" st).1 = Return (Num r) ∧
          r + used sq = limit sq ∧ used sq ≤ limit sq.
Proof.
  intros clk ls st. split.
  - unfold known_services. apply elem_of_cons. by left.
  - apply (quota_invariant_after_increments clk clk ls
             [(clk, "openai"); (clk, "toString"); (clk, "nope");
              (clk, "openai"); (clk, "database")] "openai").
    unfold known_services. apply elem_of_cons. by left.
Defined.

Lemma incrementUsage_at_limit clk s st q sq :
  quotas (initialize clk st) = Some q →
  services q !! s = Some sq →
  limit sq ≤ used sq →
  incrementUsage clk s st = (Return false, initialize clk st).
Proof.
  intros Hq Hs Hle. unfold incrementUsage. rewrite Hq.
  rewrite (known_service_own _ _ _ Hs).
  by rewrite (proj2 (Z.leb_le _ _) Hle).
Qed.

Lemma checkQuota_at_limit clk s st q sq :
  quotas (initialize clk st) = Some q →
  services q !! s = Some sq →
  limit sq ≤ used sq →
  checkQuota clk s st = (Return false, initialize clk st).
Proof.
  intros Hq Hs Hle. unfold checkQuota. rewrite Hq.
  rewrite (known_service_own _ _ _ Hs).
  by rewrite (proj2 (Z.ltb_ge _ _) Hle).
Qed.

(** While room is left, consecutive increments of one service all succeed
    and each adds one to its counter. *)
Lemma increments_succeed s (clks : list Clock) :
  ∀ st q sq,
    initialized st = true →
    quotas st = Some q →
    services q !! s = Some sq →
    used sq + Z.of_nat (length clks) ≤ limit sq →
    ∃ st', incrementMany ((λ c, (c, s)) <$> clks) st
             = ((λ _, Return true) <$> clks, st') ∧
           initialized st' = true ∧
           counter st' s = Some {| used := used sq + Z.of_nat (length clks);
                                   limit := limit sq |}.
Proof.
  induction clks as [|clk clks IH]; intros st q sq Hi Hq Hs Hle.
  - exists st. split; [done|]. split; [done|].
    unfold counter. rewrite Hq. cbn. rewrite Hs. f_equal.
    destruct sq; cbn; f_equal; lia.
  - cbn [length] in Hle. rewrite !fmap_cons. cbn [incrementMany].
    unfold incrementUsage at 1.
    rewrite (initialize_initialized _ _ Hi), Hq, (known_service_own _ _ _ Hs).
    assert ((limit sq <=? used sq) = false) as -> by (apply Z.leb_gt; lia).
    set (q' := {| date := date q;
                  services := <[s := {| used := used sq + 1; limit := limit sq |}]>
                                (services q);
                  resetTime := resetTime q |}).
    set (st1 := saveQuotas {| quotas := Some q'; initialized := initialized st;
                              storage := storage st |}).
    destruct (IH st1 q' {| used := used sq + 1; limit := limit sq |})
      as (st' & Hrun & Hi' & Hc).
    + unfold st1. by rewrite saveQuotas_initialized.
    + unfold st1. by rewrite saveQuotas_quotas.
    + unfold q'. cbn. by rewrite lookup_insert_eq.
    + cbn. lia.
    + exists st'. fold q' st1. rewrite Hrun. split; [done|]. split; [done|].
      rewrite Hc. cbn. do 2 f_equal. lia.
Qed.

(** C2.  When the counter of a configured service has reached its limit,
    [incrementUsage] returns [false] and changes nothing.  From the
    default record of a fresh day, fifty consecutive
    [incrementUsage('openai')] calls (the classifier service, limit 50)
    all return [true]; the fifty-first returns [false] with the counter
    still at 50, and [checkQuota('openai')] then returns [false]. *)
Theorem incrementUsage_exhausted
    (clk : Clock) (s : string) (st : State) (q : Quotas) (sq : ServiceQuota)
    (clk0 clk51 clk52 : Clock) (ls : LocalStorage) (clks : list Clock) :
  s ∈ known_services →
  quotas (initialize clk st) = Some q →
  services q !! s = Some sq →
  used sq = limit sq →
  length clks = 50%nat →
  incrementUsage clk s st = (Return false, initialize clk st) ∧
  ∃ st50,
    incrementMany ((λ c, (c, "openai")) <$> clks)
      {| quotas := Some (createDefaultQuotas clk0);
         initialized := true; storage := ls |}
      = (replicate 50 (Return true), st50) ∧
    counter st50 "openai" = Some {| used := 50; limit := 50 |} ∧
    incrementUsage clk51 "openai" st50 = (Return false, st50) ∧
    checkQuota clk52 "openai" st50 = (Return false, st50).
Proof.
  intros _ Hq Hs Heq Hlen. split.
  - apply (incrementUsage_at_limit _ _ _ _ _ Hq Hs). lia.
  - destruct (increments_succeed "openai" clks
                {| quotas := Some (createDefaultQuotas clk0);
                   initialized := true; storage := ls |}
                (createDefaultQuotas clk0)
                {| used := 0; limit := RATE_LIMITS_openai |})
      as (st50 & Hrun & Hi & Hc); [done | done | done | |].
    { rewrite Hlen. cbn. unfold RATE_LIMITS_openai. lia. }
    rewrite Hlen in Hc.
    change (counter st50 "openai" = Some {| used := 50; limit := 50 |}) in Hc.
    exists st50. split.
    { rewrite Hrun. f_equal. clear -Hlen.
      do 51 (destruct clks as [|? clks]; try discriminate Hlen). done. }
    split; [done|].
    unfold counter in Hc. destruct (quotas st50) as [q50|] eqn:Hq50; [|done].
    cbn in Hc.
    assert (quotas (initialize clk51 st50) = Some q50) as H51
      by (by rewrite (initialize_initialized _ _ Hi)).
    assert (quotas (initialize clk52 st50) = Some q50) as H52
      by (by rewrite (initialize_initialized _ _ Hi)).
    split.
    + rewrite (incrementUsage_at_limit _ _ _ _ _ H51 Hc) by (cbn; lia).
      by rewrite (initialize_initialized _ _ Hi).
    + rewrite (checkQuota_at_limit _ _ _ _ _ H52 Hc) by (cbn; lia).
      by rewrite (initialize_initialized _ _ Hi).
Qed.

Lemma incrementUsage_exhausted_witness :
  let clk := {| getTodayString := "2024-01-15";
                getNextMidnight := "2024-01-16T00:00:00.000Z" |} in
  let ls := {| readable := true; writable := true; item := ItemAbsent |} in
  let sq := {| used := 1000; limit := 1000 |} in
  let q := {| date := "2024-01-15";
              services := <["database" := sq]> default_services;
              resetTime := "2024-01-16T00:00:00.000Z" |} in
  let st := {| quotas := Some q; initialized := true; storage := ls |} in
  incrementUsage clk "database" st = (Return false, initialize clk st) ∧
  ∃ st50,
    incrementMany ((λ c, (c, "openai")) <$> replicate 50 clk)
      {| quotas := Some (createDefaultQuotas clk);
         initialized := true; storage := ls |}
      = (replicate 50 (Return true), st50) ∧
    counter st50 "openai" = Some {| used := 50; limit := 50 |} ∧
    incrementUsage clk "openai" st50 = (Return false, st50) ∧
    checkQuota clk "openai" st50 = (Return false, st50).
Proof.
  intros clk ls sq q st.
  apply (incrementUsage_exhausted clk "database" st q sq clk clk clk ls
           (replicate 50 clk)).
  - unfold known_services. set_solver.
  - reflexivity.
  - reflexivity.
  - reflexivity.
  - reflexivity.
Defined.

(** A limiter that has not been initialised and finds a record of another
    day replaces it: every counter is 0 again, the date is today's and the
    reset time is the next midnight read from the clock. *)
Lemma initialize_resets_stale_record clk st q :
  initialized st = false →
  readable (storage st) = true →
  item (storage st) = ItemRecord q →
  date q ≠ getTodayString clk →
  quotas (initialize clk st)
    = Some {| date := getTodayString clk;
              services := default_services;
              resetTime := getNextMidnight clk |} ∧
  initialized (initialize clk st) = true.
Proof.
  intros Hi Hr Hit Hd. unfold initialize. rewrite Hi. cbn.
  unfold checkAndResetDaily, loadQuotas. rewrite Hr, Hit. cbn.
  rewrite bool_decide_eq_false_2 by done.
  unfold resetDailyCounters. by rewrite saveQuotas_quotas.
Qed.

(** A new instance over empty or unreadable storage starts from the
    default record of the day. *)
Lemma initialize_fresh_default clk ls :
  readable ls = false ∨ item ls = ItemAbsent ∨ item ls = ItemCorrupt →
  quotas (initialize clk (constructor ls)) = Some (createDefaultQuotas clk) ∧
  initialized (initialize clk (constructor ls)) = true.
Proof.
  intros H. unfold initialize, constructor.
  cbn [initialized quotas storage].
  assert (loadQuotas clk {| quotas := None; initialized := false; storage := ls |}
          = {| quotas := Some (createDefaultQuotas clk); initialized := false;
               storage := ls |}) as ->.
  { unfold loadQuotas. cbn [initialized quotas storage].
    destruct (readable ls); [|done].
    by destruct H as [?|[->| ->]]. }
  unfold checkAndResetDaily. cbn [initialized quotas storage].
  unfold createDefaultQuotas at 1. cbn [date].
  rewrite bool_decide_eq_true_2 by reflexivity. split; reflexivity.
Qed.

(** C6 (the code at the failing input).  A limiter is created on
    2024-01-14 and uses up the classifier quota; the page stays open.  On
    2024-01-15 the stored record is a day old, yet [initialize] returns at
    once: the record of the 14th stays, [checkQuota('openai')] and
    [incrementUsage('openai')] are [false], nothing is left.  A new
    instance over the same storage, by contrast, is reset on its first
    operation. *)
Theorem initialized_limiter_keeps_stale_record :
  let day14 := {| getTodayString := "2024-01-14";
                  getNextMidnight := "2024-01-15T00:00:00.000Z" |} in
  let day15 := {| getTodayString := "2024-01-15";
                  getNextMidnight := "2024-01-16T00:00:00.000Z" |} in
  let ls := {| readable := true; writable := true; item := ItemAbsent |} in
  let st := (incrementMany (replicate 50 (day14, "openai")) (constructor ls)).2 in
  initialized st = true ∧
  date <$> quotas st = Some "2024-01-14" ∧
  (∃ q, item (storage st) = ItemRecord q ∧ date q ≠ getTodayString day15) ∧
  counter st "openai" = Some {| used := 50; limit := 50 |} ∧
  checkQuota day15 "openai" st = (Return false, st) ∧
  incrementUsage day15 "openai" st = (Return false, st) ∧
  (getRemainingQuota day15 "openai" st).1 = Return (Num 0) ∧
  counter (checkQuota day15 "openai" st).2 "openai"
    = Some {| used := 50; limit := 50 |} ∧
  (checkQuota day15 "openai" (constructor (storage st))).1 = Return true ∧
  counter (checkQuota day15 "openai" (constructor (storage st))).2 "openai"
    = Some {| used := 0; limit := 50 |}.
Proof.
  cbv zeta. split; [vm_compute; reflexivity|]. split; [vm_compute; reflexivity|].
  split; [eexists; split; [vm_compute; reflexivity | vm_compute; discriminate]|].
  repeat match goal with |- _ ∧ _ => split end; vm_compute; reflexivity.
Qed.

(** *** Runs of the scenarios of the repository's tests *)

(** A new limiter over empty storage holds the default record; the
    classifier limit is 50. *)
Example initialize_default_record :
  let clk := {| getTodayString := "2024-01-15";
                getNextMidnight := "2024-01-16T00:00:00.000Z" |} in
  let st := initialize clk
              (constructor {| readable := true; writable := true;
                              item := ItemAbsent |}) in
  initialized st = true ∧
  date <$> quotas st = Some "2024-01-15" ∧
  resetTime <$> quotas st = Some "2024-01-16T00:00:00.000Z" ∧
  counter st "openai" = Some {| used := 0; limit := 50 |} ∧
  counter st "googlePlaces" = Some {| used := 0; limit := 250 |} ∧
  counter st "database" = Some {| used := 0; limit := 1000 |}.
Proof.
  cbv zeta.
  repeat match goal with |- _ ∧ _ => split end; vm_compute; reflexivity.
Qed.

(** Unknown names are refused; a name inherited from [Object.prototype]
    is not. *)
Example unknown_and_inherited_service :
  let clk := {| getTodayString := "2024-01-15";
                getNextMidnight := "2024-01-16T00:00:00.000Z" |} in
  let st := {| quotas := Some (createDefaultQuotas clk); initialized := true;
               storage := {| readable := true; writable := true;
                             item := ItemAbsent |} |} in
  (checkQuota clk "unknown" st).1 = Return false ∧
  (incrementUsage clk "unknown" st).1 = Return false ∧
  (getRemainingQuota clk "unknown" st).1 = Return (Num 0) ∧
  (checkQuota clk "toString" st).1 = Return false ∧
  (incrementUsage clk "toString" st).1 = Return true ∧
  (getRemainingQuota clk "toString" st).1 = Return NaN.
Proof.
  cbv zeta.
  repeat match goal with |- _ ∧ _ => split end; vm_compute; reflexivity.
Qed.

End RateLimiterFacts.

(** ** JavaScript helpers *)

Module JSFacts.

Lemma sort_insert_Permutation {A} (le0 : A → A → bool) x l :
  Permutation (JS.sort_insert le0 x l) (x :: l).
Proof.
  induction l as [|y l IH]; cbn; [done|].
  destruct (le0 x y); [done|].
  rewrite IH. apply perm_swap.
Qed.

(** Sorting rearranges and neither adds nor drops an element. *)
Lemma sort_Permutation {A} (le0 : A → A → bool) l :
  Permutation (JS.sort le0 l) l.
Proof.
  induction l as [|x l IH]; cbn; [done|].
  rewrite sort_insert_Permutation. by constructor.
Qed.

Lemma sort_insert_Sorted {A} (le0 : A → A → bool) x l :
  (∀ a b, le0 a b = false → le0 b a = true) →
  Sorted (λ a b, le0 a b = true) l →
  Sorted (λ a b, le0 a b = true) (JS.sort_insert le0 x l).
Proof.
  intros Htotal. induction l as [|y l IH]; intros Hs; cbn.
  - by repeat constructor.
  - destruct (le0 x y) eqn:Hxy.
    + constructor; [done|]. by constructor.
    + apply Sorted_inv in Hs as [Hs Hhd]. constructor; [by apply IH|].
      destruct l as [|z l]; cbn.
      * constructor. by apply Htotal.
      * destruct (le0 x z); constructor; [by apply Htotal|].
        by apply HdRel_inv in Hhd.
Qed.

(** For a comparator that orders any two elements one way or the other,
    each element of the result may stay in front of its successor. *)
Lemma sort_Sorted {A} (le0 : A → A → bool) l :
  (∀ a b, le0 a b = false → le0 b a = true) →
  Sorted (λ a b, le0 a b = true) (JS.sort le0 l).
Proof.
  intros Htotal. induction l as [|x l IH]; cbn; [constructor|].
  by apply sort_insert_Sorted.
Qed.

Lemma filter_sublist {A} (f : A → bool) l : sublist (List.filter f l) l.
Proof.
  induction l as [|x l IH]; cbn; [constructor|].
  destruct (f x); by constructor.
Qed.

Lemma string_app_cons c s t : String c s +:+ t = String c (s +:+ t).
Proof. reflexivity. Qed.

Lemma string_app_nil t : EmptyString +:+ t = t.
Proof. reflexivity. Qed.

Lemma keep_app allowed s t :
  JS.keep allowed (s +:+ t) = JS.keep allowed s +:+ JS.keep allowed t.
Proof.
  induction s as [|c s IH]; [done|].
  rewrite string_app_cons. cbn [JS.keep].
  destruct (allowed c); [rewrite string_app_cons; f_equal|]; exact IH.
Qed.

Lemma string_app_length s t :
  String.length (s +:+ t) = (String.length s + String.length t)%nat.
Proof.
  induction s as [|c s IH]; [done|].
  rewrite string_app_cons. cbn [String.length]. by rewrite IH.
Qed.

(** Appending the same suffix to different strings gives different strings. *)
Lemma string_app_inv_tail s1 s2 t : s1 +:+ t = s2 +:+ t → s1 = s2.
Proof.
  revert s2. induction s1 as [|c s1 IH]; intros [|d s2] H.
  - done.
  - apply (f_equal String.length) in H.
    rewrite string_app_nil, string_app_cons in H. cbn [String.length] in H.
    rewrite string_app_length in H. lia.
  - apply (f_equal String.length) in H.
    rewrite string_app_nil, string_app_cons in H. cbn [String.length] in H.
    rewrite string_app_length in H. lia.
  - rewrite !string_app_cons in H. injection H as -> H. f_equal. by apply IH.
Qed.

End JSFacts.

(** ** MoodAdviceService *)

Module MoodAdviceServiceFacts.
Import MoodAdviceService MoodAdviceServiceSpec.

Lemma removeDuplicateAdvice_from_keys seen advice :
  NoDup (dedup_key <$> removeDuplicateAdvice_from seen advice) ∧
  ∀ item, item ∈ removeDuplicateAdvice_from seen advice → dedup_key item ∉ seen.
Proof.
  revert seen. induction advice as [|x rest IH]; intros seen; cbn.
  - split; [constructor | intros item H; by apply elem_of_nil in H].
  - fold (dedup_key x). case_bool_decide as Hseen; [apply IH|].
    destruct (IH ({[dedup_key x]} ∪ seen)) as [Hnd Hfresh]. split.
    + cbn. constructor; [|done].
      intros (y & Hy & Hin)%list_elem_of_fmap.
      apply Hfresh in Hin. apply Hin, elem_of_union_l, elem_of_singleton.
      by symmetry.
    + intros item [->|Hin]%elem_of_cons; [done|].
      apply Hfresh in Hin. intros Hs. by apply Hin, elem_of_union_r.
Qed.

Lemma removeDuplicateAdvice_NoDup advice :
  NoDup (category_title <$> removeDuplicateAdvice advice).
Proof.
  destruct (removeDuplicateAdvice_from_keys ∅ advice) as [Hnd _].
  apply (NoDup_fmap_1 (λ p : string * string, p.1 +:+ "-" +:+ p.2)).
  by rewrite <- list_fmap_compose.
Qed.

Lemma category_title_with s :
  category_title ∘ (λ item, with_relevanceScore item (s item)) = category_title.
Proof. done. Qed.

(** The relevance comparator orders any two items, so the sorted list is
    in descending order of score. *)
Lemma byRelevance_total a b :
  byRelevance_le0 a b = false → byRelevance_le0 b a = true.
Proof.
  unfold byRelevance_le0.
  destruct (relevanceScore a) as [sa|], (relevanceScore b) as [sb|];
    try done.
  intros H. apply Qle_bool_iff.
  destruct (Qle_bool (sb - sa) 0) eqn:E; [done|].
  assert (¬ (sb - sa <= 0)%Q) by (rewrite <- Qle_bool_iff; congruence).
  lra.
Qed.

Lemma personalizeAdvice_length advice m h :
  (length (personalizeAdvice advice m h) ≤ 6)%nat.
Proof.
  unfold personalizeAdvice. rewrite length_map, length_firstn. lia.
Qed.

Lemma personalizeAdvice_no_score advice m h :
  Forall (λ item, relevanceScore item = None) (personalizeAdvice advice m h).
Proof.
  unfold personalizeAdvice. apply Forall_map.
  by apply Forall_forall.
Qed.

Lemma personalizeAdvice_NoDup advice m h :
  NoDup (category_title <$> advice) →
  NoDup (category_title <$> personalizeAdvice advice m h).
Proof.
  intros Hnd. unfold personalizeAdvice.
  set (scored := map _ advice).
  assert (NoDup (category_title <$> scored)) as Hscored.
  { unfold scored. change (@map) with (@fmap list _).
    by rewrite <- list_fmap_compose. }
  set (sorted := JS.sort byRelevance_le0 scored).
  assert (NoDup (category_title <$> sorted)) as Hsorted.
  { unfold sorted. by rewrite JSFacts.sort_Permutation. }
  set (filtered := if JS.lt 0.8 (confidence m) then _ else sorted).
  assert (sublist filtered sorted) as Hsub.
  { unfold filtered. destruct (JS.lt 0.8 (confidence m));
      [apply JSFacts.filter_sublist | done]. }
  change (@map) with (@fmap list _). rewrite <- list_fmap_compose.
  change (category_title ∘ without_relevanceScore) with category_title.
  apply (sublist_NoDup _ _ Hsorted).
  apply fmap_sublist. etrans; [apply sublist_take | exact Hsub].
Qed.

Lemma messages_nonempty key l : JS.Map_get messages key = Some l → ∃ m0 rest, l = m0 :: rest.
Proof.
  unfold messages. cbn [JS.Map_get].
  repeat (destruct (String.eqb _ key); [intros [= <-]; eauto|]).
  discriminate.
Qed.

(** The message lookup raises only for a mood name that
    [Object.prototype] provides, and then only for a returning user. *)
Lemma generatePersonalizedMessage_returns m h random :
  JS.toLowerCase (primaryMood m) ∉ JS.Object_prototype_keys ∨ (length h ≤ 2)%nat →
  ∃ message, generatePersonalizedMessage m h random = Return message.
Proof.
  intros Hok. unfold generatePersonalizedMessage.
  destruct (2 <? length h)%nat eqn:Hlen.
  - apply Nat.ltb_lt in Hlen. destruct Hok as [Hok|Hok]; [|lia].
    destruct (JS.Map_get messages (JS.toLowerCase (primaryMood m))) as [l|] eqn:Hm.
    + destruct (messages_nonempty _ _ Hm) as (m0 & rest & ->). eauto.
    + rewrite bool_decide_eq_false_2 by done. cbn. eauto.
  - destruct (JS.Map_get messages (JS.toLowerCase (primaryMood m))); [eauto|].
    case_bool_decide; eauto.
Qed.

(** C3 (as the code has it).  Whenever the message lookup does not raise
    (the primary mood does not lower-case to a name inherited from
    [Object.prototype], or the history has at most two entries),
    [getAdviceForMood] returns a recommendation whose advice list has at
    most 6 items, no two of them with the same (category, title) pair, and
    none with a [relevanceScore] property.  The list may be empty. *)
Theorem getAdviceForMood_advice_list
    (this : Service) (env : Ambient) (m : MoodResult) (h : list Session)
    (ls : CacheStorage) :
  JS.toLowerCase (primaryMood m) ∉ JS.Object_prototype_keys ∨ (length h ≤ 2)%nat →
  ∃ r ls', getAdviceForMood this env m h ls = (Return r, ls') ∧
           (length (rec_advice r) ≤ 6)%nat ∧
           NoDup (category_title <$> rec_advice r) ∧
           Forall (λ item, relevanceScore item = None) (rec_advice r).
Proof.
  intros Hok. unfold getAdviceForMood.
  destruct (generatePersonalizedMessage_returns m h (Math_random env) Hok)
    as [message ->].
  eexists _, _. split; [reflexivity|]. cbn [rec_advice].
  split; [apply personalizeAdvice_length|].
  split; [|apply personalizeAdvice_no_score].
  apply personalizeAdvice_NoDup, removeDuplicateAdvice_NoDup.
Qed.

Lemma getAdviceForMood_advice_list_witness :
  let m := {| primaryMood := "Anxiety"; confidence := 0.9;
              emotions := [ {| name := "anxiety"; intensity := 0.9 |} ] |} in
  ∃ r ls', getAdviceForMood constructor advice_env m [] example_storage
             = (Return r, ls') ∧
           (length (rec_advice r) ≤ 6)%nat ∧
           NoDup (category_title <$> rec_advice r) ∧
           Forall (λ item, relevanceScore item = None) (rec_advice r).
Proof.
  intros m.
  apply (getAdviceForMood_advice_list constructor advice_env m [] example_storage).
  right. cbn. lia.
Defined.

(** C3 (counterexample to the lower bound).  For the canonical mood
    [calm] with confidence 0.5 and no secondary emotion the catalogue has
    no entry: the call returns, and the advice list is empty. *)
Lemma getAdviceForMood_calm_is_empty :
  let m := {| primaryMood := "calm"; confidence := 0.5; emotions := [] |} in
  (0 <= confidence m <= 1)%Q ∧
  ∃ r ls', getAdviceForMood constructor advice_env m [] example_storage
             = (Return r, ls') ∧
           rec_advice r = [] ∧
           ¬ (1 ≤ length (rec_advice r))%nat.
Proof.
  cbv zeta. split; [cbn; lra|].
  eexists _, _. split; [reflexivity|].
  assert (personalizeAdvice (removeDuplicateAdvice [])
            {| primaryMood := "calm"; confidence := 0.5; emotions := [] |} []
          = []) as Hempty by reflexivity.
  cbn [rec_advice]. split; [exact Hempty|].
  change (¬ (1 ≤ length (personalizeAdvice (removeDuplicateAdvice [])
            {| primaryMood := "calm"; confidence := 0.5; emotions := [] |} []))%nat).
  rewrite Hempty. cbn. lia.
Qed.

(** *** Cache identifiers *)

Lemma generateCacheId_split m :
  generateCacheId m
  = sanitize (primaryMood m)
    +:+ sanitize ("-" +:+ JS.join ","
                    (map (λ e, name e +:+ ":" +:+ JS.toFixed1 (intensity e))
                         (emotions m))).
Proof. unfold generateCacheId, sanitize. apply JSFacts.keep_app. Qed.

(** With the same emotions, equal identifiers come from primary moods that
    are equal after the removal of the other characters. *)
Lemma generateCacheId_equal_sanitized m1 m2 :
  emotions m1 = emotions m2 →
  generateCacheId m1 = generateCacheId m2 →
  sanitize (primaryMood m1) = sanitize (primaryMood m2).
Proof.
  intros He. rewrite !generateCacheId_split, He.
  apply JSFacts.string_app_inv_tail.
Qed.

(** C7 (as the code has it).  The identifier depends on the primary mood
    and the emotions only, and for equal emotions two identifiers are equal
    exactly when the primary moods are equal once the characters outside
    [a-zA-Z0-9:,-] are removed.  So identical input gives identical
    output, and primary moods that still differ after that removal give
    different identifiers. *)
Theorem generateCacheId_equal_iff (m1 m2 : MoodResult) :
  emotions m1 = emotions m2 →
  (generateCacheId m1 = generateCacheId m2
   ↔ sanitize (primaryMood m1) = sanitize (primaryMood m2)).
Proof.
  intros He. split.
  - by apply generateCacheId_equal_sanitized.
  - rewrite !generateCacheId_split, He. by intros ->.
Qed.

Lemma generateCacheId_equal_iff_witness :
  let m1 := {| primaryMood := "happy"; confidence := 0.9;
               emotions := [ {| name := "joy"; intensity := 0.8 |} ] |} in
  let m2 := {| primaryMood := "sad"; confidence := 0.4;
               emotions := [ {| name := "joy"; intensity := 0.8 |} ] |} in
  emotions m1 = emotions m2 ∧
  (generateCacheId m1 = generateCacheId m2
   ↔ sanitize (primaryMood m1) = sanitize (primaryMood m2)).
Proof.
  intros m1 m2. split; [reflexivity|].
  apply (generateCacheId_equal_iff m1 m2). reflexivity.
Defined.

(** A string made of identifier characters only is left as it is. *)
Lemma sanitize_id s :
  forallb JS.cacheId_char (list_ascii_of_string s) = true → sanitize s = s.
Proof.
  unfold sanitize. induction s as [|c s IH]; [done|]. cbn.
  intros [Hc Hs]%andb_prop. rewrite Hc. f_equal. by apply IH.
Qed.

(** In particular, different primary moods written with letters, digits,
    [:], [,] and [-] only (all canonical mood names are) get different
    identifiers. *)
Lemma generateCacheId_distinct_plain_moods m1 m2 :
  emotions m1 = emotions m2 →
  forallb JS.cacheId_char (list_ascii_of_string (primaryMood m1)) = true →
  forallb JS.cacheId_char (list_ascii_of_string (primaryMood m2)) = true →
  primaryMood m1 ≠ primaryMood m2 →
  generateCacheId m1 ≠ generateCacheId m2.
Proof.
  intros He H1 H2 Hne Heq. apply Hne.
  apply (generateCacheId_equal_sanitized _ _ He) in Heq.
  by rewrite !sanitize_id in Heq.
Qed.

(** C7 (counterexample).  The primary moods [happy] and [happy!] differ,
    the emotions are the same, and the identifiers coincide. *)
Lemma generateCacheId_collision :
  let m1 := {| primaryMood := "happy"; confidence := 0.9;
               emotions := [ {| name := "joy"; intensity := 0.8 |} ] |} in
  let m2 := {| primaryMood := "happy!"; confidence := 0.9;
               emotions := [ {| name := "joy"; intensity := 0.8 |} ] |} in
  primaryMood m1 ≠ primaryMood m2 ∧
  emotions m1 = emotions m2 ∧
  generateCacheId m1 = generateCacheId m2 ∧
  generateCacheId m1 = "happy-joy:08".
Proof. cbv zeta. split; [done|]. repeat split. Qed.

(** *** The relevance score *)

Open Scope Q_scope.

Lemma emotion_fold item es acc :
  fold_left
    (λ score e, if String.eqb (category item) (JS.toLowerCase (name e))
                then score + intensity e * 0.2 else score) es acc
  == acc + emotion_bonus item es.
Proof.
  revert acc. induction es as [|e es IH]; intros acc; cbn.
  - ring.
  - rewrite IH. destruct (String.eqb _ _); ring.
Qed.

Lemma emotion_bonus_nonneg item es :
  (∀ e, e ∈ es → 0 <= intensity e) → 0 <= emotion_bonus item es.
Proof.
  induction es as [|e es IH]; intros H; cbn; [lra|].
  assert (0 <= emotion_bonus item es) by (apply IH; intros; apply H; by right).
  assert (0 <= intensity e) by (apply H; by left).
  destruct (String.eqb _ _); [|lra].
  assert (0 <= intensity e * 0.2) by (apply Qmult_le_0_compat; lra). lra.
Qed.

Lemma existsb_nil_history item h : (0 <? length h)%nat = false → used_before item h = false.
Proof. destruct h; [done | discriminate]. Qed.

(** Without any assumption the code caps the sum at 1. *)
Lemma calculateRelevanceScore_capped item m h :
  calculateRelevanceScore item m h
  == Qmin (0.5 + primary_mood_bonus item m + emotion_bonus item (emotions m)
           + difficulty_bonus item m + history_bonus item h) 1.
Proof.
  unfold calculateRelevanceScore.
  apply Q.min_compat; [|reflexivity].
  assert ((if (0 <? length h)%nat
           then if used_before item h then 0.15 else 0 else 0)
          = history_bonus item h) as Hh.
  { unfold history_bonus. destruct (0 <? length h)%nat eqn:E; [done|].
    by rewrite existsb_nil_history. }
  fold (used_before item h).
  transitivity
    ((if String.eqb (category item) (JS.toLowerCase (primaryMood m))
      then 0.5 + 0.3 else 0.5)
     + emotion_bonus item (emotions m)
     + difficulty_bonus item m
     + (if (0 <? length h)%nat
        then if used_before item h then 0.15 else 0 else 0)).
  - set (base := if String.eqb (category item) _ then 0.5 + 0.3 else 0.5).
    set (folded := fold_left _ _ _).
    assert (folded == base + emotion_bonus item (emotions m)) as Hf
      by apply emotion_fold.
    unfold difficulty_bonus.
    destruct (String.eqb (difficulty item) "easy"),
             (String.eqb (difficulty item) "medium"),
             (JS.lt 0.7 (confidence m)), (JS.lt (confidence m) 0.5),
             (0 <? length h)%nat, (used_before item h);
      cbn [andb orb]; rewrite Hf; ring.
  - rewrite Hh. unfold primary_mood_bonus.
    destruct (String.eqb (category item) _); ring.
Qed.

(** C9 (as the code has it).  For a mood result whose emotion
    intensities are not negative (the data model has them in [0, 1]) the
    score computed by [calculateRelevanceScore], in exact arithmetic, is
    the number the specification describes:
    0.5, plus 0.3 for a category equal to the lower-cased primary mood,
    plus intensity x 0.2 for every emotion whose lower-cased name is the
    category, plus 0.1 for an easy item at confidence above 0.7 or a
    medium item at confidence below 0.5, plus 0.15 when an earlier
    session's advice list has an item of the category, clamped to
    [0, 1]. *)
Theorem calculateRelevanceScore_formula
    (item : AdviceItem) (m : MoodResult) (h : list Session) :
  (∀ e, e ∈ emotions m → 0 <= intensity e) →
  calculateRelevanceScore item m h == relevance_formula item m h.
Proof.
  intros Hint. rewrite calculateRelevanceScore_capped.
  unfold relevance_formula, clamp01.
  symmetry. apply Q.max_r. apply Q.min_glb; [|lra].
  pose proof (emotion_bonus_nonneg item (emotions m) Hint).
  unfold primary_mood_bonus, difficulty_bonus, history_bonus.
  destruct (String.eqb (category item) _), (_ || _), (used_before item h); lra.
Qed.

Lemma calculateRelevanceScore_formula_witness :
  let item := {| category := "anxiety"; title := "Deep Breathing Exercise";
                 description := ""; actionSteps := []; techniques := [];
                 duration := "5-10 minutes"; difficulty := "easy";
                 relevanceScore := None |} in
  let m := {| primaryMood := "Anxiety"; confidence := 0.6;
              emotions := [ {| name := "anxiety"; intensity := 0.5 |};
                            {| name := "stress"; intensity := 0.4 |} ] |} in
  let h := [ {| session_advice := None |};
             {| session_advice := Some [item] |} ] in
  (∀ e, e ∈ emotions m → 0 <= intensity e) ∧
  calculateRelevanceScore item m h == relevance_formula item m h.
Proof.
  intros item m h.
  assert (∀ e, e ∈ emotions m → 0 <= intensity e) as Hint.
  { intros e He. unfold m in He. cbn in He.
    repeat (apply elem_of_cons in He as [->|He]); cbn; try lra.
    by apply elem_of_nil in He. }
  split; [exact Hint|].
  apply (calculateRelevanceScore_formula item m h Hint).
Defined.

(** C9 (counterexample).  The code has [Math.min(score, 1.0)]
    and no lower bound: with a negative intensity the score leaves the
    unit interval, where the clamped formula gives 0. *)
Lemma calculateRelevanceScore_negative_intensity :
  let item :=
    {| category := "fear"; title := "Courage Building"; description := "";
       actionSteps := []; techniques := []; duration := "";
       difficulty := "medium"; relevanceScore := None |} in
  let m :=
    {| primaryMood := "calm"; confidence := 0.6;
       emotions := [ {| name := "fear"; intensity := -4 |} ] |} in
  calculateRelevanceScore item m [] == -0.3 ∧
  relevance_formula item m [] == 0 ∧
  ¬ calculateRelevanceScore item m [] == relevance_formula item m [].
Proof.
  cbv zeta. split; [reflexivity|]. split; [reflexivity|].
  intros H. vm_compute in H. discriminate H.
Qed.

(** *** Runs of the scenarios of the specification and the tests *)

(** [primaryMood: 'Anxiety'], confidence 0.8, anxiety 0.8 and stress 0.4:
    the four anxiety items come first, then the two easy stress items. *)
Example getAdviceForMood_anxiety :
  let m := {| primaryMood := "Anxiety"; confidence := 0.8;
              emotions := [ {| name := "anxiety"; intensity := 0.8 |};
                            {| name := "stress"; intensity := 0.4 |} ] |} in
  match (getAdviceForMood constructor advice_env m [] example_storage).1 with
  | Return r =>
      map title (rec_advice r)
      = [ "Deep Breathing Exercise"; "Grounding Technique (5-4-3-2-1)";
          "Progressive Muscle Relaxation"; "Calming Visualization";
          "Quick Stress Reset"; "Physical Stress Release" ]
      ∧ rec_cacheId r = "Anxiety-anxiety:08,stress:04"
      ∧ rec_mood r = "Anxiety"
  | Throw _ => False
  end.
Proof. vm_compute. repeat split. Qed.

(** [primaryMood: 'anxiety'], confidence 0.9: only easy items are left. *)
Example getAdviceForMood_high_confidence :
  let m := {| primaryMood := "anxiety"; confidence := 0.9;
              emotions := [ {| name := "anxiety"; intensity := 0.9 |} ] |} in
  match (getAdviceForMood constructor advice_env m [] example_storage).1 with
  | Return r =>
      map (λ item, (title item, difficulty item)) (rec_advice r)
      = [ ("Deep Breathing Exercise", "easy");
          ("Grounding Technique (5-4-3-2-1)", "easy") ]
  | Throw _ => False
  end.
Proof. vm_compute. reflexivity. Qed.

(** A mood name that [Object.prototype] provides, with three earlier
    sessions: the message lookup raises a [TypeError]. *)
Example getAdviceForMood_inherited_name :
  let m := {| primaryMood := "Constructor"; confidence := 0.5; emotions := [] |} in
  let h := replicate 3 {| session_advice := None |} in
  getAdviceForMood constructor advice_env m h example_storage
  = (Throw "Cannot read properties of undefined (reading 'toLowerCase')",
     example_storage).
Proof. vm_compute. reflexivity. Qed.

(** The first of two items with the same category and title is kept. *)
Example removeDuplicateAdvice_keeps_first :
  let item c t d :=
    {| category := c; title := t; description := d; actionSteps := [];
       techniques := []; duration := ""; difficulty := "easy";
       relevanceScore := None |} in
  map description
    (removeDuplicateAdvice
       [ item "anxiety" "Deep Breathing" "first";
         item "stress" "Quick Reset" "second";
         item "anxiety" "Deep Breathing" "third" ])
  = [ "first"; "second" ].
Proof. vm_compute. reflexivity. Qed.

(** The recommendation is cached under its identifier. *)
Example getAdviceForMood_caches :
  let m := {| primaryMood := "calm"; confidence := 0.5; emotions := [] |} in
  let ls := (getAdviceForMood constructor advice_env m [] example_storage).2 in
  match
    getCachedAdviceById constructor "calm-" (Date_now advice_env + 1000) ls
  with
  | Return (Some c) => rec_cacheId (cached c) = "calm-"
  | _ => False
  end
  ∧ getCachedAdviceById constructor "calm-"
      (Date_now advice_env + 24 * 60 * 60 * 1000) ls = Return None.
Proof. vm_compute. split; reflexivity. Qed.

Close Scope Q_scope.

End MoodAdviceServiceFacts.

(** ** LocalStorageManager *)

Module LocalStorageManagerFacts.
Import LocalStorageManager LocalStorageManagerSpec.

Lemma initialize_keeps {A} env (w : World A) :
  limiter (initialize env w).2 = limiter w ∧
  idb (initialize env w).2 = idb w ∧
  session_cache (initialize env w).2 = session_cache w ∧
  mood_cache (initialize env w).2 = mood_cache w.
Proof.
  unfold initialize. destruct (initialized w && db w); [done|].
  by destruct (open_error env).
Qed.

Lemma initialize_outcome {A} env (w : World A) :
  (initialize env w).1 = Return tt ∨
  (∃ e, (initialize env w).1 = Throw e ∧ open_error env = Some e
        ∧ initialized w && db w = false).
Proof.
  unfold initialize. destruct (initialized w && db w); [by left|].
  destruct (open_error env) as [e|]; [right; eauto | by left].
Qed.

(** With the database quota denied, [checkDatabaseQuota] throws and only
    the limiter (which initialises itself) may have changed. *)
Lemma checkDatabaseQuota_denied {A} env (w : World A) :
  (RateLimiter.checkQuota (clock env) "database" (limiter w)).1 = Return false →
  ∃ w1, checkDatabaseQuota env w = (Throw quota_message, w1) ∧
        idb w1 = idb w ∧ session_cache w1 = session_cache w ∧
        mood_cache w1 = mood_cache w.
Proof.
  intros H. unfold checkDatabaseQuota.
  destruct (RateLimiter.checkQuota (clock env) "database" (limiter w))
    as [r l1]. cbn in H. subst r. eauto.
Qed.

(** C5 (as the code has it).  While the rate limiter denies the
    [database] quota, [saveSession] and [saveMoodEntry] fail their caller:
    each completes by throwing, with the message
    [Daily database operation limit exceeded] whenever the database
    connection is or can be opened, and neither the object stores nor the
    local fallback entries are written. *)
Theorem writes_fail_when_database_quota_exhausted {A : Type}
    (env : Ambient) (w : World A) (sessionData : SessionData)
    (moodData : MoodData A) :
  (RateLimiter.checkQuota (clock env) "database" (limiter w)).1 = Return false →
  ∃ e1 w1 e2 w2,
    saveSession env sessionData w = (Throw e1, w1) ∧
    saveMoodEntry env moodData w = (Throw e2, w2) ∧
    (idb w1 = idb w ∧ session_cache w1 = session_cache w
     ∧ mood_cache w1 = mood_cache w) ∧
    (idb w2 = idb w ∧ session_cache w2 = session_cache w
     ∧ mood_cache w2 = mood_cache w) ∧
    ((initialize env w).1 = Return tt → e1 = quota_message ∧ e2 = quota_message).
Proof.
  intros Hdenied. unfold saveSession, saveMoodEntry.
  destruct (initialize_keeps env w) as (Hl & Hi & Hs & Hm).
  destruct (initialize env w) as [r0 w0] eqn:Hinit. cbn in Hl, Hi, Hs, Hm.
  destruct r0 as [[]|e].
  - destruct (checkDatabaseQuota_denied env w0) as (w1 & -> & Hi1 & Hs1 & Hm1).
    { by rewrite Hl. }
    exists quota_message, w1, quota_message, w1.
    repeat split; congruence.
  - exists e, w0, e, w0. repeat split; try done. all: cbn; discriminate.
Qed.

Lemma writes_fail_when_database_quota_exhausted_witness :
  let sessionData := {| sessionId := Some "s1"; session_fields := "{}" |} in
  let moodData := {| id := None; timestamp := None; mood_fields := "calm" |} in
  (RateLimiter.checkQuota (clock manager_env) "database"
     (limiter exhausted_world)).1 = Return false ∧
  ∃ e1 w1 e2 w2,
    saveSession manager_env sessionData exhausted_world = (Throw e1, w1) ∧
    saveMoodEntry manager_env moodData exhausted_world = (Throw e2, w2) ∧
    (idb w1 = idb exhausted_world
     ∧ session_cache w1 = session_cache exhausted_world
     ∧ mood_cache w1 = mood_cache exhausted_world) ∧
    (idb w2 = idb exhausted_world
     ∧ session_cache w2 = session_cache exhausted_world
     ∧ mood_cache w2 = mood_cache exhausted_world) ∧
    ((initialize manager_env exhausted_world).1 = Return tt
     → e1 = quota_message ∧ e2 = quota_message).
Proof.
  intros sessionData moodData. split; [reflexivity|].
  apply (writes_fail_when_database_quota_exhausted manager_env exhausted_world
           sessionData moodData).
  reflexivity.
Defined.

(** C5 (counterexample).  With 1000 of 1000 database operations used,
    [saveSession] and [saveMoodEntry] reject with an error; nothing is
    stored, in the database or in the local fallback entries. *)
Lemma saveSession_rejects_when_exhausted :
  saveSession manager_env {| sessionId := Some "s1"; session_fields := "{}" |}
    exhausted_world
  = (Throw "Daily database operation limit exceeded", exhausted_world) ∧
  saveMoodEntry manager_env
    {| id := None; timestamp := None; mood_fields := "calm" |} exhausted_world
  = (Throw "Daily database operation limit exceeded", exhausted_world).
Proof. split; reflexivity. Qed.

End LocalStorageManagerFacts.

(** ** MoodAnalysisService *)

Module MoodAnalysisServiceFacts.
Import MoodAnalysisService MoodAnalysisServiceSpec.

Open Scope Q_scope.

(** *** The mock generator *)

Lemma Qfloor_unit_scaled (r : Q) (n : Z) :
  (0 < n)%Z → 0 <= r < 1 → (0 ≤ Qfloor (r * inject_Z n) < n)%Z.
Proof.
  intros Hn [H0 H1].
  assert (0 < inject_Z n) as Hn' by (change 0 with (inject_Z 0); by rewrite <- Zlt_Qlt).
  split.
  - change 0%Z with (Qfloor 0). apply Qfloor_resp_le.
    apply Qmult_le_0_compat; lra.
  - rewrite Zlt_Qlt. eapply Qle_lt_trans; [apply Qfloor_le|].
    assert (r * inject_Z n < 1 * inject_Z n)
      by (apply Qmult_lt_compat_r; lra).
    lra.
Qed.

(** C10.  Whatever the draws of the random source (each in [0, 1)), the
    mock result has a primary mood from the fifteen canonical moods, a
    confidence strictly between 0 and 1, and [isMockData] set. *)
Theorem generateMockAnalysis_valid (random : nat → Q) (now_iso : string) :
  (∀ k, 0 <= random k < 1) →
  ∃ d mood,
    moodData (generateMockAnalysis random now_iso) = Some d ∧
    primaryMood d = MoodString mood ∧
    mood ∈ validMoods ∧
    0 < confidence d < 1 ∧
    isMockData (generateMockAnalysis random now_iso) = true.
Proof.
  intros Hr. unfold generateMockAnalysis. cbn [moodData isMockData].
  change (length (map fst (moodDatabase random))) with 15%nat.
  change (length mood_templates) with 15%nat.
  pose proof (Qfloor_unit_scaled (random 15%nat) 15 eq_refl (Hr 15%nat)) as Hi.
  change (inject_Z (Z.of_nat 15)) with (inject_Z 15).
  set (i := Qfloor (random 15%nat * inject_Z 15)) in *.
  unfold JS.index. destruct (Z.ltb_spec i 0) as [?|_]; [lia|].
  assert (∃ k, (k < 15)%nat ∧ Z.to_nat i = k) as (k & Hk & ->)
    by (exists (Z.to_nat i); lia).
  clear i Hi.
  do 15 (destruct k as [|k];
         [ eexists _, _; split; [reflexivity|];
           split; [reflexivity|];
           split; [unfold validMoods;
                   repeat first [apply list_elem_of_here | apply list_elem_of_further]|];
           split; [|reflexivity];
           cbn [confidence confidence_base confidence_spread];
           match goal with
           | |- context [random ?n] => pose proof (Hr n)
           end; lra
         | ]).
  lia.
Qed.

Lemma generateMockAnalysis_valid_witness :
  let random := λ k : nat, if (k =? 15)%nat then 0.99 else 0.5 in
  (∀ k, 0 <= random k < 1) ∧
  ∃ d mood,
    moodData (generateMockAnalysis random "2024-01-15T10:00:00.000Z") = Some d ∧
    primaryMood d = MoodString mood ∧
    mood ∈ validMoods ∧
    0 < confidence d < 1 ∧
    isMockData (generateMockAnalysis random "2024-01-15T10:00:00.000Z") = true.
Proof.
  intros random.
  assert (∀ k, 0 <= random k < 1) as Hr.
  { intros k. unfold random. destruct (k =? 15)%nat; lra. }
  split; [exact Hr|].
  apply (generateMockAnalysis_valid random "2024-01-15T10:00:00.000Z" Hr).
Defined.

(** *** [analyzeMood]: the [catch] clause *)

Section Runtime.
Variable JSON_parse : string → Completion JS.Json.
Variable ToString : JS.Json → string.

#[local] Abbreviation analyzeMood := (analyzeMood JSON_parse ToString).
#[local] Abbreviation analyzeMood_try := (analyzeMood_try JSON_parse ToString).
#[local] Abbreviation callOpenAIAPI := (callOpenAIAPI JSON_parse ToString).

(** The fallback for [calm] is always built; it is the fixed result apart
    from its time stamp and the recorded error. *)
Lemma generateFallbackAnalysis_returns message now_iso :
  ∃ r d md,
    generateFallbackAnalysis message now_iso = Return r ∧
    moodData r = Some d ∧
    primaryMood d = MoodString "calm" ∧
    confidence d = 0.5%Q ∧
    recommendations d = fallback_recommendations ∧
    businessCategories r
      = Some (CategoryList ["spa"; "park"; "library"; "cafe"; "museum"]) ∧
    metadata r = Some md ∧
    isFallback md = true ∧
    error md = Some message ∧
    isMockData r = false.
Proof. eexists _, _, _. repeat split. Qed.

(** The message of the limiter's denial is recognised by the [catch]
    clause, whatever the two counters are. *)
Lemma quota_message_recognised (used limit : Z) :
  JS.includes "quota exceeded"
    ("Daily OpenAI quota exceeded (" +:+ pretty used +:+ "/" +:+ pretty limit
     +:+ "). Please try again tomorrow.") = true.
Proof. reflexivity. Qed.

(** A prefix without the letter [q] neither hides nor creates a match. *)
Lemma parse_failure_prefix message :
  JS.includes "quota exceeded"
    ("Failed to parse mood analysis response: " +:+ message)
  = JS.includes "quota exceeded" message.
Proof. reflexivity. Qed.

(** The [catch] clause answers every message without [quota exceeded]
    with the fallback built from it. *)
Lemma analyzeMood_catch_fallback env exportData w w0 w' message :
  ensure_initialized env w = (Return tt, w0) →
  analyzeMood_try env exportData w0 = (Throw message, w') →
  JS.includes "quota exceeded" message = false →
  analyzeMood env exportData w
  = (generateFallbackAnalysis message
       (LocalStorageManager.now_iso (storage_env env)), w').
Proof.
  intros Hinit Htry Hmsg.
  unfold MoodAnalysisService.analyzeMood. rewrite Hinit, Htry.
  unfold analyzeMood_catch. by rewrite Hmsg.
Qed.

(** A failure of [initialize], which runs before the guarded block, is
    not caught. *)
Lemma analyzeMood_initialize_failure env exportData w w0 e :
  ensure_initialized env w = (Throw e, w0) →
  analyzeMood env exportData w = (Throw e, w0).
Proof.
  intros Hinit. unfold MoodAnalysisService.analyzeMood. by rewrite Hinit.
Qed.


(** A classifier answer on which [JSON.parse] throws: the guarded block
    throws [Failed to parse mood analysis response: ...]. *)
Lemma callOpenAIAPI_malformed env imageData content message :
  fetch env = ResponseOk (MessageContent content) →
  (∀ text, JSON_parse text = Throw message) →
  callOpenAIAPI env imageData
  = Throw ("Failed to parse mood analysis response: " +:+ message).
Proof.
  intros Hf Hp. unfold MoodAnalysisService.callOpenAIAPI. rewrite Hf.
  unfold parseAnalysis. by rewrite Hp.
Qed.

(** The other failures of the classifier call, by their messages. *)
Lemma callOpenAIAPI_http_error env imageData status error_message :
  fetch env = ResponseNotOk status error_message →
  callOpenAIAPI env imageData
  = Throw ("OpenAI API error: " +:+ pretty status +:+ " - "
           +:+ LocalStorageManager.or_else error_message "Unknown error").
Proof. intros Hf. unfold MoodAnalysisService.callOpenAIAPI. by rewrite Hf. Qed.

Lemma analyzeMood_try_invalid_input env exportData w l l' info openai :
  RateLimiter.checkQuota (LocalStorageManager.clock (storage_env env)) "openai"
    (LocalStorageManager.limiter (storage w)) = (Return true, l) →
  RateLimiter.getAllQuotas (LocalStorageManager.clock (storage_env env)) l
    = (Return info, l') →
  RateLimiter.aq_services info !! "openai" = Some openai →
  invalid_input exportData →
  analyzeMood_try env exportData w
  = (Throw "Invalid drawing data provided", with_limiter l' (with_limiter l w)).
Proof.
  intros Hc Hq Ho Hin. unfold MoodAnalysisService.analyzeMood_try.
  rewrite Hc. cbn [with_limiter with_storage storage LocalStorageManager.with_limiter
                   LocalStorageManager.limiter].
  rewrite Hq, Ho. cbn [negb].
  destruct exportData as [data|]; [|done].
  cbn in Hin. by rewrite Hin.
Qed.

(** So invalid input is answered with the fallback result, not with an
    exception. *)
Lemma analyzeMood_invalid_input_returns_fallback env exportData w w0 l l' info openai :
  ensure_initialized env w = (Return tt, w0) →
  RateLimiter.checkQuota (LocalStorageManager.clock (storage_env env)) "openai"
    (LocalStorageManager.limiter (storage w0)) = (Return true, l) →
  RateLimiter.getAllQuotas (LocalStorageManager.clock (storage_env env)) l
    = (Return info, l') →
  RateLimiter.aq_services info !! "openai" = Some openai →
  invalid_input exportData →
  ∃ r,
    analyzeMood env exportData w
      = (Return r, with_limiter l' (with_limiter l w0)) ∧
    generateFallbackAnalysis "Invalid drawing data provided"
      (LocalStorageManager.now_iso (storage_env env)) = Return r.
Proof.
  intros Hinit Hc Hq Ho Hin.
  destruct (generateFallbackAnalysis_returns "Invalid drawing data provided"
              (LocalStorageManager.now_iso (storage_env env)))
    as (r & _ & _ & Hr & _).
  exists r. split; [|exact Hr].
  rewrite (analyzeMood_catch_fallback env exportData w w0 _ _ Hinit
             (analyzeMood_try_invalid_input _ _ _ _ _ _ _ Hc Hq Ho Hin) eq_refl).
  by rewrite Hr.
Qed.

(** When the limiter denies the call, the quota error is thrown to the
    caller: no classifier call, no retry, no fallback. *)
Lemma analyzeMood_quota_exceeded env exportData w w0 l l' info openai :
  ensure_initialized env w = (Return tt, w0) →
  RateLimiter.checkQuota (LocalStorageManager.clock (storage_env env)) "openai"
    (LocalStorageManager.limiter (storage w0)) = (Return false, l) →
  RateLimiter.getAllQuotas (LocalStorageManager.clock (storage_env env)) l
    = (Return info, l') →
  RateLimiter.aq_services info !! "openai" = Some openai →
  analyzeMood env exportData w
  = (Throw ("Daily OpenAI quota exceeded ("
            +:+ pretty (RateLimiter.qs_used openai) +:+ "/"
            +:+ pretty (RateLimiter.qs_limit openai)
            +:+ "). Please try again tomorrow."),
     with_limiter l' (with_limiter l w0)).
Proof.
  intros Hinit Hc Hq Ho.
  unfold MoodAnalysisService.analyzeMood. rewrite Hinit.
  unfold MoodAnalysisService.analyzeMood_try. rewrite Hc.
  cbn [with_limiter with_storage storage LocalStorageManager.with_limiter
       LocalStorageManager.limiter].
  rewrite Hq, Ho. cbn [negb].
  unfold analyzeMood_catch. by rewrite quota_message_recognised.
Qed.

End Runtime.

(** *** Concrete runs *)



(** The same happens, whatever the parser, when the classifier's server
    refuses the request with a message that names a quota of its own. *)
Example analyzeMood_rethrows_server_error_naming_quota
    (JSON_parse : string → Completion JS.Json) (ToString : JS.Json → string) :
  (analyzeMood JSON_parse ToString server_quota_env
     (Some example_export) example_world).1
  = Throw "OpenAI API error: 429 - Project quota exceeded".
Proof. vm_compute. reflexivity. Qed.

(** A failure of [getApiKey] during the first call is raised too. *)
Example analyzeMood_raises_when_initialize_fails
    (JSON_parse : string → Completion JS.Json) (ToString : JS.Json → string) :
  (analyzeMood JSON_parse ToString keyless_env (Some example_export)
     (with_service {| apiKey := None; isInitialized := false;
                      analysisCache := [] |} example_world)).1
  = Throw "Cannot read the environment".
Proof. vm_compute. reflexivity. Qed.

(** C4 (the code at the failing inputs).  With quota available,
    [analyzeMood(null)] and [analyzeMood({})] do not reject: the
    [Invalid drawing data provided] error is thrown inside the guarded
    block, caught, and answered with the fallback result. *)
Theorem analyzeMood_invalid_input_is_not_rejected
    (JSON_parse : string → Completion JS.Json) (ToString : JS.Json → string) :
  let empty_object := {| dataUrl := None; compressedSize := None;
                         ed_compressionRatio := None;
                         width := None; height := None |} in
  ∃ r md,
    (analyzeMood JSON_parse ToString analysis_env None example_world).1
      = Return r ∧
    (analyzeMood JSON_parse ToString analysis_env (Some empty_object)
       example_world).1 = Return r ∧
    metadata r = Some md ∧
    isFallback md = true ∧
    error md = Some "Invalid drawing data provided".
Proof. cbv zeta. eexists _, _. repeat split. Qed.

(** With the classifier quota used up the same calls reject with the
    quota error. *)
Example analyzeMood_rejects_when_quota_exhausted
    (JSON_parse : string → Completion JS.Json) (ToString : JS.Json → string) :
  let exhausted :=
    with_limiter
      (RateLimiter.incrementMany
         (replicate 50 (LocalStorageManager.clock
                          LocalStorageManagerSpec.manager_env, "openai"))
         (LocalStorageManager.limiter (storage example_world))).2
      example_world in
  (analyzeMood JSON_parse ToString analysis_env (Some example_export) exhausted).1
  = Throw "Daily OpenAI quota exceeded (50/50). Please try again tomorrow.".
Proof. vm_compute. reflexivity. Qed.

(** A classifier answer that parses: the mood [Joyful] is mapped to
    [happy], the confidence 1.5 is replaced by 0.75, one recommendation
    survives with the default icon, the classifier quota is charged once
    and the local database once, and the result is cached. *)
Example analyzeMood_classifier_answer :
  let run := analyzeMood canned_parse plain_ToString analysis_env
               (Some example_export) example_world in
  match run.1 with
  | Return r =>
      (primaryMood <$> moodData r) = Some (MoodString "happy") ∧
      (confidence <$> moodData r) = Some 0.75 ∧
      (map rec_title <$> (recommendations <$> moodData r))
        = Some ["Take a walk"] ∧
      (map rec_icon <$> (recommendations <$> moodData r))
        = Some [JS.JString "💡"] ∧
      businessCategories r
        = Some (CategoryList ["restaurant"; "amusement_park"; "shopping_mall";
                              "movie_theater"; "park"]) ∧
      (isFallback <$> metadata r) = Some false ∧
      isMockData r = false
  | Throw _ => False
  end ∧
  RateLimiter.counter (LocalStorageManager.limiter (storage run.2)) "openai"
    = Some {| RateLimiter.used := 1; RateLimiter.limit := 50 |} ∧
  RateLimiter.counter (LocalStorageManager.limiter (storage run.2)) "database"
    = Some {| RateLimiter.used := 1; RateLimiter.limit := 1000 |} ∧
  map fst (analysisCache (service run.2))
    = [generateCacheKey "data:image/jpeg;base64,/9j/4AAQSkZJRgABAQAAAQABAAD"] ∧
  tidb_requests run.2 = [(MoodString "happy", 0.75)] ∧
  (analyzeMood canned_parse plain_ToString analysis_env
     (Some example_export) run.2).1 = run.1.
Proof.
  cbv zeta. split; [vm_compute; repeat split|].
  repeat match goal with |- _ ∧ _ => split end; vm_compute; reflexivity.
Qed.

(** Without an API key the mock generator answers and no quota is used. *)
Example analyzeMood_mock :
  let w := with_service {| apiKey := None; isInitialized := true;
                           analysisCache := [] |} example_world in
  let run := analyzeMood rejecting_parse plain_ToString analysis_env
               (Some example_export) w in
  match run.1 with
  | Return r =>
      (primaryMood <$> moodData r) = Some (MoodString "angry") ∧
      isMockData r = true
  | Throw _ => False
  end ∧
  RateLimiter.counter (LocalStorageManager.limiter (storage run.2)) "openai"
    = Some {| RateLimiter.used := 0; RateLimiter.limit := 50 |}.
Proof. cbv zeta. split; [vm_compute; repeat split | vm_compute; reflexivity]. Qed.

(** [findClosestMood] on a synonym, on a phrase containing a canonical
    mood, on a name inherited from [Object.prototype], and on a word it
    does not know. *)
Example findClosestMood_cases :
  findClosestMood "joyful" validMoods = Some (MoodString "happy") ∧
  findClosestMood "very sad indeed" validMoods = Some (MoodString "sad") ∧
  findClosestMood "constructor" validMoods = Some MoodObject ∧
  findClosestMood "zzz" validMoods = None.
Proof. repeat split. Qed.

Example generateCacheKey_cases :
  generateCacheKey "a" = "mood_96" ∧
  generateCacheKey "data:image/jpeg;base64,/9j/4AAQSkZJRgABAQAAAQABAAD"
    = "mood_2112621255".
Proof. split; vm_compute; reflexivity. Qed.

Close Scope Q_scope.

End MoodAnalysisServiceFacts.

(** * Further properties of the services *)

(** ** RateLimiter *)

Module RateLimiterLaws.
Import RateLimiter RateLimiterSpec RateLimiterInvariant RateLimiterFacts.

Lemma saveQuotas_flags st :
  readable (storage (saveQuotas st)) = readable (storage st) ∧
  writable (storage (saveQuotas st)) = writable (storage st).
Proof. unfold saveQuotas. by destruct (writable (storage st)) eqn:E. Qed.

Lemma initialize_flags clk st :
  readable (storage (initialize clk st)) = readable (storage st) ∧
  writable (storage (initialize clk st)) = writable (storage st).
Proof.
  unfold initialize. destruct (initialized st); [done|]. cbn [storage].
  unfold checkAndResetDaily, resetDailyCounters.
  destruct (quotas (loadQuotas clk st)) as [q|].
  - case_bool_decide; [done|]. apply (saveQuotas_flags (Build_State _ _ _)).
  - apply (saveQuotas_flags (Build_State _ _ _)).
Qed.

Lemma initialize_is_initialized clk st : initialized (initialize clk st) = true.
Proof. unfold initialize. by destruct (initialized st) eqn:E. Qed.

(** X1.  A run of consecutive [incrementUsage(s)] calls on an initialised
    limiter whose record has the service [s] grants exactly as many calls
    as there is room for: with [room = max(0, limit - used)] the first
    [min(n, room)] of the [n] calls return [true], all later ones return
    [false], and afterwards the counter of [s] has grown by the number of
    granted calls while its limit is unchanged. *)
Theorem incrementUsage_grants_exactly_the_room
    (s : string) (clks : list Clock) (st : State) (q : Quotas)
    (sq : ServiceQuota) :
  initialized st = true →
  quotas st = Some q →
  services q !! s = Some sq →
  ∃ st',
    incrementMany ((λ c, (c, s)) <$> clks) st
    = ((replicate (Nat.min (length clks) (Z.to_nat (limit sq - used sq)))
          (Return true)
        ++ replicate (length clks - Z.to_nat (limit sq - used sq))
             (Return false))%list,
       st') ∧
    counter st' s
    = Some {| used := used sq
                      + Z.of_nat (Nat.min (length clks)
                                    (Z.to_nat (limit sq - used sq)));
              limit := limit sq |}.
Proof.
  revert st q sq. induction clks as [|clk clks IH]; intros st q sq Hi Hq Hs.
  - exists st. split; [done|]. unfold counter. rewrite Hq. cbn. rewrite Hs.
    f_equal. destruct sq; cbn; f_equal; lia.
  - rewrite fmap_cons. cbn [incrementMany length].
    unfold incrementUsage at 1.
    rewrite (initialize_initialized _ _ Hi), Hq, (known_service_own _ _ _ Hs).
    destruct (limit sq <=? used sq) eqn:Hle.
    + apply Z.leb_le in Hle.
      destruct (IH st q sq Hi Hq Hs) as (st' & Hrun & Hc).
      exists st'. rewrite Hrun.
      replace (Z.to_nat (limit sq - used sq)) with 0%nat in * by lia.
      rewrite Nat.min_0_r in *. split; [|done].
      cbn [replicate app]. rewrite !Nat.sub_0_r. done.
    + apply Z.leb_gt in Hle.
      set (q' := {| date := date q;
                    services := <[s := {| used := used sq + 1; limit := limit sq |}]>
                                  (services q);
                    resetTime := resetTime q |}).
      set (st1 := saveQuotas {| quotas := Some q'; initialized := initialized st;
                                storage := storage st |}).
      destruct (IH st1 q' {| used := used sq + 1; limit := limit sq |})
        as (st' & Hrun & Hc).
      * unfold st1. by rewrite saveQuotas_initialized.
      * unfold st1. by rewrite saveQuotas_quotas.
      * unfold q'. cbn. by rewrite lookup_insert_eq.
      * exists st'. rewrite Hrun. cbn [used limit] in *.
        replace (Z.to_nat (limit sq - used sq))
          with (S (Z.to_nat (limit sq - (used sq + 1)))) by lia.
        cbn [Nat.min Nat.sub replicate app]. split; [done|].
        rewrite Hc. do 2 f_equal. lia.
Qed.

Lemma incrementUsage_grants_exactly_the_room_witness :
  let clk := {| getTodayString := "2024-01-15";
                getNextMidnight := "2024-01-16T00:00:00.000Z" |} in
  let sq := {| used := 48; limit := 50 |} in
  let q := {| date := "2024-01-15";
              services := <["openai" := sq]> default_services;
              resetTime := "2024-01-16T00:00:00.000Z" |} in
  let st := {| quotas := Some q; initialized := true;
               storage := {| readable := true; writable := true;
                             item := ItemAbsent |} |} in
  ∃ st',
    incrementMany ((λ c, (c, "openai")) <$> replicate 5 clk) st
    = ([Return true; Return true; Return false; Return false; Return false], st') ∧
    counter st' "openai" = Some {| used := 50; limit := 50 |}.
Proof.
  intros clk sq q st.
  exact (incrementUsage_grants_exactly_the_room "openai" (replicate 5 clk) st q sq
           eq_refl eq_refl eq_refl).
Defined.


Lemma incrementUsage_counter_ne clk s s' st :
  s ≠ s' →
  counter (incrementUsage clk s st).2 s' = counter (initialize clk st) s'.
Proof.
  intros Hne. unfold incrementUsage.
  destruct (quotas (initialize clk st)) as [q|] eqn:Hq; [|done].
  unfold getService.
  destruct (services q !! s) as [sq|] eqn:Hs.
  - destruct (limit sq <=? used sq); cbn [snd]; [done|].
    unfold counter. rewrite saveQuotas_quotas, Hq. cbn.
    by rewrite lookup_insert_ne.
  - case_bool_decide; cbn [snd]; unfold counter;
      rewrite ?saveQuotas_quotas; done.
Qed.

Lemma incrementUsage_initialized clk s st :
  initialized (incrementUsage clk s st).2 = true.
Proof.
  unfold incrementUsage.
  pose proof (initialize_is_initialized clk st) as Hi.
  destruct (quotas (initialize clk st)) as [q|]; [|done].
  destruct (getService q s) as [sq| |]; cbn [snd];
    [destruct (limit sq <=? used sq); cbn [snd]| |];
    rewrite ?saveQuotas_initialized; done.
Qed.

Lemma checkQuota_state clk s st :
  (checkQuota clk s st).2 = initialize clk st.
Proof.
  unfold checkQuota.
  destruct (quotas (initialize clk st)) as [q|]; [|done].
  by destruct (getService q s).
Qed.

Lemma getAllQuotas_state clk st :
  (getAllQuotas clk st).2 = initialize clk st.
Proof.
  unfold getAllQuotas. by destruct (quotas (initialize clk st)).
Qed.

Lemma checkQuota_true clk s st :
  (checkQuota clk s st).1 = Return true →
  ∃ q sq, quotas (initialize clk st) = Some q ∧
          services q !! s = Some sq ∧
          used sq < limit sq.
Proof.
  unfold checkQuota.
  destruct (quotas (initialize clk st)) as [q|] eqn:Hq; [|discriminate].
  unfold getService.
  destruct (services q !! s) as [sq|] eqn:Hs; cbn [fst].
  - intros [= H%Z.ltb_lt]. exists q, sq. split; [reflexivity|]. split; [exact Hs|lia].
  - case_bool_decide; discriminate.
Qed.

(** X2.  [incrementUsage(s)] touches the counter of [s] alone: the
    counter and limit of every other service, the limit of [s], the date
    of the record and its reset time are what they were once the limiter
    had initialised itself. *)
Theorem incrementUsage_leaves_other_services
    (clk : Clock) (s s' : string) (st : State) :
  s ≠ s' →
  counter (incrementUsage clk s st).2 s' = counter (initialize clk st) s' ∧
  limit <$> counter (incrementUsage clk s st).2 s
    = limit <$> counter (initialize clk st) s ∧
  date <$> quotas (incrementUsage clk s st).2
    = date <$> quotas (initialize clk st) ∧
  resetTime <$> quotas (incrementUsage clk s st).2
    = resetTime <$> quotas (initialize clk st).
Proof.
  intros Hne. split; [by apply incrementUsage_counter_ne|].
  unfold incrementUsage.
  destruct (quotas (initialize clk st)) as [q|] eqn:Hq.
  2:{ cbn [snd]. by rewrite Hq. }
  unfold getService.
  destruct (services q !! s) as [sq|] eqn:Hs.
  - destruct (limit sq <=? used sq); cbn [snd]; [by rewrite Hq|].
    unfold counter. rewrite saveQuotas_quotas, Hq. cbn.
    rewrite lookup_insert_eq, Hs. done.
  - case_bool_decide; cbn [snd]; unfold counter;
      rewrite ?saveQuotas_quotas, Hq; done.
Qed.

Lemma incrementUsage_leaves_other_services_witness :
  let clk := {| getTodayString := "2024-01-15";
                getNextMidnight := "2024-01-16T00:00:00.000Z" |} in
  let st := constructor {| readable := true; writable := true;
                           item := ItemAbsent |} in
  counter (incrementUsage clk "database" st).2 "openai"
    = counter (initialize clk st) "openai" ∧
  limit <$> counter (incrementUsage clk "database" st).2 "database"
    = limit <$> counter (initialize clk st) "database" ∧
  date <$> quotas (incrementUsage clk "database" st).2
    = date <$> quotas (initialize clk st) ∧
  resetTime <$> quotas (incrementUsage clk "database" st).2
    = resetTime <$> quotas (initialize clk st).
Proof.
  intros clk st.
  apply (incrementUsage_leaves_other_services clk "database" "openai" st).
  discriminate.
Defined.

(** X3.  The quota record survives a reload.  After a granted
    [incrementUsage], with a [localStorage] that can be read and written, a
    new limiter instance created over the same storage on the day of the
    record loads exactly the record the old instance held. *)
Theorem granted_increment_survives_reload
    (clk clk' : Clock) (s : string) (st st' : State) :
  incrementUsage clk s st = (Return true, st') →
  readable (storage st) = true →
  writable (storage st) = true →
  date <$> quotas st' = Some (getTodayString clk') →
  quotas (initialize clk' (constructor (storage st'))) = quotas st'.
Proof.
  intros Hinc Hr Hw Hd.
  destruct (initialize_flags clk st) as [Hr0 Hw0]. rewrite Hr in Hr0. rewrite Hw in Hw0.
  assert (∃ q', quotas st' = Some q' ∧
                storage st' = {| readable := true; writable := true;
                                 item := ItemRecord q' |}) as (q' & Hq' & Hst').
  { unfold incrementUsage in Hinc.
    destruct (quotas (initialize clk st)) as [q|] eqn:Hq; [|discriminate].
    destruct (getService q s) as [sq| |]; [| |discriminate].
    - destruct (limit sq <=? used sq); [discriminate|].
      injection Hinc as <-. unfold saveQuotas. cbn [storage quotas].
      rewrite Hw0, Hr0. eauto.
    - injection Hinc as <-. unfold saveQuotas. rewrite Hw0, Hr0, Hq.
      cbn [storage quotas]. eauto. }
  rewrite Hq' in Hd. injection Hd as Hd.
  rewrite Hq', Hst'. unfold initialize, constructor, loadQuotas, checkAndResetDaily.
  cbn [initialized storage readable item quotas].
  by rewrite bool_decide_eq_true_2.
Qed.

Lemma granted_increment_survives_reload_witness :
  let clk := {| getTodayString := "2024-01-15";
                getNextMidnight := "2024-01-16T00:00:00.000Z" |} in
  let st := constructor {| readable := true; writable := true;
                           item := ItemAbsent |} in
  let st' := (incrementUsage clk "openai" st).2 in
  quotas (initialize clk (constructor (storage st'))) = quotas st' ∧
  counter (initialize clk (constructor (storage st'))) "openai"
    = Some {| used := 1; limit := 50 |}.
Proof.
  intros clk st st'. split; [|vm_compute; reflexivity].
  apply (granted_increment_survives_reload clk clk "openai" st st').
  - vm_compute. reflexivity.
  - reflexivity.
  - reflexivity.
  - vm_compute. reflexivity.
Defined.

Lemma initialize_has_record clk st :
  has_record st → ∃ q, quotas (initialize clk st) = Some q.
Proof.
  intros H. unfold initialize. destruct (initialized st) eqn:Hi; [by apply H|].
  cbn [quotas]. unfold checkAndResetDaily, resetDailyCounters.
  destruct (quotas (loadQuotas clk st)) as [q|] eqn:Hq.
  - case_bool_decide; [eauto|]. rewrite saveQuotas_quotas. eauto.
  - rewrite saveQuotas_quotas. eauto.
Qed.

Lemma incrementUsage_has_record clk s st :
  has_record st →
  (∃ b, (incrementUsage clk s st).1 = Return b) ∧
  has_record (incrementUsage clk s st).2.
Proof.
  intros H. destruct (initialize_has_record clk st H) as [q Hq].
  unfold incrementUsage. rewrite Hq.
  destruct (getService q s) as [sq| |].
  - destruct (limit sq <=? used sq); cbn [fst snd].
    + split; [eauto|]. intros _. eauto.
    + split; [eauto|]. intros _. rewrite saveQuotas_quotas. eauto.
  - cbn [fst snd]. split; [eauto|]. intros _. rewrite saveQuotas_quotas. eauto.
  - cbn [fst snd]. split; [eauto|]. intros _. eauto.
Qed.

(** X4.  When [localStorage] holds nothing, text that is not JSON, the
    text [null], or a quota record as the limiter writes it (of any day),
    and whether or not it can be read or written, no operation of a
    limiter created by the constructor throws: every call of a run of
    [incrementUsage] calls, and [checkQuota], [incrementUsage],
    [getRemainingQuota] and [getAllQuotas] after it, return a value.
    (Stored JSON of another shape is not covered.) *)
Theorem limiter_operations_never_throw
    (ls : LocalStorage) (calls : list (Clock * string)) (clk : Clock)
    (s : string) :
  Forall (λ r, ∃ b, r = Return b) (incrementMany calls (constructor ls)).1 ∧
  (∃ b, (checkQuota clk s (incrementMany calls (constructor ls)).2).1 = Return b) ∧
  (∃ b, (incrementUsage clk s (incrementMany calls (constructor ls)).2).1
        = Return b) ∧
  (∃ n, (getRemainingQuota clk s (incrementMany calls (constructor ls)).2).1
        = Return n) ∧
  (∃ info, (getAllQuotas clk (incrementMany calls (constructor ls)).2).1
           = Return info).
Proof.
  assert (∀ calls st, has_record st →
            Forall (λ r, ∃ b, r = Return b) (incrementMany calls st).1 ∧
            has_record (incrementMany calls st).2) as Hrun.
  { clear. induction calls as [|[clk s] rest IH]; intros st H; [by split|].
    cbn [incrementMany].
    destruct (incrementUsage_has_record clk s st H) as [[b Hb] H1].
    destruct (incrementUsage clk s st) as [r st1]. cbn [fst snd] in Hb, H1.
    destruct (IH st1 H1) as [Hrs H2].
    destruct (incrementMany rest st1) as [rs st2]. cbn [fst snd] in *.
    split; [|done]. constructor; [eauto | done]. }
  destruct (Hrun calls (constructor ls)) as [Hrs Hst]; [intros [=]|].
  split; [exact Hrs|].
  set (st := (incrementMany calls (constructor ls)).2) in *.
  destruct (initialize_has_record clk st Hst) as [q Hq].
  split; [|split; [|split]].
  - unfold checkQuota. rewrite Hq. destruct (getService q s); eauto.
  - apply incrementUsage_has_record, Hst.
  - unfold getRemainingQuota. rewrite Hq. destruct (getService q s); eauto.
  - unfold getAllQuotas. rewrite Hq. eauto.
Qed.

(** X5.  The first operation of a limiter instance leaves it
    initialised with a record dated today: either the stored record, when
    the storage can be read and holds a record of today, or else the
    default record with every counter at 0. *)
Theorem first_initialize_gives_record_of_today (clk : Clock) (st : State) :
  initialized st = false →
  ∃ q, quotas (initialize clk st) = Some q ∧
       date q = getTodayString clk ∧
       initialized (initialize clk st) = true ∧
       ((readable (storage st) = true ∧ item (storage st) = ItemRecord q)
        ∨ q = createDefaultQuotas clk).
Proof.
  intros Hi. unfold initialize. rewrite Hi. cbn [quotas initialized].
  unfold checkAndResetDaily, resetDailyCounters, loadQuotas.
  cbn [quotas initialized storage].
  destruct (readable (storage st)) eqn:Hr.
  - destruct (item (storage st)) as [| | |q0] eqn:Hit.
    + rewrite bool_decide_eq_true_2 by done. eexists. split; [done|]. eauto.
    + rewrite bool_decide_eq_true_2 by done. eexists. split; [done|]. eauto.
    + rewrite saveQuotas_quotas. eexists. split; [done|]. eauto.
    + case_bool_decide as Hd.
      * exists q0. split_and!; try done. by left.
      * rewrite saveQuotas_quotas. eexists. split; [done|]. eauto.
  - rewrite bool_decide_eq_true_2 by done. eexists. split; [done|]. eauto.
Qed.

Lemma first_initialize_gives_record_of_today_witness :
  let clk := {| getTodayString := "2024-01-15";
                getNextMidnight := "2024-01-16T00:00:00.000Z" |} in
  let st := constructor {| readable := true; writable := false;
                           item := ItemNull |} in
  ∃ q, quotas (initialize clk st) = Some q ∧
       date q = getTodayString clk ∧
       initialized (initialize clk st) = true ∧
       ((readable (storage st) = true ∧ item (storage st) = ItemRecord q)
        ∨ q = createDefaultQuotas clk).
Proof.
  intros clk st.
  apply (first_initialize_gives_record_of_today clk st). reflexivity.
Defined.

(** X6.  The views of one counter agree.  For an entry of
    [getAllQuotas()], [used + remaining = limit]; [getRemainingQuota] of
    that service is [max(0, remaining)]; and [checkQuota] and
    [incrementUsage] both answer [true] exactly when [remaining] is
    positive. *)
Theorem quota_views_agree
    (clk : Clock) (st : State) (info : AllQuotas) (s : string)
    (qs : QuotaStatus) :
  (getAllQuotas clk st).1 = Return info →
  aq_services info !! s = Some qs →
  qs_used qs + qs_remaining qs = qs_limit qs ∧
  (getRemainingQuota clk s st).1 = Return (Num (Z.max 0 (qs_remaining qs))) ∧
  (checkQuota clk s st).1 = Return (0 <? qs_remaining qs) ∧
  (incrementUsage clk s st).1 = Return (0 <? qs_remaining qs).
Proof.
  intros Hall Hs. unfold getAllQuotas in Hall.
  destruct (quotas (initialize clk st)) as [q|] eqn:Hq; [|discriminate].
  cbn in Hall. injection Hall as <-. cbn [aq_services] in Hs.
  rewrite lookup_fmap in Hs.
  destruct (services q !! s) as [sq|] eqn:Hsq; [|discriminate].
  cbn in Hs. injection Hs as <-. cbn [qs_used qs_remaining qs_limit].
  unfold getRemainingQuota, checkQuota, incrementUsage.
  rewrite Hq, (known_service_own _ _ _ Hsq). cbn [fst].
  split; [lia|]. split; [done|]. split.
  - f_equal. destruct (Z.ltb_spec (used sq) (limit sq)), (Z.ltb_spec 0 (limit sq - used sq)); lia || done.
  - destruct (Z.leb_spec (limit sq) (used sq)), (Z.ltb_spec 0 (limit sq - used sq)); cbn; lia || done.
Qed.

Lemma quota_views_agree_witness :
  let clk := {| getTodayString := "2024-01-15";
                getNextMidnight := "2024-01-16T00:00:00.000Z" |} in
  let st := (incrementMany (replicate 3 (clk, "googlePlaces"))
               (constructor {| readable := true; writable := true;
                               item := ItemAbsent |})).2 in
  let qs := {| qs_used := 3; qs_limit := 250; qs_remaining := 247 |} in
  qs_used qs + qs_remaining qs = qs_limit qs ∧
  (getRemainingQuota clk "googlePlaces" st).1 = Return (Num 247) ∧
  (checkQuota clk "googlePlaces" st).1 = Return true ∧
  (incrementUsage clk "googlePlaces" st).1 = Return true.
Proof.
  intros clk st qs.
  apply (quota_views_agree clk st
           (match (getAllQuotas clk st).1 with
            | Return info => info
            | Throw _ => {| aq_services := ∅; aq_resetTime := ""; aq_date := "" |}
            end) "googlePlaces" qs).
  - vm_compute. reflexivity.
  - vm_compute. reflexivity.
Defined.

End RateLimiterLaws.

(** ** JavaScript helpers *)

Module JSLaws.

Lemma toLowerCase_char_idempotent c :
  JS.toLowerCase_char (JS.toLowerCase_char c) = JS.toLowerCase_char c.
Proof. destruct c as [[] [] [] [] [] [] [] []]; reflexivity. Qed.

Lemma toLowerCase_idempotent s :
  JS.toLowerCase (JS.toLowerCase s) = JS.toLowerCase s.
Proof.
  induction s as [|c s IH]; [done|]. cbn [JS.toLowerCase].
  by rewrite toLowerCase_char_idempotent, IH.
Qed.

Lemma includes_empty s : JS.includes "" s = true.
Proof. by destruct s. Qed.

Lemma Map_get_set_eq {V} (m : list (string * V)) k v :
  JS.Map_get (JS.Map_set m k v) k = Some v.
Proof.
  induction m as [|[k' w] m IH]; cbn.
  - by rewrite String.eqb_refl.
  - destruct (String.eqb k' k) eqn:E; cbn; rewrite E; [done | exact IH].
Qed.

Lemma Map_get_set_ne {V} (m : list (string * V)) k k' v :
  k ≠ k' → JS.Map_get (JS.Map_set m k v) k' = JS.Map_get m k'.
Proof.
  intros Hne. induction m as [|[k0 w] m IH]; cbn.
  - destruct (String.eqb k k') eqn:E; [|done].
    apply String.eqb_eq in E. done.
  - destruct (String.eqb k0 k) eqn:E; cbn.
    + apply String.eqb_eq in E. subst k0.
      destruct (String.eqb k k') eqn:E'; [|done].
      apply String.eqb_eq in E'. done.
    + destruct (String.eqb k0 k'); [done | exact IH].
Qed.

Lemma Map_set_length {V} (m : list (string * V)) k v :
  (length m ≤ length (JS.Map_set m k v) ≤ S (length m))%nat.
Proof.
  induction m as [|[k' w] m IH]; cbn; [lia|].
  destruct (String.eqb k' k); cbn; lia.
Qed.

Lemma StronglySorted_sublist {A} (R : A → A → Prop) l1 l2 :
  sublist l1 l2 → StronglySorted R l2 → StronglySorted R l1.
Proof.
  induction 1 as [|x l1 l2 Hsub IH|x l1 l2 Hsub IH]; intros Hs.
  - constructor.
  - apply StronglySorted_inv in Hs as [Hs Hall]. constructor; [by apply IH|].
    rewrite Forall_forall in Hall |- *. intros y Hy. apply Hall.
    by eapply elem_of_sublist.
  - apply StronglySorted_inv in Hs as [Hs _]. by apply IH.
Qed.

End JSLaws.

(** ** MoodAdviceService *)

Module MoodAdviceServiceLaws.
Import MoodAdviceService MoodAdviceServiceSpec MoodAdviceServiceOrder.
Import MoodAdviceServiceFacts.
Import JSFacts JSLaws.

Open Scope Q_scope.

Lemma removeDuplicateAdvice_from_sublist seen advice :
  sublist (removeDuplicateAdvice_from seen advice) advice.
Proof.
  revert seen. induction advice as [|a rest IH]; intros seen; cbn; [constructor|].
  case_bool_decide; by constructor.
Qed.

Lemma removeDuplicateAdvice_from_covers seen advice x :
  x ∈ advice → dedup_key x ∉ seen →
  ∃ y, y ∈ removeDuplicateAdvice_from seen advice ∧ dedup_key y = dedup_key x.
Proof.
  revert seen. induction advice as [|a rest IH]; intros seen Hx Hfresh.
  - by apply elem_of_nil in Hx.
  - cbn. fold (dedup_key a). apply elem_of_cons in Hx as [->|Hx].
    + rewrite bool_decide_eq_false_2 by done. exists a. split; [by left | done].
    + case_bool_decide as Ha; [by apply IH|].
      destruct (decide (dedup_key x = dedup_key a)) as [Heq|Hne].
      * exists a. split; [by left | done].
      * destruct (IH ({[dedup_key a]} ∪ seen) Hx) as (y & Hy & Hk).
        { intros [H%elem_of_singleton|H]%elem_of_union; done. }
        exists y. split; [by right | done].
Qed.

Lemma removeDuplicateAdvice_from_fixed seen l :
  NoDup (dedup_key <$> l) → (∀ x, x ∈ l → dedup_key x ∉ seen) →
  removeDuplicateAdvice_from seen l = l.
Proof.
  revert seen. induction l as [|a rest IH]; intros seen Hnd Hfresh; [done|].
  cbn. fold (dedup_key a).
  rewrite bool_decide_eq_false_2 by (apply Hfresh; by left).
  f_equal. rewrite fmap_cons in Hnd. apply NoDup_cons in Hnd as [Ha Hnd].
  apply IH; [done|]. intros x Hx [H%elem_of_singleton|H]%elem_of_union.
  - apply Ha. rewrite <- H. apply list_elem_of_fmap. eauto.
  - by apply (Hfresh x); [right|].
Qed.

(** X7.  [removeDuplicateAdvice] only deletes: its result is the input
    with some items left out, in the input's order; every
    [category-title] key of the input is still represented; and applying
    it a second time changes nothing. *)
Theorem removeDuplicateAdvice_keeps_one_per_key (advice : list AdviceItem) :
  sublist (removeDuplicateAdvice advice) advice ∧
  (∀ x, x ∈ advice →
        ∃ y, y ∈ removeDuplicateAdvice advice ∧ dedup_key y = dedup_key x) ∧
  removeDuplicateAdvice (removeDuplicateAdvice advice)
    = removeDuplicateAdvice advice.
Proof.
  unfold removeDuplicateAdvice. split; [apply removeDuplicateAdvice_from_sublist|].
  split.
  - intros x Hx. apply removeDuplicateAdvice_from_covers; [done|].
    apply not_elem_of_empty.
  - apply removeDuplicateAdvice_from_fixed.
    + apply removeDuplicateAdvice_from_keys.
    + intros x _. apply not_elem_of_empty.
Qed.

Lemma score_with item s m h :
  calculateRelevanceScore (with_relevanceScore item s) m h
  = calculateRelevanceScore item m h.
Proof. reflexivity. Qed.

Lemma score_without item m h :
  calculateRelevanceScore (without_relevanceScore item) m h
  = calculateRelevanceScore item m h.
Proof. reflexivity. Qed.

Lemma Sorted_change {A} (R1 R2 : A → A → Prop) (P : A → Prop) l :
  (∀ a b, P a → P b → R1 a b → R2 a b) →
  Forall P l → Sorted R1 l → Sorted R2 l.
Proof.
  intros Himp HP Hs. induction Hs as [|a l Hs IH Hhd]; [constructor|].
  apply Forall_cons in HP as [Pa HP]. constructor; [by apply IH|].
  destruct Hhd as [|b l Hab]; constructor.
  apply Forall_cons in HP as [Pb _]. by apply Himp.
Qed.

Lemma StronglySorted_map_iff {A} (R : A → A → Prop) (f : A → A) l :
  (∀ a b, R a b → R (f a) (f b)) →
  StronglySorted R l → StronglySorted R (map f l).
Proof.
  intros Hf. induction 1 as [|a l Hs IH Hall]; cbn; constructor; [done|].
  rewrite Forall_forall in Hall. rewrite Forall_forall.
  intros y (x & -> & Hx)%list_elem_of_fmap. apply Hf, Hall, Hx.
Qed.

(** The list [personalizeAdvice] ranks before it filters and cuts. *)
Lemma ranked_sorted advice m h :
  let ranked :=
    JS.sort byRelevance_le0
      (map (λ item, with_relevanceScore item
                      (calculateRelevanceScore item m h)) advice) in
  StronglySorted (not_less_relevant m h) ranked ∧
  Permutation ranked
    (map (λ item, with_relevanceScore item
                    (calculateRelevanceScore item m h)) advice).
Proof.
  intros ranked. split; [|apply sort_Permutation].
  apply Sorted_StronglySorted.
  { intros x y z Hxy Hyz. unfold not_less_relevant in *. lra. }
  apply (Sorted_change (λ a b, byRelevance_le0 a b = true) _
           (λ x, relevanceScore x = Some (calculateRelevanceScore x m h))).
  - intros a b Pa Pb. unfold byRelevance_le0, not_less_relevant.
    rewrite Pa, Pb. intros H%Qle_bool_iff. lra.
  - unfold ranked. rewrite sort_Permutation.
    apply Forall_map, Forall_forall. intros x _. reflexivity.
  - apply sort_Sorted, byRelevance_total.
Qed.

Lemma personalizeAdvice_from_ranked advice m h :
  ∃ kept,
    personalizeAdvice advice m h = map without_relevanceScore kept ∧
    sublist kept
      (JS.sort byRelevance_le0
         (map (λ item, with_relevanceScore item
                         (calculateRelevanceScore item m h)) advice)) ∧
    (JS.lt 0.8 (confidence m) = true →
     Forall (λ item, String.eqb (difficulty item) "easy"
                     || String.eqb (category item) "immediate_relief" = true)
            kept).
Proof.
  unfold personalizeAdvice. eexists. split; [reflexivity|].
  destruct (JS.lt 0.8 (confidence m)).
  - split.
    + etrans; [apply sublist_take | apply filter_sublist].
    + intros _. apply Forall_take. apply Forall_forall. intros x Hx.
      apply list_elem_of_In, filter_In in Hx. apply Hx.
  - split; [apply sublist_take | discriminate].
Qed.

(** X8.  The list returned by [personalizeAdvice] is in descending order
    of relevance: no item has a smaller [calculateRelevanceScore] than any
    item after it. *)
Theorem personalizeAdvice_most_relevant_first
    (advice : list AdviceItem) (m : MoodResult) (h : list Session) :
  StronglySorted (not_less_relevant m h) (personalizeAdvice advice m h).
Proof.
  destruct (personalizeAdvice_from_ranked advice m h) as (kept & -> & Hsub & _).
  apply StronglySorted_map_iff; [done|].
  eapply StronglySorted_sublist; [exact Hsub|]. apply ranked_sorted.
Qed.

(** X9.  For a mood result with confidence above 0.8 every item
    [personalizeAdvice] returns is of difficulty [easy] or of category
    [immediate_relief]. *)
Theorem personalizeAdvice_confident_mood_gets_easy_items
    (advice : list AdviceItem) (m : MoodResult) (h : list Session) :
  0.8 < confidence m →
  Forall (λ item, difficulty item = "easy" ∨ category item = "immediate_relief")
         (personalizeAdvice advice m h).
Proof.
  intros Hc.
  destruct (personalizeAdvice_from_ranked advice m h) as (kept & -> & _ & Hf).
  assert (JS.lt 0.8 (confidence m) = true) as Hlt.
  { unfold JS.lt. apply negb_true_iff. apply not_true_is_false.
    intros H%Qle_bool_iff. lra. }
  specialize (Hf Hlt). apply Forall_map. eapply Forall_impl; [exact Hf|].
  intros x [H|H]%orb_prop; apply String.eqb_eq in H; cbn; auto.
Qed.

Lemma personalizeAdvice_confident_mood_gets_easy_items_witness :
  let m := {| primaryMood := "stress"; confidence := 0.9; emotions := [] |} in
  0.8 < confidence m ∧
  Forall (λ item, difficulty item = "easy" ∨ category item = "immediate_relief")
         (personalizeAdvice advice_stress m []).
Proof.
  intros m.
  assert (0.8 < confidence m) as Hc by (cbn; lra).
  split; [exact Hc|].
  apply (personalizeAdvice_confident_mood_gets_easy_items advice_stress m [] Hc).
Defined.

(** X10.  With confidence at most 0.8 and at most six advice items
    [personalizeAdvice] loses nothing: its result is a rearrangement of
    its input (each item without a [relevanceScore]). *)
Theorem personalizeAdvice_small_list_is_only_reordered
    (advice : list AdviceItem) (m : MoodResult) (h : list Session) :
  confidence m <= 0.8 →
  (length advice ≤ 6)%nat →
  Permutation (personalizeAdvice advice m h)
              (map without_relevanceScore advice).
Proof.
  intros Hc Hlen. unfold personalizeAdvice.
  assert (JS.lt 0.8 (confidence m) = false) as ->.
  { unfold JS.lt. apply negb_false_iff, Qle_bool_iff, Hc. }
  rewrite firstn_all2.
  - rewrite sort_Permutation, map_map. done.
  - rewrite (Permutation_length (sort_Permutation _ _)), length_map. lia.
Qed.

Lemma personalizeAdvice_small_list_is_only_reordered_witness :
  let m := {| primaryMood := "anxiety"; confidence := 0.6; emotions := [] |} in
  Permutation (personalizeAdvice advice_anxiety m [])
              (map without_relevanceScore advice_anxiety).
Proof.
  intros m.
  apply (personalizeAdvice_small_list_is_only_reordered advice_anxiety m []).
  - cbn. lra.
  - cbn. lia.
Defined.


Lemma personalizeAdvice_elements advice m h x :
  x ∈ personalizeAdvice advice m h →
  ∃ y, y ∈ advice ∧ x = without_relevanceScore y.
Proof.
  destruct (personalizeAdvice_from_ranked advice m h) as (kept & -> & Hsub & _).
  intros (z & -> & Hz)%list_elem_of_fmap.
  eapply elem_of_sublist in Hz; [|exact Hsub].
  rewrite sort_Permutation in Hz.
  apply list_elem_of_fmap in Hz as (y & -> & Hy). exists y. done.
Qed.

Lemma catalogue_categories key l :
  JS.Map_get initializeAdviceDatabase key = Some l →
  Forall (λ item, category item = key) l.
Proof.
  unfold initializeAdviceDatabase. cbn [JS.Map_get].
  repeat (destruct (String.eqb _ key) eqn:E;
          [apply String.eqb_eq in E; subst key; intros [= <-];
           repeat constructor|clear E]).
  discriminate.
Qed.

Lemma getAdviceByCategory_category c :
  Forall (λ item, category item = JS.toLowerCase c)
         (getAdviceByCategory constructor c).
Proof.
  unfold getAdviceByCategory. cbn [adviceDatabase constructor].
  destruct (JS.Map_get initializeAdviceDatabase (JS.toLowerCase c)) as [l|] eqn:E;
    [by apply catalogue_categories | constructor].
Qed.

(** X11.  Every advice item [getAdviceForMood] returns from the built-in
    catalogue belongs to the mood it was asked about: its category is the
    lower-cased primary mood, or the lower-cased name of a secondary
    emotion whose intensity is above 0.3 and whose name is not the primary
    mood. *)
Theorem getAdviceForMood_advice_matches_the_mood
    (env : Ambient) (m : MoodResult) (h : list Session)
    (ls ls' : CacheStorage) (r : Recommendation) :
  getAdviceForMood constructor env m h ls = (Return r, ls') →
  Forall (λ item,
            category item = JS.toLowerCase (primaryMood m)
            ∨ ∃ e, e ∈ emotions m ∧ 0.3 < intensity e
                   ∧ name e ≠ primaryMood m
                   ∧ category item = JS.toLowerCase (name e))
         (rec_advice r).
Proof.
  unfold getAdviceForMood.
  destruct (generatePersonalizedMessage m h (Math_random env)); [|discriminate].
  intros [= <- _]. cbn [rec_advice].
  set (P := λ item : AdviceItem,
              category item = JS.toLowerCase (primaryMood m)
              ∨ ∃ e, e ∈ emotions m ∧ 0.3 < intensity e
                     ∧ name e ≠ primaryMood m
                     ∧ category item = JS.toLowerCase (name e)).
  assert (∀ es acc,
            (∀ e, e ∈ es → e ∈ emotions m) → Forall P acc →
            Forall P
              (fold_left
                 (λ relevantAdvice emotion,
                    if JS.lt 0.3 (intensity emotion)
                       && negb (String.eqb (name emotion) (primaryMood m))
                    then (relevantAdvice
                            ++ getAdviceByCategory constructor
                                 (JS.toLowerCase (name emotion)))%list
                    else relevantAdvice) es acc)) as Hfold.
  { induction es as [|e es IH]; intros acc Hes Hacc; [done|].
    cbn [fold_left]. apply IH; [intros; apply Hes; by right|].
    destruct (JS.lt 0.3 (intensity e)) eqn:Hi; [|done].
    destruct (String.eqb (name e) (primaryMood m)) eqn:Hn; [done|].
    cbn [andb negb]. apply Forall_app. split; [done|].
    eapply Forall_impl; [apply getAdviceByCategory_category|].
    intros item Hc. right. exists e. split; [apply Hes; by left|].
    split.
    { unfold JS.lt in Hi. apply negb_true_iff in Hi.
      destruct (Qlt_le_dec 0.3 (intensity e)) as [?|Hle]; [done|].
      apply Qle_bool_iff in Hle. congruence. }
    split; [by apply String.eqb_neq|].
    by rewrite Hc, toLowerCase_idempotent. }
  apply Forall_forall. intros x Hx.
  apply personalizeAdvice_elements in Hx as (y & Hy & ->).
  eapply elem_of_sublist in Hy; [|apply removeDuplicateAdvice_from_sublist].
  revert y Hy. apply Forall_forall. apply Hfold; [done|].
  eapply Forall_impl; [apply getAdviceByCategory_category|].
  intros item Hc. left. by rewrite Hc, toLowerCase_idempotent.
Qed.

Lemma getAdviceForMood_advice_matches_the_mood_witness :
  let m := {| primaryMood := "Stress"; confidence := 0.6;
              emotions := [ {| name := "Anger"; intensity := 0.5 |};
                            {| name := "fear"; intensity := 0.2 |} ] |} in
  ∃ r ls',
    getAdviceForMood constructor advice_env m [] example_storage
      = (Return r, ls') ∧
    Forall (λ item,
              category item = JS.toLowerCase (primaryMood m)
              ∨ ∃ e, e ∈ emotions m ∧ 0.3 < intensity e
                     ∧ name e ≠ primaryMood m
                     ∧ category item = JS.toLowerCase (name e))
           (rec_advice r) ∧
    map category (rec_advice r)
      = ["stress"; "stress"; "stress"; "stress"; "anger"].
Proof.
  intros m.
  destruct (getAdviceForMood constructor advice_env m [] example_storage)
    as [[r|e] ls'] eqn:Hrun.
  - exists r, ls'. split; [reflexivity|]. split.
    + exact (getAdviceForMood_advice_matches_the_mood advice_env m []
               example_storage ls' r Hrun).
    + apply (f_equal fst) in Hrun. vm_compute in Hrun.
      injection Hrun as <-. vm_compute. reflexivity.
  - apply (f_equal fst) in Hrun. vm_compute in Hrun. discriminate Hrun.
Defined.


Close Scope Q_scope.

Lemma StronglySorted_app_elems {A} (R : A → A → Prop) l1 l2 x y :
  StronglySorted R (l1 ++ l2) → x ∈ l1 → y ∈ l2 → R x y.
Proof.
  induction l1 as [|a l1 IH]; intros Hs Hx Hy; [by apply elem_of_nil in Hx|].
  cbn in Hs. apply StronglySorted_inv in Hs as [Hs Hall].
  apply elem_of_cons in Hx as [->|Hx]; [|by apply IH].
  rewrite Forall_forall in Hall. apply Hall, elem_of_app. by right.
Qed.

Lemma byCachedAt_total a b :
  byCachedAt_le0 a b = false → byCachedAt_le0 b a = true.
Proof. unfold byCachedAt_le0. intros H%Z.leb_gt. apply Z.leb_le. lia. Qed.

(** X12.  [cacheAdvice] never stores more than 50 entries.  When the
    cache can be written, what it stores are entries of the cache with the
    new recommendation set, at most 50 of them, and no entry left out was
    cached later than an entry kept. *)
Theorem cacheAdvice_keeps_the_newest_fifty
    (r : Recommendation) (now : Z) (ls : CacheStorage)
    (entries : list (string * CachedRecommendation)) :
  cache_writable ls = true →
  getCachedAdvice ls = Some entries →
  ∃ stored,
    cache_item (cacheAdvice r now ls) = CacheObject stored ∧
    (length stored ≤ 50)%nat ∧
    (∀ e, e ∈ stored →
          e ∈ JS.Map_set entries (rec_cacheId r) {| cached := r; cachedAt := now |}) ∧
    (∀ kept dropped,
       kept ∈ stored →
       dropped ∈ JS.Map_set entries (rec_cacheId r)
                   {| cached := r; cachedAt := now |} →
       dropped ∉ stored →
       cachedAt dropped.2 ≤ cachedAt kept.2).
Proof.
  intros Hw Hc. unfold cacheAdvice. rewrite Hc, Hw. cbn [cache_item].
  set (all := JS.Map_set entries (rec_cacheId r) {| cached := r; cachedAt := now |}).
  eexists. split; [reflexivity|].
  destruct (50 <? length all)%nat eqn:Hlen.
  - set (sorted := JS.sort byCachedAt_le0 all).
    assert (StronglySorted (λ a b, byCachedAt_le0 a b = true) sorted) as Hs.
    { apply Sorted_StronglySorted; [|apply sort_Sorted, byCachedAt_total].
      intros x y z. unfold byCachedAt_le0. rewrite !Z.leb_le. lia. }
    split; [rewrite length_take; lia|]. split.
    + intros e He. eapply elem_of_sublist in He; [|apply sublist_take].
      unfold sorted in He. by rewrite sort_Permutation in He.
    + intros kept dropped Hk Hd Hnot.
      assert (dropped ∈ drop 50 sorted) as Hdrop.
      { assert (dropped ∈ sorted) as Hin
          by (unfold sorted; by rewrite sort_Permutation).
        rewrite <- (take_drop 50 sorted) in Hin.
        apply elem_of_app in Hin as [?|?]; done. }
      rewrite <- (take_drop 50 sorted) in Hs.
      pose proof (StronglySorted_app_elems _ _ _ _ _ Hs Hk Hdrop) as H.
      unfold byCachedAt_le0 in H. apply Z.leb_le in H. lia.
  - apply Nat.ltb_ge in Hlen. split; [done|]. split; [done|].
    intros kept dropped _ Hd Hnot. done.
Qed.

Lemma cacheAdvice_keeps_the_newest_fifty_witness :
  let r := {| rec_mood := "calm"; rec_intensity := 0.5%Q; rec_emotions := [];
              rec_advice := []; rec_personalizedMessage := None;
              rec_timestamp := "2024-01-15T10:00:00.000Z";
              rec_cacheId := "calm-" |} in
  let entries :=
    imap (λ i _, ("calm-sad:0" +:+ pretty (Z.of_nat i),
                  {| cached := r; cachedAt := Z.of_nat i |}))
         (replicate 50 tt) in
  let ls := {| cache_readable := true; cache_writable := true;
               cache_item := CacheObject entries |} in
  ∃ stored,
    cache_item (cacheAdvice r 1000 ls) = CacheObject stored ∧
    (length stored ≤ 50)%nat ∧
    (∀ e, e ∈ stored →
          e ∈ JS.Map_set entries (rec_cacheId r) {| cached := r; cachedAt := 1000 |}) ∧
    (∀ kept dropped,
       kept ∈ stored →
       dropped ∈ JS.Map_set entries (rec_cacheId r)
                   {| cached := r; cachedAt := 1000 |} →
       dropped ∉ stored →
       cachedAt dropped.2 ≤ cachedAt kept.2).
Proof.
  intros r entries ls.
  apply (cacheAdvice_keeps_the_newest_fifty r 1000 ls entries); reflexivity.
Defined.

(** X13.  A recommendation can be read back for 24 hours.  After
    [getAdviceForMood] on a cache that can be read and written and holds
    fewer than 50 entries, [getCachedAdviceById] with the recommendation's
    [cacheId] returns that recommendation, stamped with the time of the
    call, as long as less than [cacheExpiry] milliseconds have passed, and
    [null] from then on. *)
Theorem getAdviceForMood_result_can_be_read_back
    (this : Service) (env : Ambient) (m : MoodResult) (h : list Session)
    (ls ls' : CacheStorage) (r : Recommendation)
    (entries : list (string * CachedRecommendation)) (now : Z) :
  getAdviceForMood this env m h ls = (Return r, ls') →
  cache_readable ls = true →
  cache_writable ls = true →
  getCachedAdvice ls = Some entries →
  (length entries < 50)%nat →
  getCachedAdviceById this (rec_cacheId r) now ls'
  = Return (if now - Date_now env <? cacheExpiry this
            then Some {| cached := r; cachedAt := Date_now env |}
            else None).
Proof.
  intros Hrun Hr Hw Hc Hlen. unfold getAdviceForMood in Hrun.
  destruct (generatePersonalizedMessage m h (Math_random env)); [|discriminate].
  injection Hrun as <- <-.
  set (r := {| rec_mood := primaryMood m; rec_intensity := _; rec_emotions := _;
               rec_advice := _; rec_personalizedMessage := _;
               rec_timestamp := _; rec_cacheId := _ |}).
  unfold getCachedAdviceById, cacheAdvice. rewrite Hc, Hw.
  pose proof (Map_set_length entries (rec_cacheId r)
                {| cached := r; cachedAt := Date_now env |}) as Hl.
  assert ((50 <? length (JS.Map_set entries (rec_cacheId r)
                           {| cached := r; cachedAt := Date_now env |}))%nat
          = false) as -> by (apply Nat.ltb_ge; lia).
  unfold getCachedAdvice. cbn [cache_readable cache_item]. rewrite Hr.
  rewrite Map_get_set_eq. cbn [cachedAt].
  by destruct (now - Date_now env <? cacheExpiry this).
Qed.

Lemma getAdviceForMood_result_can_be_read_back_witness :
  let m := {| primaryMood := "anxiety"; confidence := 0.6%Q; emotions := [] |} in
  let run := getAdviceForMood constructor advice_env m [] example_storage in
  ∃ r, run.1 = Return r ∧
       getCachedAdviceById constructor (rec_cacheId r)
         (Date_now advice_env + 60000) run.2
       = Return (Some {| cached := r; cachedAt := Date_now advice_env |}) ∧
       getCachedAdviceById constructor (rec_cacheId r)
         (Date_now advice_env + 86400000) run.2
       = Return None.
Proof.
  intros m run.
  destruct run as [[r|e] ls'] eqn:Hrun; cbn [fst snd].
  - exists r. split; [reflexivity|]. split.
    + apply (getAdviceForMood_result_can_be_read_back constructor advice_env m []
               example_storage ls' r [] (Date_now advice_env + 60000) Hrun);
        [reflexivity | reflexivity | reflexivity | cbn; lia].
    + apply (getAdviceForMood_result_can_be_read_back constructor advice_env m []
               example_storage ls' r [] (Date_now advice_env + 86400000) Hrun);
        [reflexivity | reflexivity | reflexivity | cbn; lia].
  - apply (f_equal fst) in Hrun. vm_compute in Hrun. discriminate Hrun.
Defined.

Open Scope Q_scope.

(** X14.  For a mood name that [Object.prototype] does not provide
    and a draw of [Math.random()] in [0, 1), the personalised message is
    built from the three templates of the mood (the generic ones for a
    mood without templates).  With at most two earlier sessions it is the
    template at position [floor (random * 3)]; with more it is
    [Welcome back! ...] followed by the lower-cased first template,
    whatever the draw.  It is never [undefined]. *)
Theorem generatePersonalizedMessage_uses_a_template
    (m : MoodResult) (h : list Session) (random : Q) :
  JS.toLowerCase (primaryMood m) ∉ JS.Object_prototype_keys →
  0 <= random < 1 →
  let templates :=
    default generic_messages
      (JS.Map_get messages (JS.toLowerCase (primaryMood m))) in
  ∃ first template,
    length templates = 3%nat ∧
    templates !! 0%nat = Some first ∧
    templates !! Z.to_nat (Qfloor (random * 3)) = Some template ∧
    generatePersonalizedMessage m h random
    = Return (Some (if (2 <? length h)%nat
                    then "Welcome back! Based on your recent sessions, "
                         +:+ JS.toLowerCase first
                    else template)).
Proof.
  intros Hp Hr templates. unfold generatePersonalizedMessage.
  assert (∃ l, (match JS.Map_get messages (JS.toLowerCase (primaryMood m)) with
                | Some l => Some l
                | None =>
                    if bool_decide (JS.toLowerCase (primaryMood m)
                                    ∈ JS.Object_prototype_keys)
                    then None else Some generic_messages
                end) = Some l
               ∧ l = templates
               ∧ length l = 3%nat) as (l & -> & Hl & Hlen).
  { subst templates.
    destruct (JS.Map_get messages (JS.toLowerCase (primaryMood m))) as [l|] eqn:E.
    - exists l. split; [done|]. split; [done|].
      revert E. unfold messages. cbn [JS.Map_get].
      repeat (destruct (String.eqb _ _); [by intros [= <-]|]). discriminate.
    - rewrite bool_decide_eq_false_2 by done. by exists generic_messages. }
  rewrite <- Hl. clear Hl templates.
  destruct l as [|m0 [|m1 [|m2 [|]]]]; try discriminate Hlen.
  pose proof (MoodAnalysisServiceFacts.Qfloor_unit_scaled random 3 eq_refl Hr) as Hi.
  change (inject_Z 3) with 3 in Hi.
  cbn [length]. change (inject_Z (Z.of_nat 3)) with 3.
  set (i := Qfloor (random * 3)) in *.
  assert (i = 0 ∨ i = 1 ∨ i = 2)%Z as [-> | [-> | ->]] by lia.
  - exists m0, m0. by destruct (2 <? length h)%nat.
  - exists m0, m1. by destruct (2 <? length h)%nat.
  - exists m0, m2. by destruct (2 <? length h)%nat.
Qed.

Lemma generatePersonalizedMessage_uses_a_template_witness :
  let m := {| primaryMood := "Sadness"; confidence := 0.6; emotions := [] |} in
  let s := {| session_advice := None |} in
  generatePersonalizedMessage m [s; s] 0.4
  = Return (Some "It's okay to feel sad. These suggestions focus on small, manageable steps toward feeling better.")
  ∧ generatePersonalizedMessage m [s; s; s] 0.4
    = Return (Some "Welcome back! Based on your recent sessions, i notice you're going through a difficult time. these gentle activities can help lift your spirits.").
Proof.
  intros m s.
  assert (JS.toLowerCase (primaryMood m) ∉ JS.Object_prototype_keys) as Hp.
  { vm_compute. intros H.
    repeat (apply elem_of_cons in H as [H|H]; [discriminate H|]).
    by apply elem_of_nil in H. }
  assert (0 <= 0.4 < 1) as Hr by lra.
  split.
  - destruct (generatePersonalizedMessage_uses_a_template m [s; s] 0.4 Hp Hr)
      as (first & template & _ & _ & Ht & ->).
    vm_compute in Ht. by injection Ht as <-.
  - destruct (generatePersonalizedMessage_uses_a_template m [s; s; s] 0.4 Hp Hr)
      as (first & template & _ & Hf & _ & ->).
    vm_compute in Hf. by injection Hf as <-.
Defined.

Close Scope Q_scope.

(** X15.  [searchAdvice] with the empty query returns the whole
    catalogue in catalogue order; the query is compared without regard to
    ASCII case; and every result is an item of the catalogue. *)
Theorem searchAdvice_query_handling (this : Service) (query : string) :
  searchAdvice this "" = flat_map snd (adviceDatabase this) ∧
  searchAdvice this (JS.toLowerCase query) = searchAdvice this query ∧
  ∀ item, item ∈ searchAdvice this query →
          item ∈ flat_map snd (adviceDatabase this).
Proof.
  unfold searchAdvice. split; [|split].
  - cbn [JS.toLowerCase]. induction (adviceDatabase this) as [|e db IH]; [done|].
    cbn [flat_map]. rewrite IH. f_equal.
    induction (snd e) as [|a l IHl]; [done|]. cbn [List.filter].
    rewrite includes_empty. cbn [orb]. by rewrite IHl.
  - by rewrite toLowerCase_idempotent.
  - intros item Hin. induction (adviceDatabase this) as [|e db IH];
      [by apply elem_of_nil in Hin|].
    cbn [flat_map] in *. apply elem_of_app in Hin as [Hin|Hin]; apply elem_of_app.
    + left. eapply elem_of_sublist; [exact Hin | apply filter_sublist].
    + right. by apply IH.
Qed.

(** X16.  [getAdviceByCategory] on the built-in catalogue ignores the
    ASCII case of the category; every item it returns carries the
    lower-cased category and no [relevanceScore]; and the result is empty
    exactly for the categories [getAvailableCategories] does not list. *)
Theorem getAdviceByCategory_lookup (c : string) :
  getAdviceByCategory constructor (JS.toLowerCase c)
    = getAdviceByCategory constructor c ∧
  Forall (λ item, category item = JS.toLowerCase c ∧ relevanceScore item = None)
         (getAdviceByCategory constructor c) ∧
  (getAdviceByCategory constructor c = []
   ↔ JS.toLowerCase c ∉ getAvailableCategories constructor).
Proof.
  unfold getAdviceByCategory. rewrite toLowerCase_idempotent.
  split; [done|]. cbn [adviceDatabase constructor].
  unfold getAvailableCategories, initializeAdviceDatabase.
  cbn [adviceDatabase constructor map fst JS.Map_get].
  set (k := JS.toLowerCase c). clearbody k.
  repeat (let E := fresh "E" in
          destruct (String.eqb _ k) eqn:E;
          [apply String.eqb_eq in E; subst k;
           split; [repeat constructor|];
           split; [discriminate|];
           intros H; exfalso; apply H;
           repeat first [apply list_elem_of_here | apply list_elem_of_further]
          |apply String.eqb_neq in E]).
  split; [constructor|]. split; [|done]. intros _ H.
  unfold initializeAdviceDatabase in H. cbn [map fst] in H.
  repeat (apply elem_of_cons in H as [H|H]; [congruence|]).
  by apply elem_of_nil in H.
Qed.

End MoodAdviceServiceLaws.

(** ** LocalStorageManager *)

Module LocalStorageManagerLaws.
Import LocalStorageManager LocalStorageManagerSpec.
Import LocalStorageManagerStores LocalStorageManagerStoresSpec.
Import LocalStorageManagerFacts.



Lemma initialize_returns {A} env (w w0 : World A) u :
  initialize env w = (Return u, w0) →
  initialized w0 && db w0 = true ∧ limiter w0 = limiter w ∧ idb w0 = idb w.
Proof.
  unfold initialize. destruct (initialized w && db w) eqn:E.
  - by intros [= <- <-].
  - destruct (open_error env); [discriminate|]. by intros [= <- <-].
Qed.

Lemma initialize_open {A} env (w : World A) :
  initialized w && db w = true → initialize env w = (Return tt, w).
Proof. intros H. unfold initialize. by rewrite H. Qed.

(** X18.  While the rate limiter denies the [database] quota,
    [loadSession], [getMoodHistory], [getRecommendations],
    [saveRecommendations] and [clearOldData] all throw (the quota error,
    or the error of a database that cannot be opened): none of them
    answers from its [localStorage] fallback, and [saveRecommendations]
    writes no fallback entry. *)
Theorem reads_fail_when_database_quota_exhausted {A R : Type}
    (rq : Requests) (d : Database A R) (sessionId : option string)
    (limit : Z) (key : string) (recs : list R) (daysToKeep : Z) :
  (RateLimiter.checkQuota (clock (env rq)) "database" (limiter (manager d))).1
    = Return false →
  ∃ e,
    (e = quota_message ∨ open_error (env rq) = Some e) ∧
    (loadSession rq sessionId (manager d)).1 = Throw e ∧
    (getMoodHistory rq limit (manager d)).1 = Throw e ∧
    (getRecommendations rq key d).1 = Throw e ∧
    (saveRecommendations rq key recs d).1 = Throw e ∧
    (clearOldData rq daysToKeep d).1 = Throw e ∧
    local_recommendations (saveRecommendations rq key recs d).2
      = local_recommendations d.
Proof.
  intros Hdenied.
  unfold loadSession, getMoodHistory, getRecommendations, saveRecommendations,
    clearOldData.
  destruct (initialize_keeps (env rq) (manager d)) as (Hl & _).
  destruct (initialize_outcome (env rq) (manager d)) as [Hok|(e & He & Hopen & _)].
  - destruct (initialize (env rq) (manager d)) as [r0 w0].
    cbn [fst snd] in Hl, Hok. subst r0.
    cbn [manager with_manager].
    destruct (checkDatabaseQuota_denied (env rq) w0) as (w1 & -> & _).
    { by rewrite Hl. }
    exists quota_message. split; [by left|]. done.
  - destruct (initialize (env rq) (manager d)) as [r0 w0].
    cbn [fst snd] in He. subst r0.
    exists e. split; [by right|]. done.
Qed.

Lemma reads_fail_when_database_quota_exhausted_witness :
  ∃ e,
    (e = quota_message ∨ open_error (env example_requests) = Some e) ∧
    (loadSession example_requests (Some "s1") (manager exhausted_database)).1
      = Throw e ∧
    (getMoodHistory example_requests 10 (manager exhausted_database)).1 = Throw e ∧
    (getRecommendations example_requests "happy_40.7_-74.0" exhausted_database).1
      = Throw e ∧
    (saveRecommendations example_requests "happy_40.7_-74.0" ["Cafe"]
       exhausted_database).1 = Throw e ∧
    (clearOldData example_requests 30 exhausted_database).1 = Throw e ∧
    local_recommendations
      (saveRecommendations example_requests "happy_40.7_-74.0" ["Cafe"]
         exhausted_database).2
      = local_recommendations exhausted_database.
Proof.
  apply (reads_fail_when_database_quota_exhausted example_requests
           exhausted_database (Some "s1") 10 "happy_40.7_-74.0" ["Cafe"] 30).
  reflexivity.
Defined.






Lemma key_ltb_irrefl a : key_ltb a a = false.
Proof.
  induction a as [|c a IH]; [done|]. cbn. by rewrite N.ltb_irrefl.
Qed.

Lemma key_ltb_asym a b : key_ltb a b = true → key_ltb b a = false.
Proof.
  revert b. induction a as [|c a IH]; intros [|d b]; cbn; try done.
  destruct (N.ltb_spec (N_of_ascii c) (N_of_ascii d)),
           (N.ltb_spec (N_of_ascii d) (N_of_ascii c)); try done; try lia.
  apply IH.
Qed.

Lemma visited_before_total {V} (ik pk : V → string) a b :
  negb (visited_before ik pk b a) = false →
  negb (visited_before ik pk a b) = true.
Proof.
  unfold visited_before. intros H%negb_false_iff. apply negb_true_iff.
  apply orb_prop in H as [H|[He H]%andb_prop].
  - rewrite (key_ltb_asym _ _ H). cbn.
    destruct (String.eqb (ik a) (ik b)) eqn:E; [|done].
    apply String.eqb_eq in E. rewrite E, key_ltb_irrefl in H. done.
  - apply String.eqb_eq in He. rewrite He, key_ltb_irrefl. cbn.
    rewrite (key_ltb_asym _ _ H). by rewrite andb_false_r.
Qed.

Lemma Sorted_take {V} (R : V → V → Prop) n l :
  Sorted R l → Sorted R (take n l).
Proof.
  revert n. induction l as [|a l IH]; intros [|n] Hs; cbn; try constructor.
  - apply IH. by apply Sorted_inv in Hs as [? _].
  - apply Sorted_inv in Hs as [_ Hhd].
    destruct Hhd as [|b l Hab]; destruct n; cbn; by constructor.
Qed.

Lemma cursor_prev_Permutation {V} (ik pk : V → string) store :
  Permutation (cursor_prev ik pk store) (map snd (map_to_list store)).
Proof. apply JSFacts.sort_Permutation. Qed.

Lemma cursor_prev_Sorted {V} (ik pk : V → string) store :
  Sorted (λ a b, key_ltb (ik a) (ik b) = false) (cursor_prev ik pk store).
Proof.
  unfold cursor_prev.
  pose proof (JSFacts.sort_Sorted
                (λ a b, negb (visited_before ik pk b a))
                (map snd (map_to_list store))
                (λ a b, visited_before_total ik pk a b)) as Hs.
  induction Hs as [|a l Hs IH Hhd]; constructor; [done|].
  destruct Hhd as [|b l Hab]; constructor.
  apply negb_true_iff in Hab. unfold visited_before in Hab.
  by apply orb_false_elim in Hab as [? _].
Qed.

Lemma cursor_prev_elem_of {V} (ik pk : V → string) store x :
  x ∈ cursor_prev ik pk store ↔ ∃ k, store !! k = Some x.
Proof.
  rewrite cursor_prev_Permutation. change (@map) with (@fmap list _).
  rewrite list_elem_of_fmap. split.
  - intros ([k v] & -> & H%elem_of_map_to_list). eauto.
  - intros [k H]. exists (k, x). split; [done|]. by apply elem_of_map_to_list.
Qed.

(** X21.  [logApiUsage] keeps a bounded log and costs no quota.  The
    record it returns has at most 100 detail entries, the last of them the
    call just logged; the three call counters together have grown by one
    for a configured service name and not at all for any other name; the
    rate limiter is untouched; and [getApiUsage()] then returns the same
    record. *)
Theorem logApiUsage_keeps_a_bounded_log {A R : Type}
    (rq : Requests) (service : string) (endpoint : option string)
    (d d' : Database A R) (u : ApiUsage) :
  logApiUsage rq service endpoint d = (Return u, d') →
  keyed_by usage_date (apiUsage d) →
  (length (details u) ≤ 100)%nat ∧
  last (details u)
    = Some {| detail_service := service; detail_endpoint := endpoint;
              detail_timestamp := now_iso (env rq) |} ∧
  (let before := default (no_usage (split_T_0 (now_iso (env rq))))
                   (apiUsage d !! split_T_0 (now_iso (env rq))) in
   openaiCalls u + googlePlacesCalls u + databaseOperations u
   = openaiCalls before + googlePlacesCalls before + databaseOperations before
     + (if bool_decide (service ∈ RateLimiter.known_services) then 1 else 0)) ∧
  limiter (manager d') = limiter (manager d) ∧
  keyed_by usage_date (apiUsage d') ∧
  (getApiUsage rq None d').1 = Return u.
Proof.
  unfold logApiUsage. intros Hrun Hkeyed.
  destruct (initialize (env rq) (manager d)) as [r0 w0] eqn:Hinit.
  destruct r0 as [t|e]; [|discriminate].
  destruct (initialize_returns _ _ _ _ Hinit) as (Hopen & Hlim & _).
  cbn [with_manager manager apiUsage] in Hrun.
  destruct (get_error rq) eqn:Hget; [discriminate|].
  destruct (put_error (env rq)); [discriminate|].
  set (today := split_T_0 (now_iso (env rq))) in *.
  set (before := default (no_usage today) (apiUsage d !! today)) in *.
  assert (usage_date before = today) as Hdate.
  { unfold before. destruct (apiUsage d !! today) as [v|] eqn:E; [|done].
    cbn. by apply Hkeyed. }
  set (entry := {| detail_service := service; detail_endpoint := endpoint;
                   detail_timestamp := now_iso (env rq) |}) in *.
  injection Hrun as <- <-. cbn [details openaiCalls googlePlacesCalls
                                 databaseOperations usage_date manager apiUsage].
  split.
  { destruct (100 <? length (details before ++ [entry]))%nat eqn:E.
    - rewrite length_skipn. lia.
    - apply Nat.ltb_ge in E. lia. }
  split.
  { destruct (100 <? length (details before ++ [entry]))%nat eqn:E.
    - apply Nat.ltb_lt in E. rewrite length_app in E. cbn in E.
      rewrite skipn_app.
      replace (length (details before ++ [entry]) - 100 - length (details before))%nat
        with 0%nat by (rewrite length_app; cbn; lia).
      cbn [skipn]. apply last_snoc.
    - apply last_snoc. }
  split.
  { unfold RateLimiter.known_services.
    destruct (String.eqb service "openai") eqn:E1.
    { apply String.eqb_eq in E1. subst service.
      rewrite bool_decide_eq_true_2
        by (repeat first [apply list_elem_of_here | apply list_elem_of_further]).
      cbn. lia. }
    destruct (String.eqb service "googlePlaces") eqn:E2.
    { apply String.eqb_eq in E2. subst service.
      rewrite bool_decide_eq_true_2
        by (repeat first [apply list_elem_of_here | apply list_elem_of_further]).
      cbn. lia. }
    destruct (String.eqb service "database") eqn:E3.
    { apply String.eqb_eq in E3. subst service.
      rewrite bool_decide_eq_true_2
        by (repeat first [apply list_elem_of_here | apply list_elem_of_further]).
      cbn. lia. }
    apply String.eqb_neq in E1, E2, E3.
    rewrite bool_decide_eq_false_2; [lia|].
    intros H. repeat (apply elem_of_cons in H as [H|H]; [done|]).
    by apply elem_of_nil in H. }
  split; [done|]. rewrite Hdate.
  split.
  { intros k v. destruct (decide (k = today)) as [->|Hne].
    - rewrite lookup_insert_eq. intros [= <-]. done.
    - rewrite lookup_insert_ne by done. apply Hkeyed. }
  unfold getApiUsage. cbn [manager]. rewrite (initialize_open _ _ Hopen).
  cbn [with_manager apiUsage or_else]. rewrite Hget. fold today.
  by rewrite lookup_insert_eq.
Qed.

Lemma logApiUsage_keeps_a_bounded_log_witness :
  let run := logApiUsage example_requests "openai" (Some "/v1/chat/completions")
               fresh_database in
  ∃ u, run.1 = Return u ∧
       usage_date u = "2024-01-15" ∧
       openaiCalls u = 1 ∧
       (length (details u) ≤ 100)%nat ∧
       limiter (manager run.2) = limiter (manager fresh_database) ∧
       (getApiUsage example_requests None run.2).1 = Return u.
Proof.
  intros run.
  destruct run as [[u|e] d'] eqn:Hrun; cbn [fst snd].
  - exists u.
    split; [reflexivity|].
    split; [apply (f_equal fst) in Hrun; vm_compute in Hrun;
            injection Hrun as <-; reflexivity|].
    split; [apply (f_equal fst) in Hrun; vm_compute in Hrun;
            injection Hrun as <-; reflexivity|].
    destruct (logApiUsage_keeps_a_bounded_log example_requests "openai"
                (Some "/v1/chat/completions") fresh_database d' u Hrun)
      as (H1 & _ & _ & H4 & _ & H6).
    { unfold keyed_by, fresh_database. cbn [apiUsage].
      intros k v H. by rewrite lookup_empty in H. }
    done.
  - apply (f_equal fst) in Hrun. vm_compute in Hrun. discriminate Hrun.
Defined.

Lemma clearOldRecords_keeps {V} rq (key : V → string) cutoff store n store' :
  clearOldRecords rq (Some key) cutoff store = (Return n, store') →
  ∀ k v, store' !! k = Some v
         ↔ store !! k = Some v ∧ key_ltb (key v) cutoff = false.
Proof.
  unfold clearOldRecords. destruct (get_error rq); [discriminate|].
  intros [= _ <-] k v. rewrite map_lookup_filter_Some. cbn.
  destruct (key_ltb (key v) cutoff); cbn; split; intros [H1 H2];
    (done || (split; [done|]; by intros [])).
Qed.

Lemma clearOldRecords_outcome {V} rq (key : V → string) cutoff store :
  (∃ e, clearOldRecords rq (Some key) cutoff store = (Throw e, store)
        ∧ get_error rq = Some e)
  ∨ (∃ n store', clearOldRecords rq (Some key) cutoff store = (Return n, store')
                 ∧ get_error rq = None).
Proof.
  unfold clearOldRecords. destruct (get_error rq) as [e|]; [left|right]; eauto.
Qed.

End LocalStorageManagerLaws.

(** ** LocalStorageManager: overlapping calls *)

Module LocalStorageManagerOverlapLaws.
Import LocalStorageManager LocalStorageManagerSpec.
Import LocalStorageManagerStores LocalStorageManagerStoresSpec.
Import LocalStorageManagerFacts LocalStorageManagerLaws.
Import LocalStorageManagerOverlap LocalStorageManagerOverlapSpec.

(** [database] is no name of [Object.prototype]: the read of its counter
    finds an own property or nothing. *)
Lemma getService_database q :
  RateLimiter.getService q "database"
  = match RateLimiter.services q !! "database" with
    | Some sq => RateLimiter.Own sq
    | None => RateLimiter.Undefined
    end.
Proof.
  unfold RateLimiter.getService.
  destruct (RateLimiter.services q !! "database"); [done|].
  rewrite bool_decide_eq_false_2; [done|].
  unfold JS.Object_prototype_keys. intros H.
  repeat (apply elem_of_cons in H as [H|H]; [discriminate H|]).
  by apply elem_of_nil in H.
Qed.

Lemma checkQuota_database clk l :
  RateLimiter.checkQuota clk "database" l
  = (match RateLimiter.quotas (at_check clk l) with
     | Some _ => Return (room (at_check clk l))
     | None => Throw RateLimiter.TypeError_services
     end, at_check clk l).
Proof.
  unfold RateLimiter.checkQuota, room, RateLimiter.counter, at_check.
  destruct (RateLimiter.quotas (RateLimiter.initialize clk l)) as [q|]; [|done].
  rewrite getService_database. cbn.
  by destruct (RateLimiter.services q !! "database").
Qed.

Lemma incrementUsage_database clk l :
  let l' := RateLimiter.initialize clk l in
  (RateLimiter.incrementUsage clk "database" l).1
  = match RateLimiter.quotas l' with
    | Some _ => Return (room l')
    | None => Throw RateLimiter.TypeError_services
    end
  ∧ (room l' = false → (RateLimiter.incrementUsage clk "database" l).2 = l')
  ∧ (room l' = true →
     ∃ sq, RateLimiter.counter l' "database" = Some sq
           ∧ RateLimiter.used sq < RateLimiter.limit sq
           ∧ RateLimiter.counter (RateLimiter.incrementUsage clk "database" l).2
               "database"
             = Some {| RateLimiter.used := RateLimiter.used sq + 1;
                       RateLimiter.limit := RateLimiter.limit sq |}).
Proof.
  cbv zeta. unfold RateLimiter.incrementUsage, room, RateLimiter.counter.
  destruct (RateLimiter.quotas (RateLimiter.initialize clk l)) as [q|] eqn:Hq;
    [|by repeat split].
  rewrite getService_database. cbn.
  destruct (RateLimiter.services q !! "database") as [sq|] eqn:Hs;
    [|by repeat split].
  destruct (Z.ltb_spec (RateLimiter.used sq) (RateLimiter.limit sq)) as [Hlt|Hge].
  - assert ((RateLimiter.limit sq <=? RateLimiter.used sq) = false) as ->
      by (apply Z.leb_gt; lia).
    split; [done|]. split; [done|]. intros _. exists sq.
    split; [done|]. split; [done|].
    cbn [snd]. rewrite RateLimiterFacts.saveQuotas_quotas. cbn.
    by rewrite lookup_insert_eq.
  - assert ((RateLimiter.limit sq <=? RateLimiter.used sq) = true) as ->
      by (apply Z.leb_le; lia).
    by repeat split.
Qed.

(** The three outcomes of [checkDatabaseQuota], by the state of the
    counter at the check and at the increment. *)
Lemma checkDatabaseQuota_outcome {A} meanwhile env (w : World A) :
  let l := limiter w in
  let run := checkDatabaseQuota meanwhile env w in
  (granted meanwhile (clock env) l = true → run.1 = Return true)
  ∧ (overtaken meanwhile (clock env) l = true →
     run = (Return false,
            with_limiter (at_increment meanwhile (clock env) l) w))
  ∧ (granted meanwhile (clock env) l = false →
     overtaken meanwhile (clock env) l = false → ∃ e, run.1 = Throw e).
Proof.
  cbv zeta. unfold checkDatabaseQuota, granted, overtaken.
  rewrite checkQuota_database.
  destruct (incrementUsage_database (clock env)
              (meanwhile (at_check (clock env) (limiter w))))
    as (Hr & Hkeep & _).
  fold (at_increment meanwhile (clock env) (limiter w)) in Hr, Hkeep.
  destruct (RateLimiter.quotas (at_check (clock env) (limiter w))) as [q|] eqn:Hq.
  2:{ assert (room (at_check (clock env) (limiter w)) = false) as ->
        by (unfold room, RateLimiter.counter; by rewrite Hq).
      cbn. split; [done|]. split; [done|]. eauto. }
  destruct (room (at_check (clock env) (limiter w))); cbn [andb negb];
    [|cbn; split; [done|]; split; [done|]; eauto].
  destruct (RateLimiter.incrementUsage (clock env) "database"
              (meanwhile (at_check (clock env) (limiter w)))) as [r l2].
  cbn [fst snd] in *. subst r.
  destruct (RateLimiter.quotas (at_increment meanwhile (clock env) (limiter w)))
    as [q2|] eqn:Hq2.
  - destruct (room (at_increment meanwhile (clock env) (limiter w))) eqn:Hr2; cbn.
    + by repeat split.
    + split; [done|]. split; [|done]. intros _. by rewrite (Hkeep eq_refl).
  - assert (room (at_increment meanwhile (clock env) (limiter w)) = false) as Hr2
      by (unfold room, RateLimiter.counter; by rewrite Hq2).
    rewrite Hr2. cbn. split; [done|]. split; [done|]. eauto.
Qed.

Lemma checkDatabaseQuota_true_iff {A} meanwhile env (w : World A) :
  (checkDatabaseQuota meanwhile env w).1 = Return true
  ↔ granted meanwhile (clock env) (limiter w) = true.
Proof.
  destruct (checkDatabaseQuota_outcome meanwhile env w) as (Hg & Ho & Ht).
  split; [|exact Hg]. intros Hrun.
  destruct (granted meanwhile (clock env) (limiter w)) eqn:Eg; [done|].
  destruct (overtaken meanwhile (clock env) (limiter w)) eqn:Eo.
  - rewrite (Ho eq_refl) in Hrun. discriminate Hrun.
  - destruct (Ht eq_refl eq_refl) as [e He]. congruence.
Qed.

Lemma checkDatabaseQuota_false_iff {A} meanwhile env (w : World A) :
  (checkDatabaseQuota meanwhile env w).1 = Return false
  ↔ overtaken meanwhile (clock env) (limiter w) = true.
Proof.
  destruct (checkDatabaseQuota_outcome meanwhile env w) as (Hg & Ho & Ht).
  split; [|by intros H; rewrite (Ho H)]. intros Hrun.
  destruct (overtaken meanwhile (clock env) (limiter w)) eqn:Eo; [done|].
  destruct (granted meanwhile (clock env) (limiter w)) eqn:Eg.
  - rewrite (Hg eq_refl) in Hrun. discriminate Hrun.
  - destruct (Ht eq_refl eq_refl) as [e He]. congruence.
Qed.

Lemma checkDatabaseQuota_charges_once {A} meanwhile env (w : World A) :
  granted meanwhile (clock env) (limiter w) = true →
  ∃ sq,
    RateLimiter.counter (at_increment meanwhile (clock env) (limiter w)) "database"
      = Some sq
    ∧ RateLimiter.used sq < RateLimiter.limit sq
    ∧ RateLimiter.counter (limiter (checkDatabaseQuota meanwhile env w).2)
        "database"
      = Some {| RateLimiter.used := RateLimiter.used sq + 1;
                RateLimiter.limit := RateLimiter.limit sq |}.
Proof.
  unfold granted. intros [H1 H2]%andb_prop.
  unfold checkDatabaseQuota. rewrite checkQuota_database.
  assert (∃ q, RateLimiter.quotas (at_check (clock env) (limiter w)) = Some q)
    as [q ->].
  { revert H1. unfold room, RateLimiter.counter.
    destruct (RateLimiter.quotas _); [eauto | discriminate]. }
  rewrite H1.
  destruct (incrementUsage_database (clock env)
              (meanwhile (at_check (clock env) (limiter w))))
    as (_ & _ & Hc).
  destruct (Hc H2) as (sq & Hs & Hlt & Hn).
  destruct (RateLimiter.incrementUsage (clock env) "database"
              (meanwhile (at_check (clock env) (limiter w)))) as [r l2].
  exists sq. by repeat split.
Qed.

Lemma overlapped_check_keeps {A} meanwhile env (w : World A) :
  db (checkDatabaseQuota meanwhile env w).2 = db w ∧
  initialized (checkDatabaseQuota meanwhile env w).2 = initialized w ∧
  idb (checkDatabaseQuota meanwhile env w).2 = idb w ∧
  session_cache (checkDatabaseQuota meanwhile env w).2 = session_cache w ∧
  mood_cache (checkDatabaseQuota meanwhile env w).2 = mood_cache w.
Proof.
  unfold checkDatabaseQuota.
  destruct (RateLimiter.checkQuota (clock env) "database" (limiter w)) as [r l1].
  destruct r as [[|]|e]; [|done..].
  by destruct (RateLimiter.incrementUsage (clock env) "database" (meanwhile l1)).
Qed.

(** Without another call in the gap these are the methods of the
    manager, and no call is overtaken. *)
Lemma checkDatabaseQuota_alone {A} env (w : World A) :
  checkDatabaseQuota no_other_call env w
  = LocalStorageManager.checkDatabaseQuota env w.
Proof. reflexivity. Qed.

Lemma methods_alone {A R} rq (limit : Z) key (recs : list R) days
    (w : World A) (d : Database A R) sessionId :
  loadSession no_other_call rq sessionId w
    = LocalStorageManagerStores.loadSession rq sessionId w ∧
  getMoodHistory no_other_call rq limit w
    = LocalStorageManagerStores.getMoodHistory rq limit w ∧
  saveRecommendations no_other_call rq key recs d
    = LocalStorageManagerStores.saveRecommendations rq key recs d ∧
  getRecommendations no_other_call rq key d
    = LocalStorageManagerStores.getRecommendations rq key d ∧
  clearOldData no_other_call rq days d
    = LocalStorageManagerStores.clearOldData rq days d.
Proof. repeat split. Qed.

Lemma same_counter_not_overtaken meanwhile clk l :
  RateLimiter.counter (at_increment meanwhile clk l) "database"
    = RateLimiter.counter (at_check clk l) "database" →
  overtaken meanwhile clk l = false.
Proof.
  intros H. unfold overtaken, room. rewrite H.
  by destruct (match RateLimiter.counter (at_check clk l) "database" with
               | Some sq => _ | None => _ end).
Qed.

Lemma alone_not_overtaken clk l : overtaken no_other_call clk l = false.
Proof.
  apply same_counter_not_overtaken. unfold at_increment, no_other_call, at_check.
  by rewrite RateLimiterFacts.initialize_idempotent.
Qed.


(** X17.  [checkDatabaseQuota] returns [false] exactly when the call is
    overtaken: its check found room and, when its increment ran, other
    calls had used the room up.  Nothing is charged then.  It returns
    [true] exactly when there is room at the check and at the increment,
    and then one operation has been charged to the counter as the
    increment found it.  A call during which the [database] counter stays
    as it is, in particular a call that no other call overlaps, never
    returns [false]. *)
Theorem checkDatabaseQuota_false_only_when_overtaken {A : Type}
    (meanwhile : RateLimiter.State → RateLimiter.State)
    (env : Ambient) (w : World A) :
  let run := checkDatabaseQuota meanwhile env w in
  let before := at_check (clock env) (limiter w) in
  let after := at_increment meanwhile (clock env) (limiter w) in
  (run.1 = Return false ↔ overtaken meanwhile (clock env) (limiter w) = true) ∧
  (run.1 = Return true ↔ granted meanwhile (clock env) (limiter w) = true) ∧
  (run.1 = Return false → limiter run.2 = after) ∧
  (run.1 = Return true →
   ∃ sq, RateLimiter.counter after "database" = Some sq
         ∧ RateLimiter.used sq < RateLimiter.limit sq
         ∧ RateLimiter.counter (limiter run.2) "database"
           = Some {| RateLimiter.used := RateLimiter.used sq + 1;
                     RateLimiter.limit := RateLimiter.limit sq |}) ∧
  (RateLimiter.counter after "database" = RateLimiter.counter before "database" →
   run.1 ≠ Return false) ∧
  (checkDatabaseQuota no_other_call env w).1 ≠ Return false.
Proof.
  cbv zeta.
  split; [apply checkDatabaseQuota_false_iff|].
  split; [apply checkDatabaseQuota_true_iff|].
  split.
  { intros H%checkDatabaseQuota_false_iff.
    destruct (checkDatabaseQuota_outcome meanwhile env w) as (_ & Ho & _).
    by rewrite (Ho H). }
  split.
  { intros H%checkDatabaseQuota_true_iff.
    by apply checkDatabaseQuota_charges_once. }
  split.
  { intros Hsame H%checkDatabaseQuota_false_iff.
    by rewrite (same_counter_not_overtaken _ _ _ Hsame) in H. }
  intros H%checkDatabaseQuota_false_iff.
  by rewrite alone_not_overtaken in H.
Qed.

Lemma checkDatabaseQuota_false_only_when_overtaken_witness :
  let clk := clock manager_env in
  (checkDatabaseQuota (one_other_call clk) manager_env nearly_exhausted_world).1
    = Return false ∧
  RateLimiter.counter
    (limiter (checkDatabaseQuota (one_other_call clk) manager_env
                nearly_exhausted_world).2) "database"
    = Some {| RateLimiter.used := 1000; RateLimiter.limit := 1000 |} ∧
  (checkDatabaseQuota no_other_call manager_env nearly_exhausted_world).1
    = Return true.
Proof.
  intros clk.
  destruct (checkDatabaseQuota_false_only_when_overtaken (one_other_call clk)
              manager_env nearly_exhausted_world) as (Hf & _ & Hl & _).
  assert ((checkDatabaseQuota (one_other_call clk) manager_env
             nearly_exhausted_world).1 = Return false) as Hrun
    by (apply Hf; vm_compute; reflexivity).
  split; [exact Hrun|]. split.
  - rewrite (Hl Hrun). vm_compute. reflexivity.
  - destruct (checkDatabaseQuota_false_only_when_overtaken no_other_call
                manager_env nearly_exhausted_world) as (_ & Hg & _).
    apply Hg. vm_compute. reflexivity.
Defined.

(** X20.  What a successful [getMoodHistory(limit)] returns.  It changes
    no store.  When the call is overtaken between the check and the
    increment of the quota, the result is the [localStorage] copy as it
    is.  Otherwise it has at most [limit] entries, each a record of the
    mood store, ordered so that no entry has an earlier time stamp than
    the entry after it, and when the store holds no more than [limit]
    records it has all of them. *)
Theorem getMoodHistory_newest_first {A : Type}
    (meanwhile : RateLimiter.State → RateLimiter.State)
    (rq : Requests) (limit : Z) (w w' : World A) (l : list (StoredMood A)) :
  getMoodHistory meanwhile rq limit w = (Return l, w') →
  idb w' = idb w ∧
  mood_cache w' = mood_cache w ∧
  if overtaken meanwhile (clock (env rq)) (limiter w)
  then l = getCachedMoodHistory w
  else
    (length l ≤ Z.to_nat limit)%nat ∧
    (∀ x, x ∈ l → ∃ k, moodHistory (idb w) !! k = Some x) ∧
    Sorted (λ a b, key_ltb (stored_timestamp a) (stored_timestamp b) = false) l ∧
    (Z.of_nat (size (moodHistory (idb w))) ≤ limit →
     Permutation l (map snd (map_to_list (moodHistory (idb w))))).
Proof.
  unfold getMoodHistory.
  destruct (initialize_keeps (env rq) w) as (Hlim0 & Hidb0 & _ & Hmc0).
  destruct (initialize (env rq) w) as [r0 w0].
  cbn [snd] in Hlim0, Hidb0, Hmc0.
  destruct r0 as [u|e]; [|discriminate].
  destruct (overlapped_check_keeps meanwhile (env rq) w0) as (_ & _ & Hidb & _ & Hmc).
  pose proof (checkDatabaseQuota_false_iff meanwhile (env rq) w0) as Hf.
  rewrite Hlim0 in Hf.
  destruct (checkDatabaseQuota meanwhile (env rq) w0) as [r1 w1].
  cbn [fst snd] in Hidb, Hmc, Hf.
  destruct r1 as [[|]|e]; [| |discriminate].
  - destruct (get_error rq); [discriminate|].
    intros [= <- <-]. rewrite Hidb, Hidb0, Hmc, Hmc0.
    split; [done|]. split; [done|].
    destruct (overtaken meanwhile (clock (env rq)) (limiter w));
      [by destruct Hf as [_ Hf]; specialize (Hf eq_refl)|].
    split; [rewrite length_take; lia|].
    split.
    { intros x Hx. apply (cursor_prev_elem_of stored_timestamp stored_id).
      eapply elem_of_sublist; [exact Hx | apply sublist_take]. }
    split; [apply Sorted_take, cursor_prev_Sorted|].
    intros Hsize. rewrite firstn_all2; [apply cursor_prev_Permutation|].
    rewrite (Permutation_length (cursor_prev_Permutation _ _ _)), length_map.
    rewrite length_map_to_list. lia.
  - intros [= <- <-]. rewrite Hidb, Hidb0, Hmc, Hmc0.
    split; [done|]. split; [done|].
    destruct Hf as [Hf _]. rewrite (Hf eq_refl).
    unfold getCachedMoodHistory. by rewrite Hmc, Hmc0.
Qed.

Lemma getMoodHistory_newest_first_witness :
  let clk := clock manager_env in
  (∃ l w',
     getMoodHistory no_other_call example_requests 10 nearly_exhausted_world
       = (Return l, w') ∧
     l = [stored_entry] ∧
     idb w' = idb nearly_exhausted_world ∧
     (∀ x, x ∈ l → ∃ k, moodHistory (idb nearly_exhausted_world) !! k = Some x)) ∧
  (∃ l w',
     getMoodHistory (one_other_call clk) example_requests 1
       nearly_exhausted_world = (Return l, w') ∧
     l = [copied_entry; copied_entry] ∧
     idb w' = idb nearly_exhausted_world ∧
     ¬ (length l ≤ Z.to_nat 1)%nat).
Proof.
  intros clk. split.
  - destruct (getMoodHistory no_other_call example_requests 10
                nearly_exhausted_world) as [[l|e] w'] eqn:Hrun.
    + exists l, w'. split; [reflexivity|].
      destruct (getMoodHistory_newest_first no_other_call example_requests 10
                  nearly_exhausted_world w' l Hrun) as (Hidb & _ & H).
      assert (overtaken no_other_call (clock (env example_requests))
                (limiter nearly_exhausted_world) = false) as Hn
        by (vm_compute; reflexivity).
      rewrite Hn in H. destruct H as (_ & Hin & _).
      apply (f_equal fst) in Hrun. vm_compute in Hrun.
      injection Hrun as Hl. by rewrite <- Hl in *.
    + apply (f_equal fst) in Hrun. vm_compute in Hrun. discriminate Hrun.
  - destruct (getMoodHistory (one_other_call clk) example_requests 1
                nearly_exhausted_world) as [[l|e] w'] eqn:Hrun.
    + exists l, w'. split; [reflexivity|].
      destruct (getMoodHistory_newest_first (one_other_call clk) example_requests
                  1 nearly_exhausted_world w' l Hrun) as (Hidb & _ & H).
      assert (overtaken (one_other_call clk) (clock (env example_requests))
                (limiter nearly_exhausted_world) = true) as Ho
        by (vm_compute; reflexivity).
      rewrite Ho in H. rewrite H.
      split; [reflexivity|]. split; [exact Hidb|]. cbn. lia.
    + apply (f_equal fst) in Hrun. vm_compute in Hrun. discriminate Hrun.
Defined.


(** An overtaken call leaves the limiter without room: the next check
    is denied, whatever overlaps it. *)
Lemma check_after_overtaken {A} meanwhile meanwhile' env env' (w : World A) :
  overtaken meanwhile (clock env) (limiter w) = true →
  checkDatabaseQuota meanwhile' env'
    (with_limiter (at_increment meanwhile (clock env) (limiter w)) w)
  = (Throw quota_message,
     with_limiter (at_increment meanwhile (clock env) (limiter w)) w).
Proof.
  unfold overtaken. intros [[_ Hr%negb_true_iff]%andb_prop Hq]%andb_prop.
  unfold checkDatabaseQuota. rewrite checkQuota_database.
  cbn [limiter with_limiter].
  assert (at_check (clock env') (at_increment meanwhile (clock env) (limiter w))
          = at_increment meanwhile (clock env) (limiter w)) as ->.
  { unfold at_check, at_increment.
    apply RateLimiterFacts.initialize_idempotent. }
  rewrite Hr.
  by destruct (RateLimiter.quotas (at_increment meanwhile (clock env) (limiter w))).
Qed.

(** X22.  Cached recommendations are served for one hour, unless the save
    was overtaken.  A [saveRecommendations] that returns and was not
    overtaken between the check and the increment of the quota has
    written the record to the database, and a later [getRecommendations]
    with the same key that is granted quota and whose read succeeds
    returns the saved list while less than 60 minutes have passed since
    the save and the empty list afterwards.  An overtaken
    [saveRecommendations] returns nothing and writes only the
    [localStorage] entry (if [localStorage] can be written); the limiter
    is left without room, so the [getRecommendations] that follows throws
    the quota error instead of reading that entry. *)
Theorem saved_recommendations_expire_after_an_hour {A R : Type}
    (during_save during_get : RateLimiter.State → RateLimiter.State)
    (rq rq' : Requests) (key : string) (recs : list R)
    (d d1 : Database A R) (saved : option (RecData R)) (t0 : Z) :
  saveRecommendations during_save rq key recs d = (Return saved, d1) →
  getTime rq' (now_iso (env rq)) = Some t0 →
  let recData := {| cacheKey := key; rec_recommendations := recs;
                    rec_timestamp := now_iso (env rq) |} in
  if overtaken during_save (clock (env rq)) (limiter (manager d))
  then
    saved = None ∧
    recommendations d1 = recommendations d ∧
    local_recommendations d1
      = (if local_writable d
         then <[key := LocalRecData recData]> (local_recommendations d)
         else local_recommendations d) ∧
    (getRecommendations during_get rq' key d1).1 = Throw quota_message
  else
    saved = Some recData ∧
    recommendations d1 = <[key := recData]> (recommendations d) ∧
    local_recommendations d1 = local_recommendations d ∧
    (granted during_get (clock (env rq')) (limiter (manager d1)) = true →
     get_error rq' = None →
     (getRecommendations during_get rq' key d1).1
     = Return (if Date_now (env rq') - t0 <? 60 * 60 * 1000 then recs else [])).
Proof.
  unfold saveRecommendations. intros Hsave Htime. cbv zeta.
  destruct (initialize_keeps (env rq) (manager d)) as (Hlim0 & _).
  destruct (initialize (env rq) (manager d)) as [r0 w0] eqn:Hinit.
  cbn [snd] in Hlim0.
  destruct r0 as [t|e]; [|discriminate].
  destruct (initialize_returns _ _ _ _ Hinit) as (Hopen & _ & _).
  cbn [with_manager manager] in Hsave.
  destruct (checkDatabaseQuota_outcome during_save (env rq) w0) as (_ & Hov & _).
  pose proof (checkDatabaseQuota_false_iff during_save (env rq) w0) as Hf.
  rewrite Hlim0 in Hov, Hf.
  destruct (overtaken during_save (clock (env rq)) (limiter (manager d))) eqn:Eo.
  - rewrite (Hov eq_refl) in Hsave.
    cbn [with_manager manager apiUsage recommendations local_recommendations
         local_readable local_writable] in Hsave.
    injection Hsave as <- <-.
    split; [done|]. split; [by destruct (local_writable d)|].
    split; [by destruct (local_writable d)|].
    assert (∀ d' : Database A R,
              manager d'
                = with_limiter
                    (at_increment during_save (clock (env rq)) (limiter (manager d)))
                    w0 →
              (getRecommendations during_get rq' key d').1 = Throw quota_message)
      as Hthrow.
    { intros d' Hm. unfold getRecommendations. rewrite Hm.
      rewrite initialize_open by done. cbn [with_manager manager].
      rewrite <- Hlim0 in Eo |- *.
      by rewrite (check_after_overtaken during_save during_get (env rq) (env rq')
                    w0 Eo). }
    by destruct (local_writable d); apply Hthrow.
  - destruct (overlapped_check_keeps during_save (env rq) w0) as (Hdb & Hi & _).
    destruct (checkDatabaseQuota during_save (env rq) w0) as [r1 w1].
    cbn [fst snd] in Hdb, Hi, Hf.
    cbn [with_manager manager apiUsage recommendations local_recommendations
         local_readable local_writable] in Hsave.
    assert (initialized w1 && db w1 = true) as Hopen1 by (by rewrite Hi, Hdb).
    destruct r1 as [[|]|e]; [| |discriminate].
    2:{ by destruct Hf as [Hf _]; specialize (Hf eq_refl). }
    destruct (put_error (env rq)); [discriminate|].
    injection Hsave as <- <-. cbn [recommendations local_recommendations manager].
    split; [done|]. split; [done|]. split; [done|].
    intros Hg Hget.
    unfold getRecommendations. cbn [manager].
    rewrite (initialize_open _ _ Hopen1). cbn [with_manager manager].
    apply checkDatabaseQuota_true_iff in Hg.
    destruct (checkDatabaseQuota during_get (env rq') w1) as [r2 w2].
    cbn in Hg. subst r2.
    rewrite Hget. cbn [with_manager recommendations fst].
    rewrite lookup_insert_eq. cbn [rec_timestamp rec_recommendations].
    unfold still_valid. by rewrite Htime.
Qed.

Lemma saved_recommendations_expire_after_an_hour_witness :
  let clk := clock manager_env in
  let key := "happy_40.7_-74.0" in
  let recs := ["Cafe Luna"; "Central Park"] in
  let in_database :=
    (saveRecommendations no_other_call example_requests key recs
       fresh_database).2 in
  let in_localStorage :=
    (saveRecommendations (one_other_call clk) example_requests key recs
       nearly_exhausted_database).2 in
  (getRecommendations no_other_call (requests_after 59) key in_database).1
    = Return recs ∧
  (getRecommendations no_other_call (requests_after 61) key in_database).1
    = Return [] ∧
  recommendations in_localStorage = ∅ ∧
  local_recommendations in_localStorage
    = {[ key := LocalRecData {| cacheKey := key; rec_recommendations := recs;
                                rec_timestamp := "2024-01-15T10:00:00.000Z" |} ]} ∧
  (getRecommendations no_other_call (requests_after 59) key in_localStorage).1
    = Throw quota_message.
Proof.
  intros clk key recs in_database in_localStorage.
  destruct (saveRecommendations no_other_call example_requests key recs
              fresh_database) as [[saved|e] d1] eqn:Hrun;
    [|apply (f_equal fst) in Hrun; vm_compute in Hrun; discriminate Hrun].
  destruct (saveRecommendations (one_other_call clk) example_requests key recs
              nearly_exhausted_database) as [[saved'|e] d1'] eqn:Hrun';
    [|apply (f_equal fst) in Hrun'; vm_compute in Hrun'; discriminate Hrun'].
  cbn [snd] in in_database, in_localStorage.
  subst in_database in_localStorage.
  assert (overtaken no_other_call (clock (env example_requests))
            (limiter (manager fresh_database)) = false) as Hn
    by (vm_compute; reflexivity).
  assert (overtaken (one_other_call clk) (clock (env example_requests))
            (limiter (manager nearly_exhausted_database)) = true) as Ho
    by (vm_compute; reflexivity).
  pose proof (saved_recommendations_expire_after_an_hour no_other_call
                no_other_call example_requests (requests_after 59) key recs
                fresh_database d1 saved 1705312800000 Hrun eq_refl)
    as H59.
  pose proof (saved_recommendations_expire_after_an_hour no_other_call
                no_other_call example_requests (requests_after 61) key recs
                fresh_database d1 saved 1705312800000 Hrun eq_refl)
    as H61.
  pose proof (saved_recommendations_expire_after_an_hour (one_other_call clk)
                no_other_call example_requests (requests_after 59) key
                recs nearly_exhausted_database d1' saved' 1705312800000 Hrun'
                eq_refl) as H59'.
  cbv zeta in H59, H61, H59'.
  rewrite Hn in H59, H61. rewrite Ho in H59'.
  destruct H59 as (_ & _ & _ & H59), H61 as (_ & _ & _ & H61).
  destruct H59' as (_ & Hrec & Hloc & H59').
  apply (f_equal snd) in Hrun. cbn [snd] in Hrun.
  split.
  { apply H59; [|reflexivity]. rewrite <- Hrun. vm_compute. reflexivity. }
  split.
  { apply H61; [|reflexivity]. rewrite <- Hrun. vm_compute. reflexivity. }
  split; [rewrite Hrec; reflexivity|].
  split; [rewrite Hloc; reflexivity|].
  exact H59'.
Defined.

(** X23.  [clearOldData] never cleans the usage log or the recommendation
    cache: the [apiUsage] and [recommendations] stores are left as they
    are by every call.  The call completes normally exactly when the
    database opens and the call is overtaken between the check and the
    increment of the quota; it has deleted nothing then.  Every other call
    ends with an exception.  When the database opens, the quota is
    granted and the cursor requests succeed, the exception is the
    [NotFoundError] of [store.index('date')] on the [apiUsage] store,
    which has no index; before it, exactly the sessions older than
    [daysToKeep] days and the mood entries older than three times that
    have been deleted. *)
Theorem clearOldData_stops_at_the_usage_log {A R : Type}
    (meanwhile : RateLimiter.State → RateLimiter.State)
    (rq : Requests) (daysToKeep : Z) (d : Database A R) :
  let run := clearOldData meanwhile rq daysToKeep d in
  apiUsage run.2 = apiUsage d ∧
  recommendations run.2 = recommendations d ∧
  (run.1 = Return tt
   ↔ (initialize (env rq) (manager d)).1 = Return tt
     ∧ overtaken meanwhile (clock (env rq)) (limiter (manager d)) = true) ∧
  (run.1 = Return tt → idb (manager run.2) = idb (manager d)) ∧
  ((initialize (env rq) (manager d)).1 = Return tt →
   granted meanwhile (clock (env rq)) (limiter (manager d)) = true →
   get_error rq = None →
   run.1 = Throw NotFoundError ∧
   (∀ k v, sessions (idb (manager run.2)) !! k = Some v
           ↔ sessions (idb (manager d)) !! k = Some v
             ∧ key_ltb (session_timestamp v) (days_before_now rq daysToKeep)
               = false) ∧
   (∀ k v, moodHistory (idb (manager run.2)) !! k = Some v
           ↔ moodHistory (idb (manager d)) !! k = Some v
             ∧ key_ltb (stored_timestamp v)
                 (days_before_now rq (daysToKeep * 3)) = false)).
Proof.
  cbv zeta. unfold clearOldData.
  destruct (initialize_keeps (env rq) (manager d)) as (Hlim0 & Hidb0 & _).
  destruct (initialize (env rq) (manager d)) as [r0 w0].
  cbn [fst snd] in Hlim0, Hidb0.
  destruct r0 as [[]|e0].
  2:{ cbn. split; [done|]. split; [done|].
      split; [split; [discriminate | by intros [? _]]|].
      split; discriminate. }
  cbn [with_manager manager].
  destruct (overlapped_check_keeps meanwhile (env rq) w0) as (_ & _ & Hidb & _).
  pose proof (checkDatabaseQuota_false_iff meanwhile (env rq) w0) as Hf.
  pose proof (checkDatabaseQuota_true_iff meanwhile (env rq) w0) as Ht.
  rewrite Hlim0 in Hf, Ht.
  destruct (checkDatabaseQuota meanwhile (env rq) w0) as [r1 w1].
  cbn [fst snd] in Hidb, Hf, Ht.
  destruct r1 as [[|]|e1].
  - assert (overtaken meanwhile (clock (env rq)) (limiter (manager d)) = false)
      as Hno.
    { destruct (overtaken _ _ _); [|done].
      by destruct Hf as [_ Hf]; specialize (Hf eq_refl). }
    rewrite Hno.
    cbn [with_manager manager apiUsage recommendations local_recommendations
         local_readable local_writable with_idb idb sessions moodHistory].
    rewrite Hidb, Hidb0.
    destruct (clearOldRecords_outcome rq session_timestamp
                (days_before_now rq daysToKeep) (sessions (idb (manager d))))
      as [(e & -> & He)|(n1 & s1 & Hc1 & Hg)].
    { cbn. split; [done|]. split; [done|].
      split; [split; [discriminate | by intros [_ ?]]|].
      split; [discriminate|]. intros _ _ Hn. congruence. }
    rewrite Hc1.
    destruct (clearOldRecords_outcome rq stored_timestamp
                (days_before_now rq (daysToKeep * 3))
                (moodHistory (idb (manager d))))
      as [(e & -> & He)|(n2 & s2 & Hc2 & _)]; [congruence|].
    rewrite Hc2. cbn.
    split; [done|]. split; [done|].
    split; [split; [discriminate | by intros [_ ?]]|].
    split; [discriminate|]. intros _ _ _.
    split; [done|]. split.
    + by apply (clearOldRecords_keeps _ _ _ _ _ _ Hc1).
    + by apply (clearOldRecords_keeps _ _ _ _ _ _ Hc2).
  - destruct Hf as [Hf _]. specialize (Hf eq_refl). rewrite Hf. cbn.
    split; [done|]. split; [done|]. split; [done|].
    split; [by rewrite Hidb, Hidb0|].
    intros _ Hg. destruct Ht as [_ Ht]. specialize (Ht Hg). discriminate Ht.
  - cbn. split; [done|]. split; [done|].
    split.
    { split; [discriminate|]. intros [_ Ho].
      destruct Hf as [_ Hf]. specialize (Hf Ho). discriminate Hf. }
    split; [discriminate|].
    intros _ Hg. destruct Ht as [_ Ht]. specialize (Ht Hg). discriminate Ht.
Qed.

Lemma clearOldData_stops_at_the_usage_log_witness :
  let clk := clock manager_env in
  let recent := {| stored_sessionId := "s1"; stored_session_fields := "{}";
                   session_timestamp := "2024-01-10T08:00:00.000Z";
                   lastUpdated := "2024-01-10T08:00:00.000Z" |} in
  let stale := {| cacheKey := "sad_1_2"; rec_recommendations := ["Library"];
                  rec_timestamp := "2023-06-01T08:00:00.000Z" |} in
  let d := {| manager :=
                with_idb {| sessions := <["s0" := old_session]> {["s1" := recent]};
                            moodHistory := ∅ |} nearly_exhausted_world;
              apiUsage := {["2023-01-01" := no_usage "2023-01-01"]};
              recommendations := {["sad_1_2" := stale]};
              local_recommendations := ∅;
              local_readable := true; local_writable := true |} in
  let alone := clearOldData no_other_call example_requests 30 d in
  let overlapped := clearOldData (one_other_call clk) example_requests 30 d in
  alone.1 = Throw NotFoundError ∧
  sessions (idb (manager alone.2)) !! "s0" = None ∧
  sessions (idb (manager alone.2)) !! "s1" = Some recent ∧
  apiUsage alone.2 = apiUsage d ∧
  recommendations alone.2 !! "sad_1_2" = Some stale ∧
  overlapped.1 = Return tt ∧
  sessions (idb (manager overlapped.2)) !! "s0" = Some old_session.
Proof.
  intros clk recent stale d alone overlapped.
  destruct (clearOldData_stops_at_the_usage_log no_other_call example_requests
              30 d) as (Hu & Hr & _ & _ & H).
  destruct H as (He & Hs & _);
    [reflexivity | vm_compute; reflexivity | reflexivity |].
  fold alone in Hu, Hr, He, Hs.
  destruct (clearOldData_stops_at_the_usage_log (one_other_call clk)
              example_requests 30 d) as (_ & _ & Hret & Hkeep & _).
  fold overlapped in Hret, Hkeep.
  assert (overlapped.1 = Return tt) as Hok
    by (apply Hret; split; [reflexivity | vm_compute; reflexivity]).
  split; [exact He|].
  split.
  { destruct (sessions (idb (manager alone.2)) !! "s0") as [v|] eqn:E;
      [|reflexivity].
    apply Hs in E as [E1 E2]. vm_compute in E1. injection E1 as <-.
    vm_compute in E2. discriminate E2. }
  split.
  { apply Hs. split; vm_compute; reflexivity. }
  split; [exact Hu|]. split; [rewrite Hr; reflexivity|].
  split; [exact Hok|].
  rewrite (Hkeep Hok). vm_compute. reflexivity.
Defined.

End LocalStorageManagerOverlapLaws.

(** ** MoodAnalysisService *)

Module MoodAnalysisServiceLaws.
Import MoodAnalysisService MoodAnalysisServiceSpec MoodAnalysisServiceSampling.
Import JSLaws.

Open Scope Q_scope.

Lemma existsb_eqb_elem_of s l : existsb (String.eqb s) l = true → s ∈ l.
Proof.
  intros (x & Hx & ->%String.eqb_eq)%existsb_exists. by apply list_elem_of_In.
Qed.

Lemma moodMappings_valid mood m :
  JS.Map_get moodMappings mood = Some m → m ∈ validMoods.
Proof.
  unfold moodMappings. cbn [JS.Map_get].
  repeat (destruct (String.eqb _ mood);
          [intros [= <-]; unfold validMoods;
           repeat first [apply list_elem_of_here | apply list_elem_of_further]|]).
  discriminate.
Qed.

Lemma findClosestMood_listed mood s :
  findClosestMood mood validMoods = Some (MoodString s) → s ∈ validMoods.
Proof.
  unfold findClosestMood.
  destruct (String.eqb mood "" || (length validMoods =? 0)%nat); [discriminate|].
  destruct (existsb (String.eqb mood) validMoods) eqn:Hex.
  { intros [= <-]. by apply existsb_eqb_elem_of. }
  destruct (find _ validMoods) as [v|] eqn:Hfind.
  { intros [= <-]. apply find_some in Hfind as [Hin _]. by apply list_elem_of_In. }
  destruct (JS.Map_get moodMappings mood) as [m|] eqn:Hmap.
  { intros [= <-]. by apply (moodMappings_valid mood). }
  case_bool_decide; discriminate.
Qed.

Lemma every_nth_same step :
  (1 ≤ step)%nat →
  ∀ s1 s2 skip,
    String.length s1 = String.length s2 →
    (∀ i, (i < String.length s1)%nat → (skip ≤ i)%nat →
          ((i - skip) mod step = 0)%nat → same_at s1 s2 i = true) →
    JS.every_nth step skip s1 = JS.every_nth step skip s2.
Proof.
  intros Hstep. induction s1 as [|c1 s1 IH]; intros [|c2 s2] skip Hlen Hsame;
    try discriminate Hlen; [done|].
  cbn [String.length] in Hlen, Hsame. injection Hlen as Hlen.
  cbn [JS.every_nth]. destruct skip as [|k].
  - assert (c1 = c2) as <-.
    { apply Ascii.eqb_eq. apply (Hsame 0%nat); [lia | lia |].
      by rewrite Nat.Div0.mod_0_l. }
    f_equal. apply IH; [done|]. intros i Hi Hk Hmod.
    apply (Hsame (S i)); [lia | lia |].
    replace (S i - 0)%nat with ((i - Nat.pred step) + 1 * step)%nat by lia.
    by rewrite Nat.Div0.mod_add.
  - apply IH; [done|]. intros i Hi Hk Hmod.
    apply (Hsame (S i)); [lia | lia | done].
Qed.

(** X28.  [generateCacheKey] depends on the length of the text and on
    the characters at the sampled positions only: two texts of the same
    length that agree at every multiple of
    [floor(length / min(1000, length))] get the same key, so from 2000
    characters on different drawings can share a cache entry. *)
Theorem generateCacheKey_reads_sampled_characters_only (s1 s2 : string) :
  String.length s1 = String.length s2 →
  forallb (same_at s1 s2) (sampled_positions (String.length s1)) = true →
  generateCacheKey s1 = generateCacheKey s2.
Proof.
  intros Hlen Hsame. unfold generateCacheKey. rewrite <- Hlen.
  set (len := String.length s1) in *.
  destruct (decide (len = 0%nat)) as [H0|H0].
  { destruct s1, s2; try discriminate; done. }
  set (step := Z.to_nat (Z.of_nat len / Z.min 1000 (Z.of_nat len))) in *.
  assert (1 ≤ step)%nat as Hstep.
  { unfold step. apply (Z2Nat.inj_le 1); [lia | | ].
    - apply Z.div_pos; lia.
    - apply Z.div_le_lower_bound; lia. }
  rewrite (every_nth_same step Hstep s1 s2 0%nat); [done | done |].
  intros i Hi _ Hmod. rewrite Nat.sub_0_r in Hmod.
  rewrite forallb_forall in Hsame. apply Hsame.
  unfold sampled_positions. fold len step. apply filter_In. split.
  - apply in_seq. lia.
  - by apply Nat.eqb_eq.
Qed.

(** X29.  [getBusinessCategoriesForMood] answers every mood string: it
    never throws, and its answer is a list of five categories (or the
    object found for a name [Object.prototype] provides).  Each of the
    fifteen moods of the classifier gets a list.  A mood that is empty
    after trimming matches the first entry and gets the categories of
    [happy]. *)
Theorem getBusinessCategoriesForMood_always_answers (mood : string) :
  (∃ c, getBusinessCategoriesForMood (MoodString mood) = Return c ∧
        (c = CategoryInherited ∨ ∃ l, c = CategoryList l ∧ length l = 5%nat)) ∧
  (mood ∈ validMoods →
   ∃ l, getBusinessCategoriesForMood (MoodString mood) = Return (CategoryList l)) ∧
  (JS.trim (JS.toLowerCase mood) = "" →
   getBusinessCategoriesForMood (MoodString mood)
   = Return (CategoryList ["restaurant"; "amusement_park"; "shopping_mall";
                           "movie_theater"; "park"])).
Proof.
  split; [|split].
  - unfold getBusinessCategoriesForMood.
    set (k := JS.trim (JS.toLowerCase mood)). clearbody k.
    assert (Forall (λ entry : string * list string, length entry.2 = 5%nat)
              MOOD_BUSINESS_MAPPING) as Hrows by (repeat constructor).
    destruct (JS.Map_get MOOD_BUSINESS_MAPPING k) as [l|] eqn:Hget.
    { eexists. split; [reflexivity|]. right. exists l. split; [done|].
      revert Hget. unfold MOOD_BUSINESS_MAPPING. cbn [JS.Map_get].
      repeat (destruct (String.eqb _ k); [by intros [= <-]|]). discriminate. }
    case_bool_decide; [eexists; split; [reflexivity | by left]|].
    destruct (find _ MOOD_BUSINESS_MAPPING) as [entry|] eqn:Hfind.
    + eexists. split; [reflexivity|]. right. exists entry.2. split; [done|].
      apply find_some in Hfind as [Hin _]. rewrite Forall_forall in Hrows.
      apply Hrows. by apply list_elem_of_In.
    + eexists. split; [reflexivity|]. right. eexists. split; reflexivity.
  - intros Hin. unfold validMoods in Hin.
    repeat (apply elem_of_cons in Hin as [->|Hin];
            [eexists; vm_compute; reflexivity|]).
    by apply elem_of_nil in Hin.
  - intros Hk. unfold getBusinessCategoriesForMood. rewrite Hk. reflexivity.
Qed.

Section Runtime.
Variable JSON_parse : string → Completion JS.Json.
Variable ToString : JS.Json → string.

#[local] Abbreviation analyzeMood := (analyzeMood JSON_parse ToString).
#[local] Abbreviation analyzeMood_try := (analyzeMood_try JSON_parse ToString).
#[local] Abbreviation callOpenAIAPI := (callOpenAIAPI JSON_parse ToString).
#[local] Abbreviation parseAnalysis := (parseAnalysis JSON_parse ToString).
#[local] Abbreviation produceAnalysis := (produceAnalysis JSON_parse ToString).

Lemma normalised_mood_valid (normalizedMood : string) :
  let primaryMood :=
    if existsb (String.eqb normalizedMood) validMoods
    then MoodString normalizedMood
    else default (MoodString "creative")
           (findClosestMood normalizedMood validMoods) in
  primaryMood = MoodObject ∨ ∃ s, primaryMood = MoodString s ∧ s ∈ validMoods.
Proof.
  cbv zeta.
  destruct (existsb (String.eqb normalizedMood) validMoods) eqn:Hex.
  - right. exists normalizedMood. split; [reflexivity|].
    by apply existsb_eqb_elem_of.
  - destruct (findClosestMood normalizedMood validMoods) as [[s| |]|] eqn:Hf;
      cbn [default].
    + right. exists s. split; [done|].
      by apply (findClosestMood_listed normalizedMood).
    + by left.
    + exfalso. revert Hf. unfold findClosestMood.
      destruct (_ || _); [discriminate|].
      destruct (existsb _ _); [discriminate|].
      destruct (find _ _); [discriminate|].
      destruct (JS.Map_get _ _); [discriminate|].
      case_bool_decide; discriminate.
    + right. exists "creative". split; [done|].
      unfold validMoods.
      repeat first [apply list_elem_of_here | apply list_elem_of_further].
Qed.

Lemma normalised_confidence_valid (c : option JS.Json) :
  0 <= match c with
       | Some (JS.JNumber c) => if JS.lt c 0 || JS.lt 1 c then 0.75 else c
       | _ => 0.75
       end <= 1.
Proof.
  destruct c as [[| |c| | |]|]; try lra.
  destruct (JS.lt c 0) eqn:H0; [cbn; lra|].
  destruct (JS.lt 1 c) eqn:H1; [cbn; lra|]. cbn [orb].
  unfold JS.lt in H0, H1. apply negb_false_iff, Qle_bool_iff in H0, H1. lra.
Qed.

Lemma parseAnalysis_normalised env content r :
  parseAnalysis env content = Return r →
  ∃ d, moodData r = Some d ∧
       (primaryMood d = MoodObject
        ∨ ∃ s, primaryMood d = MoodString s ∧ s ∈ validMoods) ∧
       0 <= confidence d <= 1 ∧
       (length (recommendations d) ≤ 4)%nat ∧
       description d ≠ "".
Proof.
  unfold MoodAnalysisService.parseAnalysis.
  destruct (JSON_parse _) as [json|e]; [|discriminate].
  intros Hr.
  destruct json as [| | | | |fields]; try discriminate Hr.
  set (json := JS.JObject fields) in *.
  destruct (JS.field json "primaryMood") as [[| | |mood| |]|];
    try discriminate Hr.
  destruct (String.eqb mood ""); [discriminate Hr|].
  destruct (JS.field json "description") as [[| | |text| |]|];
    try discriminate Hr.
  destruct (String.eqb text "") eqn:Htext; [discriminate Hr|].
  apply String.eqb_neq in Htext.
  injection Hr as <-.
  eexists. split; [reflexivity|].
  split; [apply normalised_mood_valid|].
  split; [apply normalised_confidence_valid|].
  split; [|done].
  cbn [recommendations]. rewrite length_map, length_firstn. lia.
Qed.

(** X24.  Whatever the classifier answers, a result that
    [callOpenAIAPI] returns has been normalised: its primary mood is one of
    the fifteen listed moods (or the object found for a name
    [Object.prototype] provides), its confidence lies in [0, 1], and it
    has at most four recommendations and a non-empty description. *)
Theorem callOpenAIAPI_answer_is_normalised
    (env : Ambient) (imageData : string) (r : AnalysisResult) :
  callOpenAIAPI env imageData = Return r →
  ∃ d, moodData r = Some d ∧
       (primaryMood d = MoodObject
        ∨ ∃ s, primaryMood d = MoodString s ∧ s ∈ validMoods) ∧
       0 <= confidence d <= 1 ∧
       (length (recommendations d) ≤ 4)%nat ∧
       description d ≠ "".
Proof.
  unfold MoodAnalysisService.callOpenAIAPI.
  destruct (fetch env) as [| | |[| |content]]; try discriminate.
  destruct (parseAnalysis env (JS.trim content)) as [r0|e] eqn:Hp; [|discriminate].
  intros [= <-]. by apply (parseAnalysis_normalised env (JS.trim content)).
Qed.


(** *** The classifier quota and the result cache *)

#[local] Abbreviation openai_counter w :=
  (RateLimiter.counter (LocalStorageManager.limiter (storage w)) "openai").
#[local] Abbreviation limiter_initialized w :=
  (RateLimiter.initialized (LocalStorageManager.limiter (storage w)) = true).

Lemma checkDatabaseQuota_openai {A} env (w : LocalStorageManager.World A) :
  RateLimiter.initialized (LocalStorageManager.limiter w) = true →
  RateLimiter.initialized
    (LocalStorageManager.limiter (LocalStorageManager.checkDatabaseQuota env w).2)
    = true ∧
  RateLimiter.counter
    (LocalStorageManager.limiter (LocalStorageManager.checkDatabaseQuota env w).2)
    "openai"
  = RateLimiter.counter (LocalStorageManager.limiter w) "openai".
Proof.
  intros Hi. unfold LocalStorageManager.checkDatabaseQuota.
  pose proof (RateLimiterLaws.checkQuota_state
                (LocalStorageManager.clock env) "database"
                (LocalStorageManager.limiter w)) as Hst.
  rewrite (RateLimiterFacts.initialize_initialized _ _ Hi) in Hst.
  destruct (RateLimiter.checkQuota _ "database" _) as [r l1].
  cbn [snd] in Hst. subst l1.
  destruct r as [[|]|e]; [|by destruct w..].
  pose proof (RateLimiterLaws.incrementUsage_initialized
                (LocalStorageManager.clock env) "database"
                (LocalStorageManager.limiter w)) as Hi2.
  pose proof (RateLimiterLaws.incrementUsage_counter_ne
                (LocalStorageManager.clock env) "database" "openai"
                (LocalStorageManager.limiter w)) as Hc.
  rewrite (RateLimiterFacts.initialize_initialized _ _ Hi) in Hc.
  destruct (RateLimiter.incrementUsage _ "database" _) as [r l2].
  cbn [snd] in *. split; [done|]. by apply Hc.
Qed.

Lemma saveMoodEntry_openai {A} env data (w : LocalStorageManager.World A) :
  RateLimiter.initialized (LocalStorageManager.limiter w) = true →
  RateLimiter.initialized
    (LocalStorageManager.limiter (LocalStorageManager.saveMoodEntry env data w).2)
    = true ∧
  RateLimiter.counter
    (LocalStorageManager.limiter (LocalStorageManager.saveMoodEntry env data w).2)
    "openai"
  = RateLimiter.counter (LocalStorageManager.limiter w) "openai".
Proof.
  intros Hi. unfold LocalStorageManager.saveMoodEntry.
  destruct (LocalStorageManagerFacts.initialize_keeps env w) as (Hl & _).
  destruct (LocalStorageManager.initialize env w) as [r0 w0]. cbn [snd] in Hl.
  destruct r0 as [u|e]; [|cbn [snd]; by rewrite Hl].
  rewrite <- Hl in Hi |- *.
  pose proof (checkDatabaseQuota_openai env w0 Hi) as H.
  destruct (LocalStorageManager.checkDatabaseQuota env w0) as [r1 w1].
  cbn [snd] in H.
  destruct r1 as [[|]|e]; [|done..].
  by destruct (LocalStorageManager.put_error env).
Qed.

Lemma storeAnalysisResult_keeps env r data w :
  service (storeAnalysisResult env r data w) = service w ∧
  tidb_requests (storeAnalysisResult env r data w) = tidb_requests w ∧
  (limiter_initialized w →
   limiter_initialized (storeAnalysisResult env r data w) ∧
   openai_counter (storeAnalysisResult env r data w) = openai_counter w).
Proof.
  unfold storeAnalysisResult.
  assert (service (getSessionId env w).2 = service w ∧
          tidb_requests (getSessionId env w).2 = tidb_requests w ∧
          storage (getSessionId env w).2 = storage w) as (Hs & Ht & Hst).
  { unfold getSessionId. destruct (negb (localStorage_readable w)); [done|].
    destruct (session_id_item w) as [s|];
      [destruct (String.eqb s "")|]; try done;
      by destruct (localStorage_writable w). }
  destruct (getSessionId env w) as [sid w1]. cbn [snd] in Hs, Ht, Hst.
  destruct sid as [sessionId|e]; [|by rewrite Hs, Ht, Hst].
  set (entry := {| LocalStorageManager.id := _ |}).
  pose proof (saveMoodEntry_openai (storage_env env) entry (storage w1)) as H.
  destruct (LocalStorageManager.saveMoodEntry (storage_env env) entry (storage w1))
    as [r1 s1].
  cbn [snd service tidb_requests with_storage storage] in *.
  rewrite Hst in H. done.
Qed.

Lemma finishAnalysis_keeps env data key r w :
  isInitialized (service (finishAnalysis env data key r w).2)
    = isInitialized (service w) ∧
  (limiter_initialized w →
   limiter_initialized (finishAnalysis env data key r w).2 ∧
   openai_counter (finishAnalysis env data key r w).2 = openai_counter w) ∧
  (∀ r', (finishAnalysis env data key r w).1 = Return r' →
         JS.Map_get (analysisCache (service (finishAnalysis env data key r w).2)) key
         = Some r').
Proof.
  unfold finishAnalysis.
  destruct (getBusinessCategoriesForMood _) as [categories|e];
    [|cbn [fst snd]; split; [done|]; split; [done|]; discriminate].
  set (r1 := {| moodData := moodData r; processingTime := _; isMockData := _;
                timestamp := _; businessCategories := _; metadata := _ |}).
  set (w1 := saveAnalysisCache (with_service _ w)).
  assert (service w1 = {| apiKey := apiKey (service w);
                          isInitialized := isInitialized (service w);
                          analysisCache :=
                            JS.Map_set (analysisCache (service w)) key r1 |}
          ∧ storage w1 = storage w) as [Hsvc Hst].
  { unfold w1, saveAnalysisCache. by destruct (localStorage_writable _). }
  destruct (storeAnalysisResult_keeps env r1 data w1) as (Hs2 & _ & Hl2).
  set (w2 := storeAnalysisResult env r1 data w1) in *.
  assert (∀ w3, w3 = match moodData r1 with
                     | Some d => saveMoodToTiDB (primaryMood d) (confidence d) w2
                     | None => w2
                     end →
                service w3 = service w2 ∧ storage w3 = storage w2) as Htidb.
  { intros w3 ->. by destruct (moodData r1). }
  destruct (Htidb _ eq_refl) as [Hs3 Hst3]. cbn [fst snd].
  rewrite Hs3, Hst3, Hs2, Hsvc. cbn [isInitialized analysisCache].
  split; [done|]. split.
  - intros Hi. rewrite <- Hst in Hi. apply Hl2 in Hi as [Hi Hc].
    split; [done|]. by rewrite Hc, Hst.
  - intros r' [= <-]. apply JSLaws.Map_get_set_eq.
Qed.

Lemma incrementUsage_own clk s st sq :
  RateLimiter.initialized st = true →
  RateLimiter.counter st s = Some sq →
  ∃ sq', RateLimiter.counter (RateLimiter.incrementUsage clk s st).2 s = Some sq' ∧
         RateLimiter.limit sq' = RateLimiter.limit sq ∧
         (RateLimiter.used sq' = RateLimiter.used sq
          ∨ RateLimiter.used sq' = RateLimiter.used sq + 1)%Z.
Proof.
  intros Hi Hc. unfold RateLimiter.incrementUsage.
  rewrite (RateLimiterFacts.initialize_initialized _ _ Hi).
  unfold RateLimiter.counter in Hc.
  destruct (RateLimiter.quotas st) as [q|] eqn:Hq; [|discriminate].
  cbn in Hc. rewrite (RateLimiterFacts.known_service_own _ _ _ Hc).
  destruct (RateLimiter.limit sq <=? RateLimiter.used sq)%Z; cbn [snd].
  - exists sq. unfold RateLimiter.counter. rewrite Hq. cbn. auto.
  - eexists. unfold RateLimiter.counter.
    rewrite RateLimiterFacts.saveQuotas_quotas. cbn.
    rewrite lookup_insert_eq. split; [reflexivity|]. cbn. auto.
Qed.

Lemma produceAnalysis_keeps env image w sq :
  limiter_initialized w →
  openai_counter w = Some sq →
  service (produceAnalysis env image w).2 = service w ∧
  limiter_initialized (produceAnalysis env image w).2 ∧
  ∃ sq', openai_counter (produceAnalysis env image w).2 = Some sq' ∧
         RateLimiter.limit sq' = RateLimiter.limit sq ∧
         (RateLimiter.used sq' = RateLimiter.used sq
          ∨ (RateLimiter.used sq' = RateLimiter.used sq + 1)%Z
            ∧ ∃ r, callOpenAIAPI env image = Return r).
Proof.
  intros Hi Hc. unfold MoodAnalysisService.produceAnalysis.
  assert (∃ sq', Some sq = Some sq' ∧
                 RateLimiter.limit sq' = RateLimiter.limit sq ∧
                 (RateLimiter.used sq' = RateLimiter.used sq
                  ∨ (RateLimiter.used sq' = RateLimiter.used sq + 1)%Z
                    ∧ ∃ r, callOpenAIAPI env image = Return r)) as Hsame
    by (exists sq; auto).
  destruct (is_truthy (apiKey (service w)));
    [|cbn [snd]; by rewrite Hc].
  destruct (isDevelopment env) as [[|]|e]; cbn [negb snd]; try (by rewrite Hc).
  destruct (callOpenAIAPI env image) as [r|e] eqn:Hcall;
    [|cbn [snd]; by rewrite Hc].
  pose proof (RateLimiterLaws.incrementUsage_initialized
                (LocalStorageManager.clock (storage_env env)) "openai"
                (LocalStorageManager.limiter (storage w))) as Hi2.
  destruct (incrementUsage_own (LocalStorageManager.clock (storage_env env))
              "openai" _ sq Hi Hc) as (sq' & Hc' & Hl & Hu).
  destruct (RateLimiter.incrementUsage _ "openai" _) as [r1 l].
  cbn [snd] in Hi2, Hc'.
  assert (service (with_limiter l w) = service w ∧
          limiter_initialized (with_limiter l w) ∧
          openai_counter (with_limiter l w) = Some sq') as (H1 & H2 & H3) by done.
  destruct r1; cbn [snd]; rewrite H1, H3; (split; [done|]); (split; [done|]);
    exists sq'; (split; [done|]); (split; [done|]);
    destruct Hu; eauto.
Qed.


Lemma analyzeMood_try_keeps env exportData w sq :
  limiter_initialized w →
  openai_counter w = Some sq →
  isInitialized (service (analyzeMood_try env exportData w).2)
    = isInitialized (service w) ∧
  ∃ sq', openai_counter (analyzeMood_try env exportData w).2 = Some sq' ∧
         RateLimiter.limit sq' = RateLimiter.limit sq ∧
         (RateLimiter.used sq' = RateLimiter.used sq
          ∨ (RateLimiter.used sq' = RateLimiter.used sq + 1)%Z
            ∧ ∃ data url r,
                exportData = Some data ∧ dataUrl data = Some url
                ∧ callOpenAIAPI env url = Return r).
Proof.
  intros Hi Hc. unfold MoodAnalysisService.analyzeMood_try.
  set (clk := LocalStorageManager.clock (storage_env env)).
  pose proof (RateLimiterLaws.checkQuota_state clk "openai"
                (LocalStorageManager.limiter (storage w))) as Hst.
  rewrite (RateLimiterFacts.initialize_initialized _ _ Hi) in Hst.
  destruct (RateLimiter.checkQuota clk "openai" _) as [can l].
  cbn [snd] in Hst. subst l.
  assert (with_limiter (LocalStorageManager.limiter (storage w)) w = w) as ->
    by (by destruct w as [? [] ? ? ? ? ?]).
  assert (∃ sq', openai_counter w = Some sq' ∧
                 RateLimiter.limit sq' = RateLimiter.limit sq ∧
                 (RateLimiter.used sq' = RateLimiter.used sq
                  ∨ (RateLimiter.used sq' = RateLimiter.used sq + 1)%Z
                    ∧ ∃ data url r,
                        exportData = Some data ∧ dataUrl data = Some url
                        ∧ callOpenAIAPI env url = Return r)) as Hsame
    by (exists sq; auto).
  destruct can as [can|e]; [|done].
  pose proof (RateLimiterLaws.getAllQuotas_state clk
                (LocalStorageManager.limiter (storage w))) as Hst.
  rewrite (RateLimiterFacts.initialize_initialized _ _ Hi) in Hst.
  destruct (RateLimiter.getAllQuotas clk _) as [info l].
  cbn [snd] in Hst. subst l.
  assert (with_limiter (LocalStorageManager.limiter (storage w)) w = w) as ->
    by (by destruct w as [? [] ? ? ? ? ?]).
  destruct info as [info|e]; [|done].
  destruct (RateLimiter.aq_services info !! "openai"); [|done].
  destruct (negb can); [done|].
  destruct exportData as [data|]; [|done].
  destruct (dataUrl data) as [url|] eqn:Hurl; [|done].
  destruct (negb (is_truthy (Some url))); [done|].
  change (default "" (Some url)) with url.
  destruct (JS.Map_get (analysisCache (service w)) (generateCacheKey url));
    [done|].
  unfold optimizeImageForAPI.
  destruct (produceAnalysis_keeps env url w sq Hi Hc)
    as (Hsvc & Hi1 & sq1 & Hc1 & Hl1 & Hu1).
  destruct (produceAnalysis env url w) as [r w1]. cbn [snd] in *.
  destruct r as [r|e].
  - destruct (finishAnalysis_keeps env data (generateCacheKey url) r w1)
      as (Hinit & Hlim & _).
    destruct (Hlim Hi1) as [_ Hc2].
    rewrite Hinit, Hsvc. split; [done|]. exists sq1. rewrite Hc2.
    split; [done|]. split; [done|].
    destruct Hu1 as [?|[? [r0 ?]]]; [by left|]. right. split; [done|].
    by exists data, url, r0.
  - cbn [snd]. rewrite Hsvc. split; [done|]. exists sq1.
    split; [done|]. split; [done|].
    destruct Hu1 as [?|[? [r0 ?]]]; [by left|]. right. split; [done|].
    by exists data, url, r0.
Qed.

(** X25.  [analyzeMood] charges the classifier quota at most once, and
    only for an answer of the classifier.  On an initialised service and
    limiter the [openai] counter after the call is the counter before it or
    one more, its limit is unchanged, and it is one more only if
    [callOpenAIAPI] returned a result for the drawing: a rejected, cached,
    mocked, failed or invalid request costs nothing. *)
Theorem analyzeMood_charges_only_classifier_answers
    (env : Ambient) (exportData : option ExportData) (w : World)
    (sq : RateLimiter.ServiceQuota) :
  isInitialized (service w) = true →
  RateLimiter.initialized (LocalStorageManager.limiter (storage w)) = true →
  RateLimiter.counter (LocalStorageManager.limiter (storage w)) "openai"
    = Some sq →
  ∃ sq',
    RateLimiter.counter
      (LocalStorageManager.limiter (storage (analyzeMood env exportData w).2))
      "openai" = Some sq' ∧
    RateLimiter.limit sq' = RateLimiter.limit sq ∧
    (RateLimiter.used sq' = RateLimiter.used sq
     ∨ (RateLimiter.used sq' = RateLimiter.used sq + 1)%Z
       ∧ ∃ data url r,
           exportData = Some data ∧ dataUrl data = Some url
           ∧ callOpenAIAPI env url = Return r).
Proof.
  intros Hinit Hi Hc. unfold MoodAnalysisService.analyzeMood, ensure_initialized.
  rewrite Hinit.
  destruct (analyzeMood_try_keeps env exportData w sq Hi Hc) as (_ & H).
  destruct (analyzeMood_try env exportData w) as [r w1]. cbn [snd] in H.
  by destruct r.
Qed.

(** The guarded block on a drawing whose key is in the cache. *)
Lemma analyzeMood_try_cache_hit env data url cached w :
  (RateLimiter.checkQuota (LocalStorageManager.clock (storage_env env)) "openai"
     (LocalStorageManager.limiter (storage w))).1 = Return true →
  dataUrl data = Some url →
  url ≠ "" →
  JS.Map_get (analysisCache (service w)) (generateCacheKey url) = Some cached →
  analyzeMood_try env (Some data) w
  = (Return cached,
     with_limiter
       (RateLimiter.initialize (LocalStorageManager.clock (storage_env env))
          (LocalStorageManager.limiter (storage w))) w).
Proof.
  intros Hq Hurl Hne Hcache. unfold MoodAnalysisService.analyzeMood_try.
  set (clk := LocalStorageManager.clock (storage_env env)) in *.
  destruct (RateLimiterLaws.checkQuota_true _ _ _ Hq) as (q & sq0 & Hq0 & Hs0 & _).
  pose proof (RateLimiterLaws.checkQuota_state clk "openai"
                (LocalStorageManager.limiter (storage w))) as Hst.
  destruct (RateLimiter.checkQuota clk "openai" _) as [can l].
  cbn [fst snd] in Hq, Hst. subst can l.
  set (l := RateLimiter.initialize clk (LocalStorageManager.limiter (storage w))) in *.
  cbn [with_limiter with_storage storage LocalStorageManager.with_limiter
       LocalStorageManager.limiter].
  unfold RateLimiter.getAllQuotas.
  unfold l at 1. rewrite RateLimiterFacts.initialize_idempotent. fold l.
  rewrite Hq0. cbn [RateLimiter.aq_services].
  rewrite lookup_fmap, Hs0. cbn [fmap option_fmap option_map negb].
  rewrite Hurl. unfold is_truthy.
  apply String.eqb_neq in Hne. rewrite Hne.
  change (default "" (Some url)) with url. cbn [negb].
  change (service (with_limiter (RateLimiter.initialize clk l) (with_limiter l w)))
    with (service w).
  rewrite Hcache. unfold l. by rewrite RateLimiterFacts.initialize_idempotent.
Qed.

(** X26.  A drawing whose key is in the analysis cache is answered from
    the cache: with classifier quota left, [analyzeMood] returns the cached
    result and changes nothing (no quota is used, nothing is stored, no
    request is sent). *)
Theorem analyzeMood_answers_from_the_cache
    (env : Ambient) (data : ExportData) (url : string)
    (cached : AnalysisResult) (w : World) :
  isInitialized (service w) = true →
  RateLimiter.initialized (LocalStorageManager.limiter (storage w)) = true →
  (RateLimiter.checkQuota (LocalStorageManager.clock (storage_env env)) "openai"
     (LocalStorageManager.limiter (storage w))).1 = Return true →
  dataUrl data = Some url →
  url ≠ "" →
  JS.Map_get (analysisCache (service w)) (generateCacheKey url) = Some cached →
  analyzeMood env (Some data) w = (Return cached, w).
Proof.
  intros Hinit Hi Hq Hurl Hne Hcache.
  unfold MoodAnalysisService.analyzeMood, ensure_initialized. rewrite Hinit.
  rewrite (analyzeMood_try_cache_hit env data url cached w Hq Hurl Hne Hcache).
  rewrite (RateLimiterFacts.initialize_initialized _ _ Hi).
  by destruct w as [? [] ? ? ? ? ?].
Qed.

Lemma analyzeMood_try_caches env data url r w w' :
  dataUrl data = Some url →
  analyzeMood_try env (Some data) w = (Return r, w') →
  url ≠ "" ∧
  isInitialized (service w') = isInitialized (service w) ∧
  JS.Map_get (analysisCache (service w')) (generateCacheKey url) = Some r.
Proof.
  intros Hurl. unfold MoodAnalysisService.analyzeMood_try.
  destruct (RateLimiter.checkQuota _ "openai" _) as [can l].
  destruct can as [can|e]; [|discriminate].
  destruct (RateLimiter.getAllQuotas _ _) as [info l'].
  destruct info as [info|e]; [|discriminate].
  destruct (RateLimiter.aq_services info !! "openai"); [|discriminate].
  destruct (negb can); [discriminate|].
  rewrite Hurl. unfold is_truthy.
  destruct (String.eqb url "") eqn:Hne; [discriminate|].
  apply String.eqb_neq in Hne. change (default "" (Some url)) with url.
  cbn [negb].
  set (w0 := with_limiter l' (with_limiter l w)).
  assert (service w0 = service w) as Hsvc0 by done.
  destruct (JS.Map_get (analysisCache (service w0)) (generateCacheKey url))
    as [cached|] eqn:Hcache.
  { intros [= <- <-]. by rewrite Hsvc0 in *. }
  unfold optimizeImageForAPI.
  assert (service (produceAnalysis env url w0).2 = service w0) as Hsvc1.
  { unfold MoodAnalysisService.produceAnalysis.
    destruct (is_truthy (apiKey (service w0))); [|done].
    destruct (isDevelopment env) as [[|]|]; cbn [negb]; try done.
    destruct (callOpenAIAPI env url); [|done].
    destruct (RateLimiter.incrementUsage _ _ _) as [[]]; done. }
  destruct (produceAnalysis env url w0) as [r1 w1]. cbn [snd] in Hsvc1.
  destruct r1 as [r1|e]; [|discriminate].
  destruct (finishAnalysis_keeps env data (generateCacheKey url) r1 w1)
    as (Hinit & _ & Hc).
  intros Hrun. rewrite Hrun in Hinit, Hc. cbn [fst snd] in Hinit, Hc.
  split; [done|]. split; [by rewrite Hinit, Hsvc1, Hsvc0|]. by apply Hc.
Qed.

(** X27.  Submitting the same drawing again gives the same answer.  If
    [analyzeMood] returned a result that is not the fallback, then a
    second call with the same [dataUrl], while classifier quota is left,
    returns that very result, whatever the classifier or the random source
    would answer now. *)
Theorem analyzeMood_same_drawing_same_answer
    (env env2 : Ambient) (data : ExportData) (url : string)
    (r : AnalysisResult) (w w' : World) :
  isInitialized (service w) = true →
  dataUrl data = Some url →
  analyzeMood env (Some data) w = (Return r, w') →
  isFallback <$> metadata r ≠ Some true →
  (RateLimiter.checkQuota (LocalStorageManager.clock (storage_env env2)) "openai"
     (LocalStorageManager.limiter (storage w'))).1 = Return true →
  (analyzeMood env2 (Some data) w').1 = Return r.
Proof.
  intros Hinit Hurl Hrun Hnf Hq.
  unfold MoodAnalysisService.analyzeMood, ensure_initialized in Hrun.
  rewrite Hinit in Hrun.
  destruct (analyzeMood_try env (Some data) w) as [r1 w1] eqn:Htry.
  destruct r1 as [r1|message].
  - injection Hrun as <- <-.
    destruct (analyzeMood_try_caches env data url r1 w w1 Hurl Htry)
      as (Hne & Hinit1 & Hcache).
    unfold MoodAnalysisService.analyzeMood, ensure_initialized.
    rewrite Hinit1, Hinit.
    by rewrite (analyzeMood_try_cache_hit env2 data url r1 w1 Hq Hurl Hne Hcache).
  - exfalso. apply Hnf. unfold analyzeMood_catch in Hrun.
    destruct (JS.includes "quota exceeded" message); [discriminate|].
    destruct (MoodAnalysisServiceFacts.generateFallbackAnalysis_returns message
                (LocalStorageManager.now_iso (storage_env env)))
      as (r0 & d & md & Hr0 & _ & _ & _ & _ & _ & Hmd & Hfb & _).
    rewrite Hr0 in Hrun. injection Hrun as <- _. by rewrite Hmd; cbn; rewrite Hfb.
Qed.

End Runtime.

Lemma callOpenAIAPI_answer_is_normalised_witness :
  let env := {| storage_env := storage_env analysis_env;
                getApiKey_openai := getApiKey_openai analysis_env;
                isDevelopment := isDevelopment analysis_env;
                random := random analysis_env;
                fetch := ResponseOk (MessageContent "{...}");
                api_processingTime := 1200%Z; metadata_processingTime := 0%Z;
                session_random36 := "p0o9i8u7y" |} in
  ∃ r d, callOpenAIAPI canned_parse plain_ToString env "data:image/png;base64,AAAA"
           = Return r ∧
         moodData r = Some d ∧
         primaryMood d = MoodString "happy" ∧
         0 <= confidence d <= 1 ∧
         (length (recommendations d) ≤ 4)%nat.
Proof.
  intros env.
  destruct (callOpenAIAPI canned_parse plain_ToString env
              "data:image/png;base64,AAAA") as [r|e] eqn:Hrun.
  - destruct (callOpenAIAPI_answer_is_normalised canned_parse plain_ToString env
                "data:image/png;base64,AAAA" r Hrun)
      as (d & Hd & _ & Hc & Hl & _).
    exists r, d. split; [reflexivity|]. split; [exact Hd|].
    split; [|split; [exact Hc | exact Hl]].
    vm_compute in Hrun. injection Hrun as <-.
    injection Hd as <-. reflexivity.
  - vm_compute in Hrun. discriminate Hrun.
Defined.

(** The answer is patched, not rebuilt: marks the classifier put on it
    are still there. *)
Example callOpenAIAPI_keeps_marks_of_the_answer :
  match callOpenAIAPI marked_parse plain_ToString analysis_env
          "data:image/png;base64,AAAA" with
  | Return r =>
      isMockData r = true ∧ timestamp r = Some "2020-02-02T02:02:02.000Z"
  | Throw _ => False
  end.
Proof. vm_compute. by split. Qed.

Lemma generateCacheKey_reads_sampled_characters_only_witness :
  let s1 := repeat_text 1000 "ab" in
  let s2 := repeat_text 1000 "aZ" in
  s1 ≠ s2 ∧ generateCacheKey s1 = generateCacheKey s2.
Proof.
  intros s1 s2. split.
  - intros H. apply (f_equal (String.get 1)) in H. vm_compute in H. discriminate H.
  - apply (generateCacheKey_reads_sampled_characters_only s1 s2).
    + vm_compute. reflexivity.
    + vm_compute. reflexivity.
Defined.

(** X30.  The history reader of the analysis service answers a denied
    database quota with the empty list: the storage manager throws, the
    exception is swallowed, and the moods kept in the [localStorage]
    fallback are neither returned nor changed. *)
Theorem getMoodHistory_hides_a_denied_quota
    (rq : LocalStorageManagerStores.Requests) (limit : Z) (w : World) :
  (RateLimiter.checkQuota
     (LocalStorageManager.clock (LocalStorageManagerStores.env rq)) "database"
     (LocalStorageManager.limiter (storage w))).1 = Return false →
  (MoodAnalysisServiceHistory.getMoodHistory rq limit w).1 = [] ∧
  LocalStorageManager.mood_cache
    (storage (MoodAnalysisServiceHistory.getMoodHistory rq limit w).2)
  = LocalStorageManager.mood_cache (storage w).
Proof.
  intros Hdenied. unfold MoodAnalysisServiceHistory.getMoodHistory.
  unfold LocalStorageManagerStores.getMoodHistory.
  destruct (LocalStorageManagerFacts.initialize_keeps
              (LocalStorageManagerStores.env rq) (storage w)) as (Hl & _ & _ & Hm).
  destruct (LocalStorageManager.initialize _ (storage w)) as [r0 w0].
  cbn [snd] in Hl, Hm.
  destruct r0 as [u|e]; [|by rewrite <- Hm].
  destruct (LocalStorageManagerFacts.checkDatabaseQuota_denied
              (LocalStorageManagerStores.env rq) w0) as (w1 & -> & _ & _ & Hm1).
  { by rewrite Hl. }
  cbn [fst snd storage with_storage]. by rewrite Hm1, Hm.
Qed.

Lemma getMoodHistory_hides_a_denied_quota_witness :
  (MoodAnalysisServiceHistory.getMoodHistory
     LocalStorageManagerStoresSpec.example_requests 10
     world_without_database_quota).1 = [] ∧
  length (LocalStorageManager.getCachedMoodHistory
            (storage (MoodAnalysisServiceHistory.getMoodHistory
                        LocalStorageManagerStoresSpec.example_requests 10
                        world_without_database_quota).2)) = 1%nat.
Proof.
  destruct (getMoodHistory_hides_a_denied_quota
              LocalStorageManagerStoresSpec.example_requests 10
              world_without_database_quota) as [H1 H2]; [reflexivity|].
  split; [exact H1|]. unfold LocalStorageManager.getCachedMoodHistory.
  rewrite H2. reflexivity.
Defined.

Lemma analyzeMood_charges_only_classifier_answers_witness :
  ∃ sq',
    RateLimiter.counter
      (LocalStorageManager.limiter
         (storage (analyzeMood canned_parse plain_ToString analysis_env
                     (Some example_export) example_world).2))
      "openai" = Some sq' ∧
    RateLimiter.limit sq' = 50%Z ∧
    (RateLimiter.used sq' = 0%Z
     ∨ (RateLimiter.used sq' = 0 + 1)%Z
       ∧ ∃ data url r,
           Some example_export = Some data ∧ dataUrl data = Some url
           ∧ callOpenAIAPI canned_parse plain_ToString analysis_env url = Return r).
Proof.
  apply (analyzeMood_charges_only_classifier_answers canned_parse plain_ToString
           analysis_env (Some example_export) example_world
           {| RateLimiter.used := 0; RateLimiter.limit := 50 |});
    reflexivity.
Defined.

Lemma analyzeMood_answers_from_the_cache_witness :
  analyzeMood rejecting_parse plain_ToString analysis_env (Some example_export)
    world_with_cache
  = (Return cached_result, world_with_cache).
Proof.
  apply (analyzeMood_answers_from_the_cache rejecting_parse plain_ToString
           analysis_env example_export
           "data:image/jpeg;base64,/9j/4AAQSkZJRgABAQAAAQABAAD"
           cached_result world_with_cache).
  - reflexivity.
  - reflexivity.
  - vm_compute. reflexivity.
  - reflexivity.
  - discriminate.
  - vm_compute. reflexivity.
Defined.

Lemma analyzeMood_same_drawing_same_answer_witness :
  let run := analyzeMood canned_parse plain_ToString analysis_env
               (Some example_export) example_world in
  ∃ r, run.1 = Return r ∧
       (analyzeMood canned_parse plain_ToString analysis_env
          (Some example_export) run.2).1 = Return r.
Proof.
  intros run.
  destruct run as [[r|e] w'] eqn:Hrun; cbn [fst snd].
  - exists r. split; [reflexivity|].
    apply (analyzeMood_same_drawing_same_answer canned_parse
             plain_ToString analysis_env analysis_env example_export
             "data:image/jpeg;base64,/9j/4AAQSkZJRgABAQAAAQABAAD"
             r example_world w').
    + reflexivity.
    + reflexivity.
    + exact Hrun.
    + apply (f_equal fst) in Hrun. vm_compute in Hrun. injection Hrun as <-.
      vm_compute. discriminate.
    + apply (f_equal snd) in Hrun. cbn [snd] in Hrun. rewrite <- Hrun.
      vm_compute. reflexivity.
  - apply (f_equal fst) in Hrun. vm_compute in Hrun. discriminate Hrun.
Defined.

Close Scope Q_scope.
End MoodAnalysisServiceLaws.
